(** * metrica: the DCF projection and valuation engine (src/dcf_calculator.py)

    A shallow embedding of [clean_and_convert] and of the class [DCFModel]
    ([_load_data], [_calculate_projection], [_calculate_valuation],
    [run_model]) together with the sensitivity entry point
    [recalculate_dcf_model_sync] of src/main.py.

    Numbers are IEEE-754 binary64 values (Rocq's primitive [float]), the
    type of Python's [float] and of numpy's [float64].  Python exceptions
    are values of an error monad [res].  The [pandas.DataFrame] that holds
    the projection is an association list from (row label, column name) to a
    float, with the list of row labels and the list of columns next to it.

    Scope of the embedding: cell text is ASCII (a [string] is a sequence of
    bytes); a workbook cell is blank, an integer, a float or a text; a
    method that raises leaves no result, and the state of the object after
    an exception is not tracked. *)

From Stdlib Require Import ZArith String Ascii List Bool.
From Stdlib Require Import Floats.
From stdpp Require Import base tactics option list strings.
Import ListNotations.
Open Scope Z_scope.
Set Warnings "-inexact-float".

(** ** Python exceptions as an error monad *)

Inductive exn : Type :=
| KeyError (key : string)
| ValueError
| IndexError
| TypeError
| ZeroDivisionError
| OverflowError
| OSError
| AttributeError.

Inductive res (A : Type) : Type :=
| Ok (a : A)
| Raise (e : exn).
Arguments Ok {A} a.
Arguments Raise {A} e.

#[global] Instance res_ret : MRet res := fun A a => Ok a.
#[global] Instance res_bind : MBind res := fun A B f m =>
  match m with
  | Ok a => f a
  | Raise e => Raise e
  end.

Definition is_ok {A} (m : res A) : bool :=
  match m with Ok _ => true | Raise _ => false end.

(** ** Floating point helpers *)

Module Fl.

(** [float(n)] for a Python [int]: the nearest double, ties to even;
    [OverflowError] when the integer is too large for a double. *)
Definition of_Z_rounded (n : Z) : float :=
  SF2Prim (binary_normalize prec emax n 0 false).

Definition of_int (n : Z) : res float :=
  let f := of_Z_rounded n in
  if is_infinity f then Raise OverflowError else Ok f.

(** The correctly rounded value of [(-1)^neg * M * 10^E], [0 <= M]: what
    [float(str)] computes from a decimal numeral (an overflow gives an
    infinity there, not an exception). *)
Definition of_decimal (neg : bool) (M E : Z) : float :=
  if M =? 0 then (if neg then neg_zero else zero)
  else if 0 <=? E then
    SF2Prim (binary_normalize prec emax
               ((if neg then Z.opp else id) (M * 10 ^ E)) 0 false)
  else
    let '(q, e, l) := SFdiv_core_binary prec emax M 0 (10 ^ (- E)) 0 in
    SF2Prim (binary_round_aux prec emax neg q e l).

(** Python's [x / y] on floats raises on a zero divisor; numpy's does not
    (it is [PrimFloat.div]). *)
Definition truediv (x y : float) : res float :=
  if (y =? 0)%float then Raise ZeroDivisionError else Ok (x / y)%float.

(** The exact power [x^n] of a finite double, rounded once: a reference
    [pow] for integral exponents, used to run the model on examples. *)
Definition integral_value (y : float) : option Z :=
  match Prim2SF y with
  | S754_zero _ => Some 0
  | S754_finite s m e =>
      let v := if 0 <=? e then Some (Z.pos m * 2 ^ e)
               else if Z.pos m mod 2 ^ (- e) =? 0 then Some (Z.pos m / 2 ^ (- e))
               else None in
      (if s then Z.opp else id) <$> v
  | _ => None
  end.

Definition pow_rounded (x y : float) : float :=
  match integral_value y, Prim2SF x with
  | Some n, S754_finite s m e =>
      if n <? 0 then nan else
      let mag := Z.pos m ^ n in
      SF2Prim (binary_normalize prec emax
                 (if s && Z.odd n then - mag else mag) (e * n) false)
  | _, _ => nan
  end.

End Fl.

(** ** Text helpers (Python [str] methods on ASCII text) *)

Module Str.

Definition code (c : ascii) : N := N_of_ascii c.

Definition is_digit (c : ascii) : bool :=
  ((48 <=? code c) && (code c <=? 57))%N.

(** [str.isspace] on the ASCII range: TAB..CR, FS..US and the space. *)
Definition is_space (c : ascii) : bool :=
  (((9 <=? code c) && (code c <=? 13)) || ((28 <=? code c) && (code c <=? 32)))%N.

Definition digit_val (c : ascii) : Z := Z.of_N (code c) - 48.

Definition to_lower (c : ascii) : ascii :=
  if ((65 <=? code c) && (code c <=? 90))%N
  then ascii_of_N (code c + 32) else c.

Definition chars (s : string) : list ascii := list_ascii_of_string s.
Definition of_chars (l : list ascii) : string := string_of_list_ascii l.

(** [s.replace(c, '')] for a one-character [c]. *)
Definition remove_char (c : ascii) (s : list ascii) : list ascii :=
  List.filter (fun x => negb (Ascii.eqb x c)) s.

(** [s.replace(c, d)] for one-character [c] and [d]. *)
Definition replace_char (c d : ascii) (s : list ascii) : list ascii :=
  List.map (fun x => if Ascii.eqb x c then d else x) s.

Fixpoint lstrip (s : list ascii) : list ascii :=
  match s with
  | c :: s' => if is_space c then lstrip s' else s
  | [] => []
  end.

Definition strip (s : list ascii) : list ascii :=
  rev (lstrip (rev (lstrip s))).

Definition endswith (c : ascii) (s : list ascii) : bool :=
  match rev s with
  | x :: _ => Ascii.eqb x c
  | [] => false
  end.

Definition lower (s : list ascii) : list ascii := List.map to_lower s.

End Str.

(** ** [float(str)]: Python's parser of a decimal numeral

    The text is stripped of surrounding white space; underscores may only
    stand between two digits; then comes an optional sign and either a
    decimal numeral (digits, an optional point, an optional exponent) or
    one of inf, infinity, nan in any letter case.  [None] stands for the
    [ValueError] that [float] raises on any other text. *)

Module PyFloat.
Import Str.

Definition is_underscore (c : ascii) : bool := Ascii.eqb c "_".

Fixpoint underscores_ok (prev : option ascii) (s : list ascii) : bool :=
  match s with
  | [] => match prev with Some p => negb (is_underscore p) | None => true end
  | c :: s' =>
      let prev_digit := match prev with Some p => is_digit p | None => false end in
      let prev_us := match prev with Some p => is_underscore p | None => false end in
      (if is_underscore c then prev_digit
       else negb (prev_us && negb (is_digit c)))
      && underscores_ok (Some c) s'
  end.

Fixpoint span_digits (s : list ascii) : list ascii * list ascii :=
  match s with
  | c :: s' =>
      if is_digit c then let '(ds, r) := span_digits s' in (c :: ds, r)
      else ([], s)
  | [] => ([], [])
  end.

Definition digits_val (ds : list ascii) : Z :=
  fold_left (fun acc c => 10 * acc + digit_val c) ds 0.

Definition parse_sign (s : list ascii) : bool * list ascii :=
  match s with
  | "-"%char :: r => (true, r)
  | "+"%char :: r => (false, r)
  | _ => (false, s)
  end.

(** The exponent part; when no digit follows the letter e, nothing is
    consumed (and the caller then rejects the trailing text). *)
Definition parse_exponent (s : list ascii) : Z * list ascii :=
  match s with
  | c :: s1 =>
      if Ascii.eqb (to_lower c) "e" then
        let '(neg, s2) := parse_sign s1 in
        let '(ds, s3) := span_digits s2 in
        match ds with
        | [] => (0, s)
        | _ => ((if neg then - digits_val ds else digits_val ds), s3)
        end
      else (0, s)
  | [] => (0, [])
  end.

Definition parse_decimal (s : list ascii) : option float :=
  let '(neg, s1) := parse_sign s in
  let '(ip, s2) := span_digits s1 in
  let '(fp, s3) :=
    match s2 with
    | "."%char :: r => span_digits r
    | _ => ([], s2)
    end in
  match ip ++ fp with
  | [] => None
  | ds =>
      let '(e, s4) := parse_exponent s3 in
      match s4 with
      | [] => Some (Fl.of_decimal neg (digits_val ds) (e - Z.of_nat (length fp)))
      | _ => None
      end
  end.

Definition parse_inf_or_nan (s : list ascii) : option float :=
  let '(neg, s1) := parse_sign s in
  let w := of_chars (lower s1) in
  if (String.eqb w "inf" || String.eqb w "infinity")%string
  then Some (if neg then neg_infinity else infinity)
  else if String.eqb w "nan" then Some nan
  else None.

Definition of_str (s : list ascii) : option float :=
  let s := strip s in
  if underscores_ok None s then
    let s := remove_char "_" s in
    match parse_decimal s with
    | Some x => Some x
    | None => parse_inf_or_nan s
    end
  else None.

End PyFloat.

(** ** Workbook cells and [clean_and_convert] *)

(** A cell as pandas hands it over: blank ([None] or NaN), a Python [int],
    a [float], or a text.  (numpy integers take the text branch of
    [clean_and_convert] and end at the same double as [float(n)].) *)
Inductive Cell : Type :=
| CBlank
| CInt (n : Z)
| CFloat (x : float)
| CStr (s : string).

Definition pd_isna (value : Cell) : bool :=
  match value with
  | CBlank => true
  | CFloat x => is_nan x
  | _ => false
  end.

Definition is_empty_text (value : Cell) : bool :=
  match value with
  | CStr s => String.eqb s ""
  | _ => false
  end.

(** The outcome of the [try] block over a text: the parsed number with the
    percentage flag as updated there, or the [ValueError] of [float]. *)
Inductive parsed : Type :=
| Parsed (numeric_value : float) (is_percentage : bool)
| Unparseable.

Definition parse_text (value : string) (is_percentage : bool) : parsed :=
  let value_str :=
    Str.strip (Str.remove_char "," (Str.remove_char "$" (Str.chars value))) in
  let '(is_percentage, value_str) :=
    if Str.endswith "%" value_str
    then (true, Str.remove_char "%" value_str)
    else (is_percentage, value_str) in
  match PyFloat.of_str value_str with
  | Some numeric_value => Parsed numeric_value is_percentage
  | None => Unparseable
  end.

(** Lines 33-36: [if is_percentage and numeric_value > 1: return
    numeric_value / 100], else [numeric_value]. *)
Definition percent_rule (is_percentage : bool) (numeric_value : float) : float :=
  if is_percentage && (1 <? numeric_value)%float
  then (numeric_value / 100)%float
  else numeric_value.

Definition clean_and_convert (value : Cell) (is_percentage : bool) : res float :=
  if pd_isna value || is_empty_text value then Ok 0%float
  else
    match value with
    | CStr s =>
        match parse_text s is_percentage with
        | Parsed numeric_value is_percentage =>
            Ok (percent_rule is_percentage numeric_value)
        | Unparseable => Ok 0%float
        end
    | CInt n =>
        numeric_value ← Fl.of_int n;
        Ok (percent_rule is_percentage numeric_value)
    | CFloat x => Ok (percent_rule is_percentage x)
    | CBlank => Ok 0%float
    end.

(** ** The workbook and the loader [DCFModel._load_data] *)

Definition Row := list Cell.

(** A sheet is the list of its rows, top to bottom, as the file has them. *)
Definition Sheet := list Row.
Definition Workbook := list (string * Sheet).

(** What [__init__] is handed: a path that does not exist, something
    [pd.ExcelFile] cannot open, or a workbook. *)
Inductive FileSource : Type :=
| MissingPath
| Unreadable
| Book (wb : Workbook).

Definition sheet_width (s : Sheet) : nat :=
  fold_right Nat.max 0%nat (List.map (@length Cell) s).

Definition pad (w : nat) (r : Row) : Row :=
  r ++ repeat CBlank (w - length r).

Definition is_blank_cell (c : Cell) : bool :=
  match c with
  | CBlank => true
  | CStr s => String.eqb s ""
  | _ => false
  end.

Fixpoint drop_while {A} (p : A → bool) (l : list A) : list A :=
  match l with
  | x :: l' => if p x then drop_while p l' else l
  | [] => []
  end.

Definition trim_right {A} (p : A → bool) (l : list A) : list A :=
  rev (drop_while p (rev l)).

Definition is_nil {A} (l : list A) : bool :=
  match l with [] => true | _ => false end.

(** The rows of a sheet as the reader of pandas hands them to the parser:
    trailing empty cells are trimmed from every row, trailing empty rows
    are dropped, and the rows are padded with blanks to the width of the
    widest one. *)
Definition sheet_data (s : Sheet) : Sheet :=
  let rows := trim_right is_nil (List.map (trim_right is_blank_cell) s) in
  List.map (pad (sheet_width rows)) rows.

(** A frame of cells addressed by position ([DataFrame.iloc]). *)
Record Grid : Type := mkGrid {
  g_ncols : nat;
  g_rows : list Row
}.

Definition iloc_row (g : Grid) (r : nat) : res Row :=
  match nth_error (g_rows g) r with
  | Some row => Ok (pad (g_ncols g) row)
  | None => Raise IndexError
  end.

Definition iloc (g : Grid) (r c : nat) : res Cell :=
  row ← iloc_row g r;
  match nth_error row c with
  | Some v => Ok v
  | None => Raise IndexError
  end.

(** The sheet of a name, [ValueError] when the workbook has none. *)
Fixpoint find_sheet (name : string) (wb : Workbook) : res Sheet :=
  match wb with
  | (n, s) :: wb' => if String.eqb n name then Ok s else find_sheet name wb'
  | [] => Raise ValueError
  end.

(** [xl.parse(sheet_name=name, ...)] up to the options of the call: the
    data of the sheet. *)
Definition parse_sheet (name : string) (wb : Workbook) : res Sheet :=
  s ← find_sheet name wb; Ok (sheet_data s).

(** The index of [df_base] after [fillna('')], [astype(str)], [strip],
    [lower] and [replace(' ', '_')].  A label cell holding a number becomes
    the rendering of that number, which is not modelled ([None]): it is
    never one of the ten labels that are looked up. *)
Definition normalize_label (c : Cell) : option string :=
  match c with
  | CStr s =>
      Some (Str.of_chars
              (Str.replace_char " " "_" (Str.lower (Str.strip (Str.chars s)))))
  | CBlank => Some ""%string
  | CFloat x => if is_nan x then Some ""%string else None
  | CInt _ => None
  end.

Definition row_label (r : Row) : option string :=
  match r with
  | c :: _ => normalize_label c
  | [] => Some ""%string
  end.

Definition has_label (clean_label : string) (r : Row) : bool :=
  match row_label r with
  | Some l => String.eqb l clean_label
  | None => false
  end.

(** [df_base.loc[clean_label].iloc[0]] followed by [clean_and_convert]:
    [KeyError] without a row of that label, [IndexError] when the sheet has
    no value column; with several rows of that label [.loc] yields a frame,
    [.iloc[0]] a row of it, and [pd.isna(row) or ...] raises [ValueError]. *)
Definition get_base_value (df_base : Sheet) (clean_label : string)
    (is_percentage : bool) : res float :=
  match List.filter (has_label clean_label) df_base with
  | [] => Raise (KeyError clean_label)
  | [r] =>
      match nth_error (pad (sheet_width df_base) r) 1 with
      | Some value => clean_and_convert value is_percentage
      | None => Raise IndexError
      end
  | _ :: _ :: _ => Raise ValueError
  end.

(** The dictionary [base_vars] (its ten keys are fixed, so a record). *)
Record BaseVars : Type := mkBase {
  Ingresos_Totales_2025 : float;
  Gastos_Fijos_Operativos_2025 : float;
  Dias_CxC : float;
  Dias_Inv : float;
  Dias_CxP : float;
  WACC : float;
  G_Perpetuidad : float;
  Tasa_ISR : float;
  Dep_Pct_Base : float;
  CapEx_Pct_Base : float
}.

Record ProjectData : Type := mkProjects {
  capex_inversion : list float;
  ingresos_adicionales : list float;
  gastos_ahorros_operativos : list float;
  depreciacion_adicional : list float
}.

Record Data : Type := mkData {
  base : BaseVars;
  proyecciones : Grid;
  proyectos : ProjectData
}.

Fixpoint map_res {A B} (f : A → res B) (l : list A) : res (list B) :=
  match l with
  | [] => Ok []
  | a :: l' => b ← f a; bs ← map_res f l'; Ok (b :: bs)
  end.

(** [[clean_and_convert(val) for val in impacto_proyectos.iloc[r].values[3:8]]] *)
Definition project_row (impacto_proyectos : Grid) (r : nat) : res (list float) :=
  row ← iloc_row impacto_proyectos r;
  map_res (fun val => clean_and_convert val false) (firstn 5 (skipn 3 row)).

Definition sheet_Hipotesis_Base : string := "Hipotesis_Base".
Definition sheet_Proyecciones_Detalladas : string := "Proyecciones_Detalladas".
Definition sheet_Impacto_Proyectos : string := "Impacto_Proyectos".

(** The body of the [try] block of [_load_data]. *)
Definition load_body (file_source : FileSource) : res (option Data) :=
  match file_source with
  | MissingPath => Ok None
  | Unreadable => Raise OSError
  | Book xl =>
      df_base ← parse_sheet sheet_Hipotesis_Base xl;
      let get := get_base_value df_base in
      v1 ← get "ingresos_totales_2025"%string false;
      v2 ← get "gastos_fijos_operativos_2025"%string false;
      v3 ← get "dias_cxc"%string false;
      v4 ← get "dias_inv"%string false;
      v5 ← get "dias_cxp"%string false;
      v6 ← get "wacc"%string true;
      v7 ← get "g-tasa_de_crecimiento_a_perpetuidad"%string true;
      v8 ← get "tasa_isr"%string true;
      v9 ← get "dep_pct_base"%string true;
      v10 ← get "capex_pct_base"%string true;
      let base_vars := mkBase v1 v2 v3 v4 v5 v6 v7 v8 v9 v10 in
      (* header=0, then set_index(columns[0]) *)
      s ← parse_sheet sheet_Proyecciones_Detalladas xl;
      proyecciones_detalladas ←
        match s, sheet_width s with
        | [], _ | _, O => Raise IndexError
        | _ :: rows, S w => Ok (mkGrid w (List.map (fun r => tl (pad (S w) r)) rows))
        end;
      (* header=None, skiprows=2 *)
      s ← parse_sheet sheet_Impacto_Proyectos xl;
      let impacto_proyectos := mkGrid (sheet_width s) (skipn 2 s) in
      p1 ← project_row impacto_proyectos 0;
      p2 ← project_row impacto_proyectos 4;
      p3 ← project_row impacto_proyectos 8;
      p4 ← project_row impacto_proyectos 12;
      Ok (Some (mkData base_vars proyecciones_detalladas (mkProjects p1 p2 p3 p4)))
  end.

(** What the two [except] clauses print. *)
Inductive Msg : Type :=
| MsgMissingLabelOrSheet (ke : string)
| MsgLoadFailed (e : exn).

(** [_load_data]: the loaded bundle or [None], and the lines printed. *)
Definition _load_data (file_source : FileSource) : option Data * list Msg :=
  match load_body file_source with
  | Ok d => (d, [])
  | Raise (KeyError ke) => (None, [MsgMissingLabelOrSheet ke])
  | Raise e => (None, [MsgLoadFailed e])
  end.

(** ** The projection table: a [pandas.DataFrame] of floats *)

(** The cells that were assigned, the latest assignment first. *)
Definition Cells : Type := list (Z * string * float).

Definition same_key (k k' : Z * string) : bool :=
  (fst k =? fst k') && String.eqb (snd k) (snd k').

Fixpoint cells_get (k : Z * string) (m : Cells) : option float :=
  match m with
  | (k', v) :: m' => if same_key k' k then Some v else cells_get k m'
  | [] => None
  end.

Definition cells_put (k : Z * string) (v : float) (m : Cells) : Cells :=
  (k, v) :: m.

Record DataFrame : Type := mkDF {
  df_index : list Z;
  df_columns : list string;
  df_cells : Cells
}.

(** [pd.DataFrame()] and [pd.DataFrame(index=labels)]. *)
Definition df_blank : DataFrame := mkDF [] [] [].
Definition df_new (labels : list Z) : DataFrame := mkDF labels [] [].

(** [df.empty]: no row or no column. *)
Definition df_empty (df : DataFrame) : bool :=
  match df_index df, df_columns df with
  | [], _ | _, [] => true
  | _, _ => false
  end.

Definition add_once {A} `{EqDecision A} (x : A) (l : list A) : list A :=
  if bool_decide (x ∈ l) then l else l ++ [x].

(** [df.loc[label, col]]: [KeyError] on an unknown label or column, NaN in
    a cell that was never assigned. *)
Definition loc_get (df : DataFrame) (label : Z) (col : string) : res float :=
  if bool_decide (label ∈ df_index df) && bool_decide (col ∈ df_columns df)
  then Ok (default nan (cells_get (label, col) (df_cells df)))
  else Raise (KeyError col).

(** [df.loc[label, col] = v]: the column (and the row) is created when it
    is new, its other cells being NaN. *)
Definition loc_set (df : DataFrame) (label : Z) (col : string) (v : float)
    : DataFrame :=
  mkDF (add_once label (df_index df)) (add_once col (df_columns df))
       (cells_put (label, col) v (df_cells df)).

(** [df[col]]: the column as a list, in the order of the index. *)
Definition get_col (df : DataFrame) (col : string) : res (list float) :=
  if bool_decide (col ∈ df_columns df)
  then Ok (List.map (fun l => default nan (cells_get (l, col) (df_cells df))) (df_index df))
  else Raise (KeyError col).

Fixpoint set_cells (cells : Cells) (col : string)
    (labels : list Z) (vs : list float) : Cells :=
  match labels, vs with
  | l :: labels', v :: vs' => cells_put (l, col) v (set_cells cells col labels' vs')
  | _, _ => cells
  end.

(** [df.loc[:, col] = values]: [ValueError] unless there is one value per
    row. *)
Definition set_col (df : DataFrame) (col : string) (vs : list float)
    : res DataFrame :=
  if (length vs =? length (df_index df))%nat
  then Ok (mkDF (df_index df) (add_once col (df_columns df))
                (set_cells (df_cells df) col (df_index df) vs))
  else Raise ValueError.

Fixpoint zip_mul (xs ys : list float) : list float :=
  match xs, ys with
  | x :: xs', y :: ys' => (x * y)%float :: zip_mul xs' ys'
  | _, _ => []
  end.

(** [Series.sum()]: NaN entries are skipped, the rest added in order,
    starting from 0.0 (numpy and bottleneck agree on a column of five). *)
Definition series_sum (xs : list float) : float :=
  fold_left (fun acc x => if is_nan x then acc else (acc + x)%float) xs 0%float.

(** The sum of a list in order, nothing skipped. *)
Definition plain_sum (xs : list float) : float :=
  fold_left (fun acc x => (acc + x)%float) xs 0%float.

(** [range(a, a + n)] *)
Fixpoint zrange (a : Z) (n : nat) : list Z :=
  match n with
  | O => []
  | S n' => a :: zrange (a + 1) n'
  end.

(** ** The model object *)

Record Valoracion : Type := mkVal {
  VE_FCF_Proyectados : float;
  Valor_Terminal : float;
  VP_Valor_Terminal : float;
  Valor_Empresa_VE : float;
  val_WACC : float;
  val_G_Perpetuidad : float;
  val_Tasa_ISR : float
}.

(** The attributes of a [DCFModel] that change; [valoracion] is [None] for
    the empty dictionary. *)
Record DCFModel : Type := mkModel {
  data : option Data;
  proyeccion : DataFrame;
  valoracion : option Valoracion
}.

Definition years : nat := 5.
Definition start_year : Z := 2026.
Definition base_year : Z := 2025.

Definition set_proyeccion (self : DCFModel) (df : DataFrame) : DCFModel :=
  mkModel (data self) df (valoracion self).
Definition set_valoracion (self : DCFModel) (v : Valoracion) : DCFModel :=
  mkModel (data self) (proyeccion self) (Some v).

Definition set_rates (d : Data) (wacc g : float) : Data :=
  let b := base d in
  mkData (mkBase (Ingresos_Totales_2025 b) (Gastos_Fijos_Operativos_2025 b)
                 (Dias_CxC b) (Dias_Inv b) (Dias_CxP b) wacc g
                 (Tasa_ISR b) (Dep_Pct_Base b) (CapEx_Pct_Base b))
         (proyecciones d) (proyectos d).

(** [DCFModel(file_source)]: the constructor loads the workbook. *)
Definition __init__ (file_source : FileSource) : DCFModel :=
  mkModel (fst (_load_data file_source)) df_blank None.

Definition get_valuation_summary (self : DCFModel) : option Valoracion :=
  valoracion self.

Definition get_detailed_proyection (self : DCFModel) : DataFrame :=
  proyeccion self.

(** [l[i]] for an index that is not negative. *)
Definition list_index (l : list float) (i : Z) : res float :=
  match nth_error l (Z.to_nat i) with
  | Some v => Ok v
  | None => Raise IndexError
  end.

(** [clean_and_convert(proyecciones_raw.iloc[r, c], is_percentage=p)] *)
Definition driver (d : Data) (r : nat) (c : Z) (p : bool) : res float :=
  cell ← iloc (proyecciones d) r (Z.to_nat c);
  clean_and_convert cell p.

Definition year_str (t : Z) : Z := start_year + t - 1.
Definition prev_year_str (t : Z) : Z := start_year + t - 2.

(** ** The engine, over the platform's [pow] *)

Section Engine.

(** The C library's [pow] on doubles, which Python's [**] calls. *)
Variable libm_pow : float → float → float.

(** [iv ** n] for a float [iv] and an [int] [n] whose double is exact
    (CPython's [float_pow]): the special cases are answered without
    [pow]; a negative base is raised by its absolute value and the sign
    restored; an overflow of [pow] is an [OverflowError]. *)
Definition float_pow (iv : float) (n : Z) : res float :=
  if n =? 0 then Ok 1%float
  else if is_nan iv then Ok iv
  else if is_infinity iv then
    Ok (if n <? 0 then (if Z.odd n then (1 / iv)%float else 0%float)
        else (if Z.odd n then iv else abs iv))
  else if (iv =? 0)%float then
    (if n <? 0 then Raise ZeroDivisionError
     else Ok (if Z.odd n then iv else 0%float))
  else
    let negate_result := (iv <? 0)%float && Z.odd n in
    let iv := abs iv in
    if (iv =? 1)%float then Ok (if negate_result then (-1)%float else 1%float)
    else
      let ix := libm_pow iv (Fl.of_Z_rounded n) in
      if is_infinity ix then Raise OverflowError
      else Ok (if negate_result then (- ix)%float else ix).

Definition g_fijos_inflacion : float := 0.03%float.

(** [get_prev_ingreso]: the closure reads [t], [prev_year_str] and
    [df_proj] of the running iteration. *)
Definition get_prev_ingreso (df_proj : DataFrame) (t : Z)
    (ingreso_key : string) (base_ingreso_value : float) : res float :=
  if 1 <? t then loc_get df_proj (prev_year_str t) ingreso_key
  else Ok base_ingreso_value.

(** One revenue stream of one year: its three drivers sit in the rows
    [r], [r+1], [r+2]; the level is stored under [key]; the result is the
    table, the level and the stream's cost of sales. *)
Definition stream_step (d : Data) (df_proj : DataFrame) (t : Z)
    (r : nat) (key : string) : res (DataFrame * float * float) :=
  ingreso_base_2025 ← driver d r 0 false;
  g_ingreso ← driver d (r + 1) t true;
  cv_pct ← driver d (r + 2) t true;
  ingreso_prev ← get_prev_ingreso df_proj t key ingreso_base_2025;
  let ingreso_actual := (ingreso_prev * (1 + g_ingreso))%float in
  let df_proj := loc_set df_proj (year_str t) key ingreso_actual in
  Ok (df_proj, ingreso_actual, (ingreso_actual * cv_pct)%float).

(** The body of the loop [for t in proj_years_idx]. *)
Definition year_body (d : Data) (df_proj : DataFrame) (t : Z) : res DataFrame :=
  let b := base d in
  let y := year_str t in
  let total_costo_venta := 0%float in
  '(df_proj, ingreso_1_actual, cv1) ← stream_step d df_proj t 1 "Ingresos_B1";
  let total_costo_venta := (total_costo_venta + cv1)%float in
  '(df_proj, ingreso_2_actual, cv2) ← stream_step d df_proj t 5 "Ingresos_B2";
  let total_costo_venta := (total_costo_venta + cv2)%float in
  '(df_proj, ingreso_G_actual, cvG) ← stream_step d df_proj t 9 "Ingresos_G";
  let total_costo_venta := (total_costo_venta + cvG)%float in
  let total_ingresos_base :=
    (ingreso_1_actual + ingreso_2_actual + ingreso_G_actual)%float in
  ingresos_adicionales ← list_index (ingresos_adicionales (proyectos d)) (t - 1);
  gastos_ahorros_operativos ←
    list_index (gastos_ahorros_operativos (proyectos d)) (t - 1);
  depreciacion_adicional ←
    list_index (depreciacion_adicional (proyectos d)) (t - 1);
  capex_proyectos ← list_index (capex_inversion (proyectos d)) (t - 1);
  inflacion ← float_pow (1 + g_fijos_inflacion)%float t;
  let gastos_fijos_actual := (Gastos_Fijos_Operativos_2025 b * inflacion)%float in
  gastos_variables_pct ← driver d 13 t true;
  let gastos_variables_actual := (total_ingresos_base * gastos_variables_pct)%float in
  let df_proj :=
    loc_set df_proj y "Ingresos Totales" (total_ingresos_base + ingresos_adicionales)%float in
  ingresos_totales ← loc_get df_proj y "Ingresos Totales";
  let df_proj :=
    loc_set df_proj y "EBIT"
      (ingresos_totales - total_costo_venta - gastos_fijos_actual
       - gastos_variables_actual + gastos_ahorros_operativos)%float in
  let dep_amort_base := (total_ingresos_base * Dep_Pct_Base b)%float in
  let df_proj :=
    loc_set df_proj y "Depreciacion" (dep_amort_base + depreciacion_adicional)%float in
  ebit ← loc_get df_proj y "EBIT";
  let df_proj := loc_set df_proj y "NOPAT" (ebit * (1 - Tasa_ISR b))%float in
  ingresos_totales ← loc_get df_proj y "Ingresos Totales";
  let ck_current :=
    (Dias_CxC b / 365 * ingresos_totales
     + Dias_Inv b / 365 * total_costo_venta
     - Dias_CxP b / 365 * total_costo_venta)%float in
  ck_prev ←
    (if 1 <? t then loc_get df_proj (prev_year_str t) "Capital de Trabajo"
     else Ok 0%float);
  let df_proj := loc_set df_proj y "Capital de Trabajo" ck_current in
  let df_proj := loc_set df_proj y "Delta CTN" (ck_current - ck_prev)%float in
  let capex_base := (total_ingresos_base * CapEx_Pct_Base b)%float in
  let df_proj := loc_set df_proj y "CapEx Total" (capex_base + capex_proyectos)%float in
  nopat ← loc_get df_proj y "NOPAT";
  dep ← loc_get df_proj y "Depreciacion";
  delta ← loc_get df_proj y "Delta CTN";
  capex ← loc_get df_proj y "CapEx Total";
  Ok (loc_set df_proj y "FCF" (nopat + dep - delta - capex)%float).

Fixpoint year_loop (d : Data) (df_proj : DataFrame) (ts : list Z)
    : res DataFrame :=
  match ts with
  | [] => Ok df_proj
  | t :: ts' => df_proj ← year_body d df_proj t; year_loop d df_proj ts'
  end.

(** [1 / (1 + wacc)**i] *)
Definition discount_factor (wacc : float) (i : Z) : res float :=
  p ← float_pow (1 + wacc)%float i;
  Fl.truediv 1%float p.

(** The body of [_calculate_projection] once [data] is there. *)
Definition project (d : Data) : res DataFrame :=
  let proj_years_idx := zrange 1 years in
  let years_labels := zrange start_year years in
  let df_proj := df_new years_labels in
  df_proj ← year_loop d df_proj proj_years_idx;
  let wacc := WACC (base d) in
  discount_factors ← map_res (discount_factor wacc) proj_years_idx;
  df_proj ← set_col df_proj "VP Factor" discount_factors;
  fcf ← get_col df_proj "FCF";
  vp ← get_col df_proj "VP Factor";
  set_col df_proj "Valor Presente FCF" (zip_mul fcf vp).

Definition _calculate_projection (self : DCFModel) : res (bool * DCFModel) :=
  match data self with
  | None => Ok (false, self)
  | Some d =>
      df_proj ← project d;
      Ok (true, set_proyeccion self df_proj)
  end.

Definition last_year_label : Z := start_year + Z.of_nat years - 1.

Definition _calculate_valuation (self : DCFModel) : res (bool * DCFModel) :=
  if df_empty (proyeccion self) then Ok (false, self)
  else
    match data self with
    | None => Raise TypeError
    | Some d =>
        let b := base d in
        let wacc := WACC b in
        let g := G_Perpetuidad b in
        nopat_n ← loc_get (proyeccion self) last_year_label "NOPAT";
        fcf_n ← loc_get (proyeccion self) last_year_label "FCF";
        vp_factor_n ← loc_get (proyeccion self) last_year_label "VP Factor";
        let fcf_perpetuo := (fcf_n * (1 + g))%float in
        let valor_terminal := (fcf_perpetuo / (wacc - g))%float in
        let vp_vt := (valor_terminal * vp_factor_n)%float in
        col ← get_col (proyeccion self) "Valor Presente FCF";
        let vp_fcf_proyectados := series_sum col in
        let valor_empresa_ve := (vp_fcf_proyectados + vp_vt)%float in
        Ok (true,
            set_valoracion self
              (mkVal vp_fcf_proyectados valor_terminal vp_vt valor_empresa_ve
                     wacc g (Tasa_ISR b)))
    end.

Definition run_model (self : DCFModel) : res (bool * DCFModel) :=
  match data self with
  | None => Ok (false, self)
  | Some _ =>
      '(success, self) ← _calculate_projection self;
      if success : bool then _calculate_valuation self else Ok (false, self)
  end.

(** src/main.py, [recalculate_dcf_model_sync]: overwrite the two rates
    (given in percent) and run the model again. *)
Definition recalculate_dcf_model_sync (dcf_model : DCFModel)
    (new_wacc_pct new_g_pct : float) : res DCFModel :=
  match data dcf_model with
  | None => Raise TypeError
  | Some d =>
      let d := set_rates d (new_wacc_pct / 100)%float (new_g_pct / 100)%float in
      '(_, m) ← run_model (mkModel (Some d) (proyeccion dcf_model)
                                   (valoracion dcf_model));
      Ok m
  end.

End Engine.

(** ** A sample workbook *)

Module Sample.

Definition label_row (l : string) (v : Cell) : Row := [CStr l; v].

Definition hipotesis (wacc g : Cell) : Sheet :=
  [ label_row "Ingresos Totales 2025" (CInt 2000000);
    label_row "Gastos Fijos Operativos 2025" (CInt 400000);
    label_row "Dias CxC" (CInt 30);
    label_row "Dias Inv" (CInt 45);
    label_row "Dias CxP" (CInt 30);
    label_row "WACC" wacc;
    label_row "g-Tasa de Crecimiento a Perpetuidad" g;
    label_row " Tasa ISR " (CInt 30);
    label_row "Dep Pct Base" (CStr "2%");
    label_row "CapEx Pct Base" (CFloat 0.03) ].

Definition five (l : string) (base : Cell) (v : Cell) : Row :=
  [CStr l; base; v; v; v; v; v].

Definition detalladas : Sheet :=
  [ [CStr "Concepto"; CInt 2025; CInt 2026; CInt 2027; CInt 2028; CInt 2029; CInt 2030];
    [CStr "Binomio 1"];
    five "Ingresos" (CStr "$1,000,000") CBlank;
    five "Crecimiento" CBlank (CStr "5%");
    five "Costo de venta" CBlank (CInt 40);
    [CStr "Binomio 2"];
    five "Ingresos" (CInt 600000) CBlank;
    five "Crecimiento" CBlank (CFloat 0.1);
    five "Costo de venta" CBlank (CStr "35%");
    [CStr "General"];
    five "Ingresos" (CFloat 400000) CBlank;
    five "Crecimiento" CBlank (CStr "2.5%");
    five "Costo de venta" CBlank (CStr "50%");
    [];
    five "Gastos variables" CBlank (CStr "10%") ].

Definition impact_row (l : string) (v : Cell) : Row :=
  [CStr l; CBlank; CBlank; v; v; v; v; v].

Definition impacto : Sheet :=
  [ [CStr "Impacto de proyectos"]; [];
    impact_row "CapEx" (CInt 50000); []; []; [];
    impact_row "Ingresos adicionales" (CStr "120,000"); []; []; [];
    impact_row "Ahorros operativos" (CInt 10000); []; []; [];
    impact_row "Depreciacion adicional" (CInt 5000) ].

Definition workbook (wacc g : Cell) : Workbook :=
  [ ("Hipotesis_Base"%string, hipotesis wacc g);
    ("Proyecciones_Detalladas"%string, detalladas);
    ("Impacto_Proyectos"%string, impacto) ].

(** The same layout with every number zero. *)
Definition zero_workbook : Workbook :=
  [ ("Hipotesis_Base"%string,
      List.map (fun r => match r with c :: _ => [c; CInt 0] | [] => [] end)
               (hipotesis CBlank CBlank));
    ("Proyecciones_Detalladas"%string,
      List.map (fun _ => [CStr "x"; CInt 0; CInt 0; CInt 0; CInt 0; CInt 0; CInt 0])
               detalladas);
    ("Impacto_Proyectos"%string,
      List.map (fun _ => impact_row "x" (CInt 0)) impacto) ].

Definition model (wacc g : Cell) : DCFModel := __init__ (Book (workbook wacc g)).

(** The sample model after [_calculate_projection] and after
    [run_model], with the reference [pow]. *)
Definition projected (wacc g : Cell) : DCFModel :=
  match _calculate_projection Fl.pow_rounded (model wacc g) with
  | Ok (_, m) => m
  | Raise _ => model wacc g
  end.

Definition valued (wacc g : Cell) : DCFModel :=
  match run_model Fl.pow_rounded (model wacc g) with
  | Ok (_, m) => m
  | Raise _ => model wacc g
  end.

Definition zero_model : DCFModel := __init__ (Book zero_workbook).

Definition recalculated (m : DCFModel) (wacc_pct g_pct : float) : DCFModel :=
  match recalculate_dcf_model_sync Fl.pow_rounded m wacc_pct g_pct with
  | Ok m' => m'
  | Raise _ => m
  end.

Definition no_data : Data :=
  mkData (mkBase 0 0 0 0 0 0 0 0 0 0) (mkGrid 0 []) (mkProjects [] [] [] []).

(** The bundle that the loader makes of the sample workbook. *)
Definition bundle (wacc g : Cell) : Data :=
  match data (model wacc g) with
  | Some d => d
  | None => no_data
  end.

(** The sample workbook without its third sheet, and without its WACC
    row. *)
Definition without_sheet : Workbook :=
  [ ("Hipotesis_Base"%string, hipotesis (CStr "20%") (CFloat 0.03));
    ("Proyecciones_Detalladas"%string, detalladas) ].

Definition without_label : Workbook :=
  [ ("Hipotesis_Base"%string,
      List.filter (fun r => negb (has_label "wacc" r))
                  (hipotesis (CStr "20%") (CFloat 0.03)));
    ("Proyecciones_Detalladas"%string, detalladas);
    ("Impacto_Proyectos"%string, impacto) ].

End Sample.

(** ** The values of one forecast year

    The inputs that one iteration of the loop reads (drivers, project
    impact, prior-year levels) and the figures it derives from them, in the
    order and with the parenthesisation of the source. *)

Record YearVals : Type := mkVals {
  ingreso_1_prev : float; g_ingreso_1 : float; cv_pct_1 : float;
  ingreso_2_prev : float; g_ingreso_2 : float; cv_pct_2 : float;
  ingreso_G_prev : float; g_ingreso_G : float; cv_pct_G : float;
  v_ingresos_adicionales : float;
  v_gastos_ahorros_operativos : float;
  v_depreciacion_adicional : float;
  v_capex_proyectos : float;
  v_inflacion : float;
  gastos_variables_pct : float;
  ck_prev : float
}.

Section YearFigures.
Variable b : BaseVars.
Variable v : YearVals.

Definition ingreso_1_actual : float := (ingreso_1_prev v * (1 + g_ingreso_1 v))%float.
Definition ingreso_2_actual : float := (ingreso_2_prev v * (1 + g_ingreso_2 v))%float.
Definition ingreso_G_actual : float := (ingreso_G_prev v * (1 + g_ingreso_G v))%float.
Definition total_costo_venta : float :=
  (0 + ingreso_1_actual * cv_pct_1 v + ingreso_2_actual * cv_pct_2 v
   + ingreso_G_actual * cv_pct_G v)%float.
Definition total_ingresos_base : float :=
  (ingreso_1_actual + ingreso_2_actual + ingreso_G_actual)%float.
Definition ingresos_totales : float :=
  (total_ingresos_base + v_ingresos_adicionales v)%float.
Definition gastos_fijos_actual : float :=
  (Gastos_Fijos_Operativos_2025 b * v_inflacion v)%float.
Definition gastos_variables_actual : float :=
  (total_ingresos_base * gastos_variables_pct v)%float.
Definition ebit : float :=
  (ingresos_totales - total_costo_venta - gastos_fijos_actual
   - gastos_variables_actual + v_gastos_ahorros_operativos v)%float.
Definition depreciacion : float :=
  (total_ingresos_base * Dep_Pct_Base b + v_depreciacion_adicional v)%float.
Definition nopat : float := (ebit * (1 - Tasa_ISR b))%float.
Definition ck_current : float :=
  (Dias_CxC b / 365 * ingresos_totales + Dias_Inv b / 365 * total_costo_venta
   - Dias_CxP b / 365 * total_costo_venta)%float.
Definition delta_ctn : float := (ck_current - ck_prev v)%float.
Definition capex_total : float :=
  (total_ingresos_base * CapEx_Pct_Base b + v_capex_proyectos v)%float.
Definition fcf : float := (nopat + depreciacion - delta_ctn - capex_total)%float.

(** The assignments of one iteration, in the order of the source. *)
Definition write_row (df : DataFrame) (y : Z) : DataFrame :=
  let df := loc_set df y "Ingresos_B1" ingreso_1_actual in
  let df := loc_set df y "Ingresos_B2" ingreso_2_actual in
  let df := loc_set df y "Ingresos_G" ingreso_G_actual in
  let df := loc_set df y "Ingresos Totales" ingresos_totales in
  let df := loc_set df y "EBIT" ebit in
  let df := loc_set df y "Depreciacion" depreciacion in
  let df := loc_set df y "NOPAT" nopat in
  let df := loc_set df y "Capital de Trabajo" ck_current in
  let df := loc_set df y "Delta CTN" delta_ctn in
  let df := loc_set df y "CapEx Total" capex_total in
  loc_set df y "FCF" fcf.

(** The row of year [y] of [df] holds the figures. *)
Definition stored (df : DataFrame) (y : Z) : Prop :=
  loc_get df y "Ingresos_B1" = Ok ingreso_1_actual ∧
  loc_get df y "Ingresos_B2" = Ok ingreso_2_actual ∧
  loc_get df y "Ingresos_G" = Ok ingreso_G_actual ∧
  loc_get df y "Ingresos Totales" = Ok ingresos_totales ∧
  loc_get df y "EBIT" = Ok ebit ∧
  loc_get df y "Depreciacion" = Ok depreciacion ∧
  loc_get df y "NOPAT" = Ok nopat ∧
  loc_get df y "Capital de Trabajo" = Ok ck_current ∧
  loc_get df y "Delta CTN" = Ok delta_ctn ∧
  loc_get df y "CapEx Total" = Ok capex_total ∧
  loc_get df y "FCF" = Ok fcf.

End YearFigures.

Section YearInputs.
Variable libm_pow : float → float → float.

(** The prior level of a stream: the base-year cell for [t = 1], the
    level stored for the year before otherwise. *)
Definition prior_level (d : Data) (df : DataFrame) (t : Z) (r : nat)
    (key : string) (prev : float) : Prop :=
  ∃ base_2025, driver d r 0 false = Ok base_2025 ∧
               get_prev_ingreso df t key base_2025 = Ok prev.

(** What iteration [t] read, stated on a table [df] in which the rows of
    the years before [t] are as the iteration found them. *)
Definition inputs_of (d : Data) (df : DataFrame) (t : Z) (v : YearVals) : Prop :=
  prior_level d df t 1 "Ingresos_B1" (ingreso_1_prev v) ∧
  driver d 2 t true = Ok (g_ingreso_1 v) ∧
  driver d 3 t true = Ok (cv_pct_1 v) ∧
  prior_level d df t 5 "Ingresos_B2" (ingreso_2_prev v) ∧
  driver d 6 t true = Ok (g_ingreso_2 v) ∧
  driver d 7 t true = Ok (cv_pct_2 v) ∧
  prior_level d df t 9 "Ingresos_G" (ingreso_G_prev v) ∧
  driver d 10 t true = Ok (g_ingreso_G v) ∧
  driver d 11 t true = Ok (cv_pct_G v) ∧
  list_index (ingresos_adicionales (proyectos d)) (t - 1)
    = Ok (v_ingresos_adicionales v) ∧
  list_index (gastos_ahorros_operativos (proyectos d)) (t - 1)
    = Ok (v_gastos_ahorros_operativos v) ∧
  list_index (depreciacion_adicional (proyectos d)) (t - 1)
    = Ok (v_depreciacion_adicional v) ∧
  list_index (capex_inversion (proyectos d)) (t - 1) = Ok (v_capex_proyectos v) ∧
  float_pow libm_pow (1 + g_fijos_inflacion)%float t = Ok (v_inflacion v) ∧
  driver d 13 t true = Ok (gastos_variables_pct v) ∧
  (if 1 <? t then loc_get df (prev_year_str t) "Capital de Trabajo"
   else Ok 0%float) = Ok (ck_prev v).

(** Row [t] of the table [df] is the outcome of iteration [t]. *)
Definition row_of (d : Data) (df : DataFrame) (t : Z) : Prop :=
  ∃ v, inputs_of d df t v ∧ stored (base d) v df (year_str t).

End YearInputs.

(** Rows are kept by any change of the table that keeps what could be read
    from the columns of the loop. *)
Definition keeps (df df2 : DataFrame) (y : Z) : Prop :=
  ∀ c x, c ≠ "VP Factor"%string → c ≠ "Valor Presente FCF"%string →
         loc_get df y c = Ok x → loc_get df2 y c = Ok x.

(** One revenue stream in year [t] of the table [df]: its prior level is
    the base-year cell for [t = 1] and the stored level of the year before
    otherwise; the stored level is the prior level times one plus the
    year's growth rate. *)
Definition stream_row (d : Data) (df : DataFrame) (t : Z) (r : nat)
    (key : string) (prev g cv_pct : float) : Prop :=
  (t = 1 → driver d r 0 false = Ok prev) ∧
  (1 < t → loc_get df (year_str (t - 1)) key = Ok prev) ∧
  driver d (r + 1) t true = Ok g ∧
  driver d (r + 2) t true = Ok cv_pct ∧
  loc_get df (year_str t) key = Ok (prev * (1 + g))%float.

Definition has_nan (xs : list float) : bool := existsb is_nan xs.

(** ** What the loader requires of a workbook *)

Definition required_sheets : list string :=
  [sheet_Hipotesis_Base; sheet_Proyecciones_Detalladas; sheet_Impacto_Proyectos].

Definition required_labels : list string :=
  [ "ingresos_totales_2025"; "gastos_fijos_operativos_2025"; "dias_cxc";
    "dias_inv"; "dias_cxp"; "wacc"; "g-tasa_de_crecimiento_a_perpetuidad";
    "tasa_isr"; "dep_pct_base"; "capex_pct_base" ]%string.

(** A required sheet is absent, or the assumptions sheet is there without
    a row of some required label. *)
Definition missing_schema (wb : Workbook) : Prop :=
  (∃ name, name ∈ required_sheets ∧ find_sheet name wb = Raise ValueError) ∨
  (∃ df_base label,
     parse_sheet sheet_Hipotesis_Base wb = Ok df_base ∧
     label ∈ required_labels ∧
     List.filter (has_label label) df_base = []).

(** ** What one iteration of the loop reads

    The reads of one iteration, gathered: the three drivers and the prior
    level of each revenue stream, the four entries of the project impact,
    the inflation power, the variable-expense ratio and the prior
    working-capital level, in the order of the source. *)

Section Reads.
Variable libm_pow : float → float → float.

Definition read_stream (d : Data) (df : DataFrame) (t : Z) (r : nat)
    (key : string) : res (float * float * float) :=
  ingreso_base_2025 ← driver d r 0 false;
  g_ingreso ← driver d (r + 1) t true;
  cv_pct ← driver d (r + 2) t true;
  ingreso_prev ← get_prev_ingreso df t key ingreso_base_2025;
  Ok (ingreso_prev, g_ingreso, cv_pct).

Definition read_inputs (d : Data) (df : DataFrame) (t : Z) : res YearVals :=
  '(p1, g1, c1) ← read_stream d df t 1 "Ingresos_B1";
  '(p2, g2, c2) ← read_stream d df t 5 "Ingresos_B2";
  '(p3, g3, c3) ← read_stream d df t 9 "Ingresos_G";
  ia ← list_index (ingresos_adicionales (proyectos d)) (t - 1);
  ao ← list_index (gastos_ahorros_operativos (proyectos d)) (t - 1);
  da ← list_index (depreciacion_adicional (proyectos d)) (t - 1);
  cp ← list_index (capex_inversion (proyectos d)) (t - 1);
  infl ← float_pow libm_pow (1 + g_fijos_inflacion)%float t;
  gvp ← driver d 13 t true;
  ckp ← (if 1 <? t then loc_get df (prev_year_str t) "Capital de Trabajo"
         else Ok 0%float);
  Ok (mkVals p1 g1 c1 p2 g2 c2 p3 g3 c3 ia ao da cp infl gvp ckp).

(** Every cell and list entry that iteration [t] reads from the loaded
    bundle can be read, and the inflation power is computed. *)
Definition stream_ready (d : Data) (t : Z) (r : nat) : bool :=
  is_ok (driver d r 0 false) && is_ok (driver d (r + 1) t true) &&
  is_ok (driver d (r + 2) t true).

Definition inputs_ready (d : Data) (t : Z) : bool :=
  stream_ready d t 1 && stream_ready d t 5 && stream_ready d t 9 &&
  is_ok (list_index (ingresos_adicionales (proyectos d)) (t - 1)) &&
  is_ok (list_index (gastos_ahorros_operativos (proyectos d)) (t - 1)) &&
  is_ok (list_index (depreciacion_adicional (proyectos d)) (t - 1)) &&
  is_ok (list_index (capex_inversion (proyectos d)) (t - 1)) &&
  is_ok (float_pow libm_pow (1 + g_fijos_inflacion)%float t) &&
  is_ok (driver d 13 t true).

(** Every year of the horizon is ready and its discount factor can be
    computed. *)
Definition all_ready (d : Data) : bool :=
  forallb (inputs_ready d) (zrange 1 years) &&
  forallb (fun t => is_ok (discount_factor libm_pow (WACC (base d)) t))
          (zrange 1 years).

End Reads.

(** The exceptions of the arithmetic and of the positional reads. *)
Definition input_error (e : exn) : Prop :=
  e = IndexError ∨ e = OverflowError ∨ e = ZeroDivisionError.

(** The rows of the year before [t] are there when [t] is not the first
    year. *)
Definition prev_rows (df : DataFrame) (t : Z) : Prop :=
  1 < t →
  ∀ c, c ∈ ["Ingresos_B1"; "Ingresos_B2"; "Ingresos_G"; "Capital de Trabajo"]%string →
       is_ok (loc_get df (prev_year_str t) c) = true.

(** The columns in the order in which the loop assigns them first, and
    those of the finished projection. *)

Definition loop_columns : list string :=
  [ "Ingresos_B1"; "Ingresos_B2"; "Ingresos_G"; "Ingresos Totales"; "EBIT";
    "Depreciacion"; "NOPAT"; "Capital de Trabajo"; "Delta CTN"; "CapEx Total";
    "FCF" ]%string.

Definition projection_columns : list string :=
  loop_columns ++ ["VP Factor"%string; "Valor Presente FCF"%string].

(** ** One entry of the bundle replaced *)

Definition set_ingresos_totales (d : Data) (x : float) : Data :=
  let b := base d in
  mkData (mkBase x (Gastos_Fijos_Operativos_2025 b)
                 (Dias_CxC b) (Dias_Inv b) (Dias_CxP b) (WACC b) (G_Perpetuidad b)
                 (Tasa_ISR b) (Dep_Pct_Base b) (CapEx_Pct_Base b))
         (proyecciones d) (proyectos d).

(** src/unnamed/part_000, [run_dcf_model]: the three rates of the side
    bar written into [model.data['base']]. *)

Definition set_sensitivity (d : Data) (wacc g isr : float) : Data :=
  let b := base d in
  mkData (mkBase (Ingresos_Totales_2025 b) (Gastos_Fijos_Operativos_2025 b)
                 (Dias_CxC b) (Dias_Inv b) (Dias_CxP b) wacc g
                 isr (Dep_Pct_Base b) (CapEx_Pct_Base b))
         (proyecciones d) (proyectos d).

Definition set_isr (d : Data) (isr : float) : Data :=
  set_sensitivity d (WACC (base d)) (G_Perpetuidad (base d)) isr.

(** The columns that the tax rate enters. *)
Definition taxed_columns : list string :=
  ["NOPAT"; "FCF"; "Valor Presente FCF"]%string.

(** Two tables with the same labels that hold the same value wherever the
    column is not one of [cols]. *)
Definition same_except (cols : list string) (df1 df2 : DataFrame) : Prop :=
  df_index df1 = df_index df2 ∧ df_columns df1 = df_columns df2 ∧
  ∀ y c, c ∉ cols →
         cells_get (y, c) (df_cells df1) = cells_get (y, c) (df_cells df2).

(** ** Rendering a figure: the format [,.0f] of the two front ends *)

Module Fmt.

Definition digit_char (k : Z) : ascii := ascii_of_N (48 + Z.to_N k).

(** The decimal digits of [n >= 0], most significant first, in front of
    [acc]. *)
Fixpoint digits_onto (fuel : nat) (n : Z) (acc : list ascii) : list ascii :=
  match fuel with
  | O => acc
  | S fuel' =>
      let acc := digit_char (n mod 10) :: acc in
      if n <? 10 then acc else digits_onto fuel' (n / 10) acc
  end.

Definition digits (n : Z) : list ascii :=
  digits_onto (S (Z.to_nat (Z.log2 n))) n [].

(** The thousands separator, on the digits from the least significant. *)
Fixpoint group3 (rev_digits : list ascii) : list ascii :=
  match rev_digits with
  | a :: b :: c :: ((_ :: _) as rest) => a :: b :: c :: ","%char :: group3 rest
  | _ => rev_digits
  end.

Definition with_commas (ds : list ascii) : list ascii := rev (group3 (rev ds)).

(** The integer nearest to [m * 2^e], ties to the even one: the digits
    that the format [.0f] prints for a finite double. *)
Definition round_half_even (m : positive) (e : Z) : Z :=
  if 0 <=? e then Z.pos m * 2 ^ e
  else
    let d := 2 ^ (- e) in
    let q := Z.pos m / d in
    let r := Z.pos m mod d in
    match 2 * r ?= d with
    | Lt => q
    | Gt => q + 1
    | Eq => if Z.even q then q else q + 1
    end.

Definition sign_chars (s : bool) : list ascii := if s then ["-"%char] else [].

(** [format(value, ',.0f')] *)
Definition comma_0f (value : float) : list ascii :=
  match Prim2SF value with
  | S754_nan => Str.chars "nan"
  | S754_infinity s => sign_chars s ++ Str.chars "inf"
  | S754_zero s => sign_chars s ++ Str.chars "0"
  | S754_finite s m e => sign_chars s ++ with_commas (digits (round_half_even m e))
  end.

End Fmt.

(** src/main.py, [format_currency] *)
Definition format_currency (value : float) : string :=
  Str.of_chars ("$"%char :: Fmt.comma_0f value).

(** The streamlit front end, [format_currency_st]: [None] and NaN are
    shown as "$0". *)
Definition format_currency_st (value : option float) : string :=
  match value with
  | None => "$0"
  | Some x => if is_nan x then "$0" else format_currency x
  end.

(** The double that [float] makes of the integer a figure is shown as. *)
Definition shown_value (value : float) : float :=
  match Prim2SF value with
  | S754_nan => nan
  | S754_infinity s => if s then neg_infinity else infinity
  | S754_zero s => if s then neg_zero else zero
  | S754_finite s m e => Fl.of_decimal s (Fmt.round_half_even m e) 0
  end.

(** The characters of a rendered integer, and white space. *)

Definition decimal_digits : list ascii := Str.chars "0123456789".

(** The characters of a rendered integer once "$" and "," are gone. *)
Definition plain_char (c : ascii) : Prop := c = "-"%char ∨ c ∈ decimal_digits.

Definition spaces (l : list ascii) : Prop := Forall (fun c => Str.is_space c = true) l.

(** ** The desktop front end (src/main.py) *)

(** What [update_results] puts on the page: the two figures of the
    summary as texts, the two rates (their rendering with one decimal is
    not modelled), and the table of [create_results_table], [None] for its
    text "No hay datos de proyección disponibles.". *)
Record Screen : Type := mkScreen {
  kpi_valor_empresa : string;
  kpi_vp_valor_terminal : string;
  kpi_wacc : float;
  kpi_g : float;
  results_table : option (list (list string))
}.

Definition table_columns : list string :=
  ["Ingresos Totales"; "FCF"; "Valor Presente FCF"]%string.

Definition create_results_table (df : DataFrame)
    : res (option (list (list string))) :=
  if df_empty df then Ok None
  else
    rows ← map_res (fun index =>
                      map_res (fun col => v ← loc_get df index col;
                                          Ok (format_currency v))
                              table_columns)
                   (df_index df);
    Ok (Some rows).

Inductive Status : Type :=
| StatusLoaded        (* "Archivo ... cargado y modelo ejecutado." *)
| StatusReadError     (* "Error al leer el Excel. ..." *)
| StatusRecalculated  (* "Modelo recalculado..." *)
| StatusNotNumeric    (* "Error: WACC y g deben ser valores numéricos." *)
| StatusNoFile.       (* "Primero debe cargar un archivo Excel." *)

Section Desktop.
Variable libm_pow : float → float → float.

(** Whether the installed Flet gives its enum [FontWeight] a member named
    [SEMIBOLD].  The members are Flet's, not this repository's; the ones
    Flet documents are NORMAL, BOLD and W_100 to W_900, for which the
    value here is [false]. *)
Variable FontWeight_has_SEMIBOLD : bool.

(** [ft.FontWeight.SEMIBOLD], line 83: the attribute lookup raises
    [AttributeError] when the enum has no such member. *)
Definition FontWeight_SEMIBOLD : res unit :=
  if FontWeight_has_SEMIBOLD then Ok tt else Raise AttributeError.

(** [update_results], in the order of evaluation of the source: the first
    card reads [summary['Valor_Empresa_VE']], a [KeyError] on an empty
    summary; the second card reads [summary['VP_Valor_Terminal']] and then
    looks up [ft.FontWeight.SEMIBOLD]; the third card reads the two rates;
    the table is built after the three cards.  Nothing is assigned to the
    page before the table is built. *)
Definition update_results (dcf_model : DCFModel) : res Screen :=
  match get_valuation_summary dcf_model with
  | None => Raise (KeyError "Valor_Empresa_VE")
  | Some summary =>
      let valor_empresa := format_currency (Valor_Empresa_VE summary) in
      let vp_valor_terminal := format_currency (VP_Valor_Terminal summary) in
      _ ← FontWeight_SEMIBOLD;
      table ← create_results_table (get_detailed_proyection dcf_model);
      Ok (mkScreen valor_empresa vp_valor_terminal
                   (val_WACC summary) (val_G_Perpetuidad summary) table)
  end.

(** [execute_model_after_upload_sync]: the new global model, the status
    line and the page when it was redrawn.  An exception of the run or of
    [update_results] is not caught. *)
Definition execute_model_after_upload_sync (file_path_absolute : FileSource)
    : res (DCFModel * Status * option Screen) :=
  let dcf_model := __init__ file_path_absolute in
  match data dcf_model with
  | None => Ok (dcf_model, StatusReadError, None)
  | Some _ =>
      '(success, dcf_model) ← run_model libm_pow dcf_model;
      if success : bool then
        screen ← update_results dcf_model;
        Ok (dcf_model, StatusLoaded, Some screen)
      else Ok (dcf_model, StatusReadError, None)
  end.

(** [run_recalculation], the handler of the two input fields: the global
    model ([None] before any upload) and the two texts.  The [try] block
    catches a [ValueError] of either [float] and of the calls inside; after
    one raised inside, the rates are overwritten already.  The call of
    [update_results] that ends main.py's [recalculate_dcf_model_sync] is
    the one made here after the run; the status line is set after it
    returned, and any other exception leaves the handler. *)
Definition run_recalculation (dcf_model : option DCFModel)
    (wacc_input g_perpetuidad_input : string)
    : res (option DCFModel * Status * option Screen) :=
  match dcf_model with
  | None => Ok (None, StatusNoFile, None)
  | Some m =>
      match PyFloat.of_str (Str.chars wacc_input),
            PyFloat.of_str (Str.chars g_perpetuidad_input) with
      | Some new_wacc_pct, Some new_g_pct =>
          match recalculate_dcf_model_sync libm_pow m new_wacc_pct new_g_pct with
          | Ok m' =>
              match update_results m' with
              | Ok screen => Ok (Some m', StatusRecalculated, Some screen)
              | Raise ValueError => Ok (Some m', StatusNotNumeric, None)
              | Raise e => Raise e
              end
          | Raise ValueError =>
              Ok (Some (mkModel
                          ((fun d => set_rates d (new_wacc_pct / 100)%float
                                                 (new_g_pct / 100)%float)
                             <$> data m)
                          (proyeccion m) (valoracion m)),
                  StatusNotNumeric, None)
          | Raise e => Raise e
          end
      | _, _ => Ok (Some m, StatusNotNumeric, None)
      end
  end.

End Desktop.

(** The cell of a table, NaN when it was never assigned. *)
Definition cell_value (df : DataFrame) (y : Z) (c : string) : float :=
  default nan (cells_get (y, c) (df_cells df)).

Definition table_row (df : DataFrame) (y : Z) : list string :=
  List.map (fun c => format_currency (cell_value df y c)) table_columns.

(** ** The streamlit front end (src/unnamed/part_000) *)

Record ProyectosDF : Type := mkProyectosDF {
  Anio : list Z;
  FCF_Base : list float;
  Ingresos_Adicionales : list float;
  CapEx_Proyectos : list float;
  FCF_Total : list float
}.

Fixpoint zip_sub (xs ys : list float) : list float :=
  match xs, ys with
  | x :: xs', y :: ys' => (x - y)%float :: zip_sub xs' ys'
  | _, _ => []
  end.

(** A column minus a list: [ValueError] unless the lengths agree. *)
Definition series_sub (xs ys : list float) : res (list float) :=
  if (length xs =? length ys)%nat then Ok (zip_sub xs ys) else Raise ValueError.

(** A list as a column of a frame of the given index. *)
Definition frame_values (index : list Z) (vs : list float) : res (list float) :=
  if (length vs =? length index)%nat then Ok vs else Raise ValueError.

(** The three values [run_dcf_model] can return: [None], the pair
    [(None, None)] after an exception was caught and shown, a model with
    the table of the projects. *)
Inductive Outcome : Type :=
| NoModel
| Failed (e : exn)
| Result (model : DCFModel) (proyectos_df : ProyectosDF).

Section Streamlit.
Variable libm_pow : float → float → float.

(** The body of the [try] block; the uploaded bytes are a workbook or
    not. *)
Definition run_dcf_model_body (uploaded_file : option Workbook)
    (wacc_pct g_pct isr_pct : float) : res (option (DCFModel * ProyectosDF)) :=
  let model :=
    __init__ (match uploaded_file with Some wb => Book wb | None => Unreadable end) in
  match data model with
  | None => Ok None
  | Some d =>
      let d := set_sensitivity d (wacc_pct / 100)%float (g_pct / 100)%float
                               (isr_pct / 100)%float in
      let model := mkModel (Some d) (proyeccion model) (valoracion model) in
      '(_, model) ← run_model libm_pow model;
      let df_proj := get_detailed_proyection model in
      fcf ← get_col df_proj "FCF";
      fcf_base ← series_sub fcf (ingresos_adicionales (proyectos d));
      fcf_total ← get_col df_proj "FCF";
      ingresos ← frame_values (df_index df_proj) (ingresos_adicionales (proyectos d));
      capex ← frame_values (df_index df_proj) (capex_inversion (proyectos d));
      Ok (Some (model, mkProyectosDF (df_index df_proj) fcf_base ingresos capex
                                     fcf_total))
  end.

Definition run_dcf_model (uploaded_file : option Workbook)
    (wacc_pct g_pct isr_pct : float) : Outcome :=
  match run_dcf_model_body uploaded_file wacc_pct g_pct isr_pct with
  | Ok None => NoModel
  | Ok (Some (model, proyectos_df)) => Result model proyectos_df
  | Raise e => Failed e
  end.

End Streamlit.

(** The test of the page, [result and result[0] and result[0].valoracion]. *)
Definition dashboard_shown (result : Outcome) : bool :=
  match result with
  | Result model _ => bool_decide (is_Some (valoracion model))
  | _ => false
  end.

(** The sample workbook in the streamlit front end, with the rates of the
    side bar at their defaults (WACC 20, g 3, ISR 30). *)
Module SampleApp.

Definition result : Outcome :=
  run_dcf_model Fl.pow_rounded
    (Some (Sample.workbook (CStr "20%") (CFloat 0.03))) 20 3 30.

Definition model : DCFModel :=
  match result with
  | Result m _ => m
  | _ => Sample.model (CStr "20%") (CFloat 0.03)
  end.

Definition table : ProyectosDF :=
  match result with
  | Result _ p => p
  | _ => mkProyectosDF [] [] [] [] []
  end.

End SampleApp.

(** The sample workbook with the text NAN as the project CapEx of 2027:
    [float] reads the text as NaN, so the CapEx, the FCF and the
    discounted FCF of 2027 are NaN. *)
Module SampleNaN.

Definition impacto : Sheet :=
  [ [CStr "Impacto de proyectos"]; [];
    [CStr "CapEx"; CBlank; CBlank;
     CInt 50000; CStr "NAN"; CInt 50000; CInt 50000; CInt 50000];
    []; []; [];
    Sample.impact_row "Ingresos adicionales" (CStr "120,000"); []; []; [];
    Sample.impact_row "Ahorros operativos" (CInt 10000); []; []; [];
    Sample.impact_row "Depreciacion adicional" (CInt 5000) ].

Definition workbook : Workbook :=
  [ ("Hipotesis_Base"%string, Sample.hipotesis (CStr "20%") (CFloat 0.03));
    ("Proyecciones_Detalladas"%string, Sample.detalladas);
    ("Impacto_Proyectos"%string, impacto) ].

Definition model : DCFModel := __init__ (Book workbook).

Definition valued : DCFModel :=
  match run_model Fl.pow_rounded model with
  | Ok (_, m) => m
  | Raise _ => model
  end.

End SampleNaN.

(** * Properties *)

(** ** Facts of binary64 arithmetic *)

Lemma float_eq_of_spec x y : Prim2SF x = Prim2SF y → x = y.
Proof.
  intros H. rewrite <- (SF2Prim_Prim2SF x), <- (SF2Prim_Prim2SF y). by rewrite H.
Qed.

(** Subtracting the integer 0 changes nothing, signed zeros and NaN
    included. *)
Lemma float_sub_zero x : (x - 0)%float = x.
Proof.
  apply float_eq_of_spec. rewrite sub_spec.
  change (Prim2SF 0) with (S754_zero false).
  by destruct (Prim2SF x) as [[]|[]| |[] m e].
Qed.

Lemma finite_spec x :
  is_finite x = true →
  (∃ s, Prim2SF x = S754_zero s) ∨ (∃ s m e, Prim2SF x = S754_finite s m e).
Proof.
  unfold is_finite, Prim2SF. intros H.
  apply negb_true_iff, orb_false_iff in H as [-> ->].
  destruct (is_zero x); [eauto|].
  destruct (Z.frexp x) as [r ex].
  destruct (shr_fexp _ _ _ _ _) as [mrs e'].
  destruct (shr_m mrs); eauto 6.
Qed.

Lemma not_finite_of_spec x :
  Prim2SF x = S754_nan ∨ (∃ s, Prim2SF x = S754_infinity s) →
  is_finite x = false.
Proof.
  intros H. rewrite <- (SF2Prim_Prim2SF x).
  destruct H as [->|[[] ->]]; reflexivity.
Qed.

(** A finite double minus itself is +0. *)
Lemma float_sub_diag x :
  is_finite x = true → Prim2SF (x - x)%float = S754_zero false.
Proof.
  intros H. rewrite sub_spec.
  destruct (finite_spec x H) as [[s ->]|(s & m & e & ->)].
  - by destruct s.
  - unfold SF64sub, SFsub. rewrite Z.sub_diag. reflexivity.
Qed.

(** Dividing by [x - x] never gives a finite double: it is an infinity or
    NaN. *)
Lemma float_div_diag_not_finite x y :
  is_finite x = true → is_finite (y / (x - x))%float = false.
Proof.
  intros H. apply not_finite_of_spec.
  rewrite div_spec, (float_sub_diag x H).
  destruct (Prim2SF y) as [s|s| |s m e]; simpl; eauto.
Qed.

Lemma SFcompare_antisym x y :
  SFcompare y x = CompOpp <$> SFcompare x y.
Proof.
  destruct x as [[]|[]| |[] m1 e1], y as [[]|[]| |[] m2 e2]; try reflexivity;
    simpl; f_equal; rewrite (Z.compare_antisym e1 e2);
    pose proof (Pos.compare_cont_antisym m1 m2 Eq) as E; simpl in E;
    rewrite <- E; by destruct (e1 ?= e2).
Qed.

(** [x <= y] excludes [y < x]. *)
Lemma float_leb_not_ltb x y : (x <=? y)%float = true → (y <? x)%float = false.
Proof.
  rewrite leb_spec, ltb_spec. unfold SFleb, SFltb.
  rewrite (SFcompare_antisym (Prim2SF x) (Prim2SF y)).
  by destruct (SFcompare (Prim2SF x) (Prim2SF y)) as [[]|].
Qed.

(** A negative number is not above 1. *)
Lemma float_neg_not_above_one x : (x <? 0)%float = true → (1 <? x)%float = false.
Proof.
  rewrite !ltb_spec. unfold SFltb.
  change (Prim2SF 0) with (S754_zero false).
  change (Prim2SF 1) with (S754_finite false 4503599627370496 (-52)).
  by destruct (Prim2SF x) as [[]|[]| |[] m e].
Qed.

(** On a number that is not negative, the test against 1 is a test of the
    magnitude. *)
Lemma float_abs_above_one x :
  (0 <=? x)%float = true → (1 <? abs x)%float = (1 <? x)%float.
Proof.
  rewrite leb_spec, !ltb_spec, abs_spec. unfold SFleb, SFltb.
  change (Prim2SF 0) with (S754_zero false).
  change (Prim2SF 1) with (S754_finite false 4503599627370496 (-52)).
  by destruct (Prim2SF x) as [[]|[]| |[] m e].
Qed.

(** ** The error monad *)

Lemma bind_ok {A B} (m : res A) (f : A → res B) (b : B) :
  m ≫= f = Ok b → ∃ a, m = Ok a ∧ f a = Ok b.
Proof. destruct m as [a|e]; [eauto | discriminate]. Qed.

Lemma map_res_lookup {A B} (f : A → res B) l bs i a :
  map_res f l = Ok bs → l !! i = Some a → ∃ b, bs !! i = Some b ∧ f a = Ok b.
Proof.
  revert bs i; induction l as [|x l IH]; intros bs i H Hi; [done|].
  simpl in H. apply bind_ok in H as (b & Hb & H).
  apply bind_ok in H as (bs' & Hbs & H). injection H as <-.
  destruct i as [|i]; simpl in *.
  - injection Hi as ->. eauto.
  - eauto.
Qed.

(** ** Reading and writing the table *)

Lemma same_key_true k k' : same_key k k' = true ↔ k = k'.
Proof.
  destruct k as [y c], k' as [y' c']. unfold same_key; simpl.
  rewrite andb_true_iff, Z.eqb_eq, String.eqb_eq. split; [by intros [-> ->]|].
  by intros [= -> ->].
Qed.

Lemma cells_get_put_eq k v m : cells_get k (cells_put k v m) = Some v.
Proof.
  simpl. by rewrite (proj2 (same_key_true k k) eq_refl).
Qed.

Lemma cells_get_put_ne k k' v m :
  k ≠ k' → cells_get k' (cells_put k v m) = cells_get k' m.
Proof.
  intros Hne. simpl. destruct (same_key k k') eqn:E; [|done].
  by apply same_key_true in E.
Qed.

#[global] Arguments cells_get : simpl never.
#[global] Arguments cells_put : simpl never.

Lemma elem_of_add_once {A} `{EqDecision A} (x y : A) l :
  y ∈ add_once x l ↔ y = x ∨ y ∈ l.
Proof.
  unfold add_once. case_bool_decide as Hx.
  - split; [auto | intros [->|]; auto].
  - rewrite elem_of_app, list_elem_of_singleton. tauto.
Qed.

Lemma add_once_elem {A} `{EqDecision A} (x : A) l : x ∈ l → add_once x l = l.
Proof. intros Hx. unfold add_once. by rewrite bool_decide_eq_true_2. Qed.

Lemma loc_get_set_eq df y c v : loc_get (loc_set df y c v) y c = Ok v.
Proof.
  unfold loc_get, loc_set; simpl.
  rewrite !bool_decide_eq_true_2 by (apply elem_of_add_once; auto).
  simpl. by rewrite cells_get_put_eq.
Qed.

(** A cell that could be read is still read, with the same value, after
    another cell was assigned. *)
Lemma loc_get_set_ne df y c v y' c' v' :
  (y, c) ≠ (y', c') →
  loc_get df y' c' = Ok v' → loc_get (loc_set df y c v) y' c' = Ok v'.
Proof.
  unfold loc_get, loc_set; simpl. intros Hne.
  destruct (bool_decide (y' ∈ df_index df)) eqn:Hy; [|discriminate].
  destruct (bool_decide (c' ∈ df_columns df)) eqn:Hc; [|discriminate].
  apply bool_decide_eq_true in Hy, Hc. simpl.
  rewrite !bool_decide_eq_true_2 by (apply elem_of_add_once; auto).
  simpl. by rewrite cells_get_put_ne.
Qed.

Lemma loc_set_index df y c v :
  y ∈ df_index df → df_index (loc_set df y c v) = df_index df.
Proof. intros Hy. simpl. by apply add_once_elem. Qed.

Lemma set_cells_lookup_ne cells c labels vs y c' :
  c ≠ c' → cells_get (y, c') (set_cells cells c labels vs) = cells_get (y, c') cells.
Proof.
  intros Hc. revert vs; induction labels as [|l labels IH]; intros [|v vs];
    simpl; try done.
  rewrite cells_get_put_ne by congruence. apply IH.
Qed.

Lemma set_cells_lookup cells c labels vs i y v :
  NoDup labels → labels !! i = Some y → vs !! i = Some v →
  cells_get (y, c) (set_cells cells c labels vs) = Some v.
Proof.
  intros Hnd. revert vs i; induction Hnd as [|l labels Hl Hnd IH];
    intros [|w vs] [|i] Hy Hv; simpl in *; try done.
  - injection Hy as ->. injection Hv as ->. by rewrite cells_get_put_eq.
  - rewrite cells_get_put_ne; [by eapply IH|].
    intros [= ->]. apply Hl. by eapply list_elem_of_lookup_2.
Qed.

(** Assigning a column leaves every other column as it was. *)
Lemma loc_get_set_col_ne df c vs df' y c' :
  set_col df c vs = Ok df' → c ≠ c' → loc_get df' y c' = loc_get df y c'.
Proof.
  unfold set_col. case_match; [|discriminate]. intros [= <-] Hc.
  unfold loc_get; simpl. rewrite set_cells_lookup_ne by done.
  replace (bool_decide (c' ∈ add_once c (df_columns df)))
    with (bool_decide (c' ∈ df_columns df)); [done|].
  apply bool_decide_ext. rewrite elem_of_add_once. intuition congruence.
Qed.

Lemma loc_get_set_col df c vs df' i y v :
  set_col df c vs = Ok df' → NoDup (df_index df) →
  df_index df !! i = Some y → vs !! i = Some v →
  loc_get df' y c = Ok v.
Proof.
  unfold set_col. case_match; [|discriminate]. intros [= <-] Hnd Hy Hv.
  unfold loc_get; simpl.
  rewrite !bool_decide_eq_true_2;
    [|apply elem_of_add_once; auto|by eapply list_elem_of_lookup_2].
  simpl. by erewrite set_cells_lookup.
Qed.

Lemma set_col_index df c vs df' :
  set_col df c vs = Ok df' → df_index df' = df_index df.
Proof. unfold set_col. case_match; [|discriminate]. by intros [= <-]. Qed.

Lemma get_col_set_col df c vs df' :
  set_col df c vs = Ok df' → NoDup (df_index df) → get_col df' c = Ok vs.
Proof.
  unfold set_col. case_match eqn:Hlen; [|discriminate]. intros [= <-] Hnd.
  apply Nat.eqb_eq in Hlen.
  unfold get_col; simpl.
  rewrite bool_decide_eq_true_2 by (apply elem_of_add_once; auto).
  f_equal. apply list_eq. intros i.
  rewrite list_lookup_fmap.
  destruct (df_index df !! i) as [y|] eqn:Hy; simpl.
  - destruct (vs !! i) as [v|] eqn:Hv.
    + by erewrite set_cells_lookup.
    + apply lookup_ge_None in Hv. apply lookup_lt_Some in Hy. lia.
  - symmetry. apply lookup_ge_None. apply lookup_ge_None in Hy. lia.
Qed.

Lemma get_col_lookup df c col i y :
  get_col df c = Ok col → df_index df !! i = Some y →
  ∃ v, col !! i = Some v ∧ loc_get df y c = Ok v.
Proof.
  unfold get_col, loc_get. case_bool_decide as Hc; [|discriminate].
  intros [= <-] Hy. rewrite list_lookup_fmap, Hy. simpl.
  eexists; split; [done|].
  rewrite bool_decide_eq_true_2 by (by eapply list_elem_of_lookup_2). done.
Qed.

Lemma df_empty_false df y c v : loc_get df y c = Ok v → df_empty df = false.
Proof.
  unfold loc_get, df_empty.
  destruct (bool_decide (y ∈ df_index df)) eqn:Hy; [|discriminate].
  destruct (bool_decide (c ∈ df_columns df)) eqn:Hc; [|discriminate].
  apply bool_decide_eq_true in Hy, Hc.
  destruct (df_index df); [by apply elem_of_nil in Hy|].
  destruct (df_columns df); [by apply elem_of_nil in Hc|]. done.
Qed.

(** ** Tactics for the monadic code *)

Ltac get_ok :=
  repeat first
    [ apply loc_get_set_eq
    | apply loc_get_set_ne; [congruence|] ];
  try eassumption.

Ltac bind_inv H :=
  let x := fresh "x" in
  let Hx := fresh "Hx" in
  apply bind_ok in H as (x & Hx & H).

Ltac read_back Hx :=
  match type of Hx with
  | loc_get ?df ?y ?c = Ok _ =>
      let E := fresh "E" in
      eassert (loc_get df y c = Ok _) as E by get_ok;
      rewrite E in Hx; clear E; injection Hx as <-
  end.

(** ** One iteration of the loop *)

Section Iteration.
Variable libm_pow : float → float → float.

Lemma year_str_prev t : prev_year_str t ≠ year_str t.
Proof. unfold prev_year_str, year_str. lia. Qed.

Lemma get_prev_ingreso_set df t key base prev c v :
  get_prev_ingreso df t key base = Ok prev →
  get_prev_ingreso (loc_set df (year_str t) c v) t key base = Ok prev.
Proof.
  unfold get_prev_ingreso. destruct (1 <? t); [|done].
  apply loc_get_set_ne. pose proof (year_str_prev t). congruence.
Qed.

Lemma stream_step_inv d df t r key df' actual cv :
  stream_step d df t r key = Ok (df', actual, cv) →
  ∃ prev g cvp,
    prior_level d df t r key prev ∧
    driver d (r + 1) t true = Ok g ∧ driver d (r + 2) t true = Ok cvp ∧
    actual = (prev * (1 + g))%float ∧ cv = (actual * cvp)%float ∧
    df' = loc_set df (year_str t) key actual.
Proof.
  unfold stream_step. intros H.
  bind_inv H. bind_inv H. bind_inv H. bind_inv H.
  injection H as <- <- <-.
  exists x2, x0, x1. unfold prior_level. eauto 10.
Qed.

Lemma prior_level_set d df t r key prev c v :
  prior_level d df t r key prev →
  prior_level d (loc_set df (year_str t) c v) t r key prev.
Proof.
  intros (b0 & Hb & Hp). exists b0. split; [done|].
  by apply get_prev_ingreso_set.
Qed.

Lemma year_body_inv d df t df' :
  year_body libm_pow d df t = Ok df' →
  ∃ v, df' = write_row (base d) v df (year_str t) ∧ inputs_of libm_pow d df' t v.
Proof.
  unfold year_body. intros H.
  bind_inv H. destruct x as [[df1 i1] c1].
  apply stream_step_inv in Hx as (p1 & g1 & cv1 & Hp1 & Hg1 & Hcv1 & -> & -> & ->).
  bind_inv H. destruct x as [[df2 i2] c2].
  apply stream_step_inv in Hx as (p2 & g2 & cv2 & Hp2 & Hg2 & Hcv2 & -> & -> & ->).
  bind_inv H. destruct x as [[df3 i3] c3].
  apply stream_step_inv in Hx as (p3 & g3 & cv3 & Hp3 & Hg3 & Hcv3 & -> & -> & ->).
  bind_inv H. bind_inv H. bind_inv H. bind_inv H. bind_inv H. bind_inv H.
  rename x into ia, x0 into ao, x1 into da, x2 into cp, x3 into infl, x4 into gvp.
  bind_inv H. read_back Hx5.
  bind_inv H. read_back Hx5.
  bind_inv H. read_back Hx5.
  bind_inv H. rename x into ckp, Hx5 into Hck.
  bind_inv H. read_back Hx5.
  bind_inv H. read_back Hx5.
  bind_inv H. read_back Hx5.
  bind_inv H. read_back Hx5.
  injection H as <-.
  exists (mkVals p1 g1 cv1 p2 g2 cv2 p3 g3 cv3 ia ao da cp infl gvp ckp).
  split; [reflexivity|].
  unfold inputs_of; simpl.
  repeat split; try assumption;
    try (repeat first [eassumption | apply prior_level_set]).
  destruct (1 <? t); [|done].
  pose proof (year_str_prev t).
  repeat first [eassumption | apply loc_get_set_ne; [congruence|]].
Qed.

Lemma write_row_stored b v df y : stored b v (write_row b v df y) y.
Proof. unfold stored, write_row. repeat split; get_ok. Qed.

Lemma write_row_frame b v df y y' c x :
  y' ≠ y → loc_get df y' c = Ok x → loc_get (write_row b v df y) y' c = Ok x.
Proof.
  intros Hy Hx. unfold write_row.
  repeat (apply loc_get_set_ne; [congruence|]). done.
Qed.

Lemma write_row_index b v df y :
  y ∈ df_index df → df_index (write_row b v df y) = df_index df.
Proof.
  intros Hy. unfold write_row.
  repeat (rewrite loc_set_index; [|try done]).
  all: try done.
Qed.
End Iteration.

(** ** The loop over the forecast years *)

Lemma zrange_lookup a n i :
  (i < n)%nat → zrange a n !! i = Some (a + Z.of_nat i).
Proof.
  revert a i; induction n as [|n IH]; intros a [|i] Hi; simpl; try lia.
  - f_equal. lia.
  - rewrite IH by lia. f_equal. lia.
Qed.

Lemma elem_of_zrange a n x : x ∈ zrange a n ↔ a ≤ x < a + Z.of_nat n.
Proof.
  revert a; induction n as [|n IH]; intros a; simpl.
  - rewrite elem_of_nil. lia.
  - rewrite elem_of_cons, IH. lia.
Qed.

Lemma NoDup_zrange a n : NoDup (zrange a n).
Proof.
  revert a; induction n as [|n IH]; intros a; simpl; constructor; [|done].
  rewrite elem_of_zrange. lia.
Qed.

Lemma length_zrange a n : length (zrange a n) = n.
Proof. revert a; induction n as [|n IH]; intros a; simpl; [done|]. by rewrite IH. Qed.

Lemma zip_mul_lookup xs ys i x y :
  xs !! i = Some x → ys !! i = Some y → zip_mul xs ys !! i = Some (x * y)%float.
Proof.
  revert ys i; induction xs as [|x' xs IH]; intros [|y' ys] [|i] Hx Hy;
    simpl in *; try done.
  - by injection Hx as ->; injection Hy as ->.
  - by apply IH.
Qed.

Section Loop.
Variable libm_pow : float → float → float.

Lemma prior_level_keeps d df df2 t r key prev :
  key ≠ "VP Factor"%string → key ≠ "Valor Presente FCF"%string →
  keeps df df2 (prev_year_str t) →
  prior_level d df t r key prev → prior_level d df2 t r key prev.
Proof.
  intros ?? Hk (b0 & Hb & Hp). exists b0. split; [done|].
  unfold get_prev_ingreso in *. destruct (1 <? t); [|done]. by apply Hk.
Qed.

Lemma row_of_keeps d df df2 t :
  keeps df df2 (year_str t) → keeps df df2 (prev_year_str t) →
  row_of libm_pow d df t → row_of libm_pow d df2 t.
Proof.
  intros Hy Hp (v & Hin & Hst). exists v. split.
  - unfold inputs_of in *.
    destruct Hin as (H1 & ? & ? & H2 & ? & ? & H3 & ? & ? & ? & ? & ? & ? & ? & ? & Hck).
    repeat split; try assumption.
    1-3: eapply prior_level_keeps; [| |eassumption|eassumption]; congruence.
    destruct (1 <? t); [|done]. apply Hp; [congruence..|done].
  - unfold stored in *.
    destruct Hst as (?&?&?&?&?&?&?&?&?&?&?).
    repeat split; apply Hy; first [congruence|assumption].
Qed.

Lemma year_body_row d df t df' :
  year_body libm_pow d df t = Ok df' → row_of libm_pow d df' t.
Proof.
  intros H. apply year_body_inv in H as (v & -> & Hin).
  exists v. split; [done|]. apply write_row_stored.
Qed.

Lemma year_body_frame d df t df' y c x :
  year_body libm_pow d df t = Ok df' →
  y ≠ year_str t → loc_get df y c = Ok x → loc_get df' y c = Ok x.
Proof.
  intros H. apply year_body_inv in H as (v & -> & _). apply write_row_frame.
Qed.

Lemma year_body_index d df t df' :
  year_body libm_pow d df t = Ok df' →
  year_str t ∈ df_index df → df_index df' = df_index df.
Proof.
  intros H. apply year_body_inv in H as (v & -> & _). apply write_row_index.
Qed.

Lemma year_loop_frame d ts : ∀ df df' y c x,
  year_loop libm_pow d df ts = Ok df' →
  (∀ t, t ∈ ts → y ≠ year_str t) →
  loc_get df y c = Ok x → loc_get df' y c = Ok x.
Proof.
  induction ts as [|t ts IH]; intros df df' y c x H Hy Hx; simpl in H.
  - by injection H as <-.
  - bind_inv H. eapply IH; [exact H| |].
    + intros t' Ht'. apply Hy. by right.
    + eapply year_body_frame; [exact Hx0| |exact Hx]. apply Hy. by left.
Qed.

Lemma year_loop_index d ts : ∀ df df',
  year_loop libm_pow d df ts = Ok df' →
  (∀ t, t ∈ ts → year_str t ∈ df_index df) → df_index df' = df_index df.
Proof.
  induction ts as [|t ts IH]; intros df df' H Hy; simpl in H.
  - by injection H as <-.
  - bind_inv H.
    pose proof (year_body_index _ _ _ _ Hx (Hy t ltac:(by left))) as E.
    rewrite <- E. apply IH; [done|]. intros t' Ht'. rewrite E. apply Hy. by right.
Qed.

(** After the loop over [a, a+1, ...], every year of it has its row. *)
Lemma year_loop_rows d n : ∀ a df df',
  year_loop libm_pow d df (zrange a n) = Ok df' →
  ∀ t, a ≤ t < a + Z.of_nat n → row_of libm_pow d df' t.
Proof.
  induction n as [|n IH]; intros a df df' H t Ht; simpl in *; [lia|].
  bind_inv H. rename x into df1.
  destruct (decide (t = a)) as [->|Hne].
  - apply year_body_row in Hx.
    eapply row_of_keeps; [| |exact Hx]; intros c x _ _ Hc;
      (eapply year_loop_frame; [exact H| |exact Hc]);
      intros t' Ht'; apply elem_of_zrange in Ht';
      unfold year_str, prev_year_str; lia.
  - eapply IH; [exact H|]. lia.
Qed.

Lemma project_inv d df :
  project libm_pow d = Ok df →
  ∃ df_loop factors df_vp fcfs vps,
    year_loop libm_pow d (df_new (zrange start_year years)) (zrange 1 years)
      = Ok df_loop ∧
    map_res (discount_factor libm_pow (WACC (base d))) (zrange 1 years) = Ok factors ∧
    set_col df_loop "VP Factor" factors = Ok df_vp ∧
    get_col df_vp "FCF" = Ok fcfs ∧
    get_col df_vp "VP Factor" = Ok vps ∧
    set_col df_vp "Valor Presente FCF" (zip_mul fcfs vps) = Ok df.
Proof.
  unfold project. intros H.
  bind_inv H. bind_inv H. bind_inv H. bind_inv H. bind_inv H.
  eexists _, _, _, _, _. repeat split; eassumption.
Qed.

Lemma project_index d df :
  project libm_pow d = Ok df → df_index df = zrange start_year years.
Proof.
  intros H. apply project_inv in H as (dfl & fs & dfv & fcfs & vps & Hl & _ & Hv & _ & _ & Hp).
  apply set_col_index in Hp, Hv. rewrite Hp, Hv.
  apply year_loop_index in Hl; [done|].
  intros t Ht. apply elem_of_zrange in Ht.
  change (df_index (df_new ?l)) with l. apply elem_of_zrange.
  unfold year_str, start_year, years in *. lia.
Qed.

Lemma project_keeps d df :
  project libm_pow d = Ok df →
  ∃ df_loop,
    year_loop libm_pow d (df_new (zrange start_year years)) (zrange 1 years)
      = Ok df_loop ∧
    ∀ y c, c ≠ "VP Factor"%string → c ≠ "Valor Presente FCF"%string →
           loc_get df y c = loc_get df_loop y c.
Proof.
  intros H. apply project_inv in H as (dfl & fs & dfv & fcfs & vps & Hl & _ & Hv & _ & _ & Hp).
  exists dfl. split; [done|]. intros y c H1 H2.
  erewrite loc_get_set_col_ne; [|exact Hp|congruence].
  erewrite loc_get_set_col_ne; [|exact Hv|congruence]. done.
Qed.

(** Every forecast year has its row in the projection. *)
Lemma project_rows d df t :
  project libm_pow d = Ok df → 1 ≤ t ≤ 5 → row_of libm_pow d df t.
Proof.
  intros H Ht. apply project_keeps in H as (dfl & Hl & Hk).
  eapply row_of_keeps; [| |eapply year_loop_rows; [exact Hl|unfold years; lia]];
    intros c x ?? Hc; by rewrite Hk.
Qed.

(** The two discount columns of the projection. *)
Lemma project_discount d df t :
  project libm_pow d = Ok df → 1 ≤ t ≤ 5 →
  ∃ fcf_t f_t col,
    loc_get df (year_str t) "FCF" = Ok fcf_t ∧
    discount_factor libm_pow (WACC (base d)) t = Ok f_t ∧
    loc_get df (year_str t) "VP Factor" = Ok f_t ∧
    loc_get df (year_str t) "Valor Presente FCF" = Ok (fcf_t * f_t)%float ∧
    get_col df "Valor Presente FCF" = Ok col ∧
    length col = years ∧
    col !! Z.to_nat (t - 1) = Some (fcf_t * f_t)%float.
Proof.
  intros H Ht.
  pose proof (project_index _ _ H) as Hidx.
  apply project_inv in H as (dfl & fs & dfv & fcfs & vps & Hl & Hfs & Hv & Hf & Hvp & Hp).
  pose proof (set_col_index _ _ _ _ Hp) as Hi1.
  pose proof (set_col_index _ _ _ _ Hv) as Hi2.
  assert (df_index dfv = zrange start_year years) as Hiv by congruence.
  assert (df_index dfl = zrange start_year years) as Hil by congruence.
  set (i := Z.to_nat (t - 1)).
  assert (i < years)%nat as Hi by (unfold years; lia).
  assert (zrange start_year years !! i = Some (year_str t)) as Hy.
  { rewrite zrange_lookup by done. f_equal. unfold year_str. lia. }
  assert (zrange 1 years !! i = Some t) as Ht'.
  { rewrite zrange_lookup by done. f_equal. lia. }
  destruct (map_res_lookup _ _ _ _ _ Hfs Ht') as (f & Hfi & Hdf).
  assert (loc_get dfv (year_str t) "VP Factor" = Ok f) as Hvf.
  { eapply loc_get_set_col; [exact Hv| | |exact Hfi]; rewrite Hil;
      [apply NoDup_zrange|done]. }
  destruct (get_col_lookup _ _ _ i _ Hf ltac:(by rewrite Hiv)) as (x & Hxi & Hx).
  destruct (get_col_lookup _ _ _ i _ Hvp ltac:(by rewrite Hiv)) as (f' & Hfi' & Hf').
  assert (f' = f) as -> by congruence.
  pose proof (zip_mul_lookup _ _ _ _ _ Hxi Hfi') as Hz.
  exists x, f, (zip_mul fcfs vps). repeat split.
  - erewrite loc_get_set_col_ne; [done|exact Hp|congruence].
  - done.
  - erewrite loc_get_set_col_ne; [done|exact Hp|congruence].
  - eapply loc_get_set_col; [exact Hp| | |exact Hz]; rewrite Hiv;
      [apply NoDup_zrange|done].
  - eapply get_col_set_col; [exact Hp|]. rewrite Hiv. apply NoDup_zrange.
  - unfold set_col in Hp. case_match eqn:Hlen; [|discriminate].
    apply Nat.eqb_eq in Hlen. rewrite Hlen, Hiv. apply length_zrange.
  - done.
Qed.

End Loop.

(** ** The model object: projection, valuation, run *)

Lemma series_sum_no_nan xs : has_nan xs = false → series_sum xs = plain_sum xs.
Proof.
  unfold series_sum, plain_sum. generalize 0%float.
  induction xs as [|x xs IH]; intros acc H; simpl in *; [done|].
  apply orb_false_iff in H as [-> H]. by apply IH.
Qed.

Section Model.
Variable libm_pow : float → float → float.

Lemma calculate_projection_inv self b self' :
  _calculate_projection libm_pow self = Ok (b, self') →
  (b = false ∧ data self = None ∧ self' = self) ∨
  (b = true ∧ ∃ d, data self = Some d ∧
     project libm_pow d = Ok (proyeccion self') ∧
     self' = set_proyeccion self (proyeccion self')).
Proof.
  unfold _calculate_projection. destruct (data self) as [d|] eqn:Hd.
  - intros H. bind_inv H. injection H as <- <-. right. eauto.
  - intros [= <- <-]. by left.
Qed.

Lemma stream_row_of d df t r key prev g cv :
  prior_level d df t r key prev →
  driver d (r + 1) t true = Ok g → driver d (r + 2) t true = Ok cv →
  loc_get df (year_str t) key = Ok (prev * (1 + g))%float →
  1 ≤ t → stream_row d df t r key prev g cv.
Proof.
  intros (b0 & Hb & Hp) Hg Hcv Hl Ht. unfold stream_row, get_prev_ingreso in *.
  repeat split; try assumption.
  - intros ->. simpl in Hp. congruence.
  - intros H1. apply Z.ltb_lt in H1. rewrite H1 in Hp.
    replace (year_str (t - 1)) with (prev_year_str t); [done|].
    unfold year_str, prev_year_str. lia.
Qed.

(** The power that inflates the fixed expenses: the base is the constant
    1.03 and [pow] is called on it, for every year of the horizon. *)
Lemma inflation_factor t x :
  1 ≤ t ≤ 5 →
  float_pow libm_pow (1 + g_fijos_inflacion)%float t = Ok x →
  x = libm_pow 1.03%float (Fl.of_Z_rounded t).
Proof.
  intros Ht. unfold float_pow.
  destruct (t =? 0) eqn:E; [apply Z.eqb_eq in E; lia|].
  change (1 + g_fijos_inflacion)%float with 1.03%float. simpl.
  destruct (is_infinity _); [discriminate|]. by intros [= <-].
Qed.

(** What [_calculate_valuation] stores, for any table in which the last
    year can be read: there is no test on the two rates. *)
Lemma calculate_valuation_run self d nopat_n fcf_n vp_factor_n col :
  data self = Some d →
  loc_get (proyeccion self) last_year_label "NOPAT" = Ok nopat_n →
  loc_get (proyeccion self) last_year_label "FCF" = Ok fcf_n →
  loc_get (proyeccion self) last_year_label "VP Factor" = Ok vp_factor_n →
  get_col (proyeccion self) "Valor Presente FCF" = Ok col →
  let wacc := WACC (base d) in
  let g := G_Perpetuidad (base d) in
  let valor_terminal := (fcf_n * (1 + g) / (wacc - g))%float in
  let vp_vt := (valor_terminal * vp_factor_n)%float in
  _calculate_valuation self =
    Ok (true, set_valoracion self
                (mkVal (series_sum col) valor_terminal vp_vt
                       (series_sum col + vp_vt)%float wacc g (Tasa_ISR (base d)))).
Proof.
  intros Hd Hn Hf Hv Hc. unfold _calculate_valuation.
  rewrite (df_empty_false _ _ _ _ Hf), Hd, Hn, Hf, Hv, Hc. reflexivity.
Qed.

(** A projection that succeeds is always followed by a valuation that
    succeeds. *)
Lemma run_model_spec self d df :
  data self = Some d → project libm_pow d = Ok df →
  ∃ fcf_n vp_n col,
    loc_get df last_year_label "FCF" = Ok fcf_n ∧
    loc_get df last_year_label "VP Factor" = Ok vp_n ∧
    discount_factor libm_pow (WACC (base d)) 5 = Ok vp_n ∧
    get_col df "Valor Presente FCF" = Ok col ∧
    let wacc := WACC (base d) in
    let g := G_Perpetuidad (base d) in
    let valor_terminal := (fcf_n * (1 + g) / (wacc - g))%float in
    let vp_vt := (valor_terminal * vp_n)%float in
    run_model libm_pow self =
      Ok (true, set_valoracion (set_proyeccion self df)
                  (mkVal (series_sum col) valor_terminal vp_vt
                         (series_sum col + vp_vt)%float wacc g (Tasa_ISR (base d)))).
Proof.
  intros Hd Hp.
  destruct (project_discount libm_pow d df 5 Hp ltac:(lia))
    as (fcf_n & f & col & Hf & Hdf & Hvf & _ & Hcol & _ & _).
  destruct (project_rows libm_pow d df 5 Hp ltac:(lia)) as (v & _ & Hst).
  destruct Hst as (_&_&_&_&_&_&Hn&_).
  exists fcf_n, f, col. repeat split; try assumption.
  unfold run_model, _calculate_projection. rewrite Hd, Hp. simpl.
  by erewrite (calculate_valuation_run (set_proyeccion self df) d).
Qed.

Lemma run_model_inv self b self' :
  run_model libm_pow self = Ok (b, self') →
  (b = false ∧ data self = None ∧ self' = self) ∨
  (b = true ∧ ∃ d, data self = Some d ∧ project libm_pow d = Ok (proyeccion self')).
Proof.
  unfold run_model. destruct (data self) as [d|] eqn:Hd.
  - unfold _calculate_projection. rewrite Hd.
    destruct (project libm_pow d) as [df|e] eqn:Hp; [|discriminate].
    destruct (run_model_spec self d df Hd Hp) as (fcf_n & f & col & _ & _ & _ & _ & Hr).
    unfold run_model, _calculate_projection in Hr. rewrite Hd, Hp in Hr.
    simpl in *. rewrite Hr. intros [= <- <-]. right. eauto.
  - intros [= <- <-]. by left.
Qed.

End Model.

(** * The claims about the normalizer *)

Lemma clean_and_convert_text s p :
  clean_and_convert (CStr s) p =
    Ok match parse_text s p with
       | Parsed numeric_value is_percentage =>
           percent_rule is_percentage numeric_value
       | Unparseable => 0%float
       end.
Proof.
  unfold clean_and_convert. simpl.
  destruct (String.eqb s "") eqn:E.
  - apply String.eqb_eq in E as ->. reflexivity.
  - by destruct (parse_text s p).
Qed.

(** C5: the five equalities of the contract, and the zero-fill policy:
    a blank cell, a NaN and a text that [float] rejects all become 0.0;
    any other text becomes its parsed number under the percentage rule. *)
Theorem C5_normalizer_contract :
  clean_and_convert (CStr "30%") false = Ok 0.30%float ∧
  clean_and_convert (CStr "1,234.5") false = Ok 1234.5%float ∧
  clean_and_convert (CStr "") false = Ok 0.0%float ∧
  clean_and_convert (CFloat 0.3) true = Ok 0.3%float ∧
  clean_and_convert (CStr "abc") false = Ok 0.0%float ∧
  (∀ p, clean_and_convert CBlank p = Ok 0.0%float) ∧
  (∀ p, clean_and_convert (CFloat nan) p = Ok 0.0%float) ∧
  (∀ s p, clean_and_convert (CStr s) p =
            Ok match parse_text s p with
               | Parsed numeric_value is_percentage =>
                   percent_rule is_percentage numeric_value
               | Unparseable => 0.0%float
               end).
Proof.
  do 5 (split; [vm_compute; reflexivity|]).
  split; [by intros []|]. split; [by intros []|].
  apply clean_and_convert_text.
Qed.

(** C10: the rule of the normalizer tests the signed number against 1,
    strictly: "1%" gives 1.0 and "0.5%" gives 0.5, "-50%" gives -50.0; a
    text with a percent sign whose number is at most 1, or negative, is
    returned undivided. *)
Theorem C10_percent_rule_is_signed_and_strict s x :
  parse_text s false = Parsed x true →
  (x <=? 1)%float = true ∨ (x <? 0)%float = true →
  clean_and_convert (CStr s) false = Ok x ∧
  clean_and_convert (CStr "1%") false = Ok 1.0%float ∧
  clean_and_convert (CStr "0.5%") false = Ok 0.5%float ∧
  clean_and_convert (CStr "-50%") false = Ok (-50.0)%float.
Proof.
  intros Hs Hx.
  split; [|do 2 (split; [vm_compute; reflexivity|]); vm_compute; reflexivity].
  rewrite clean_and_convert_text, Hs. unfold percent_rule.
  destruct Hx as [Hx|Hx].
  - by rewrite (float_leb_not_ltb _ _ Hx).
  - by rewrite (float_neg_not_above_one _ Hx).
Qed.

Lemma C10_percent_rule_is_signed_and_strict_witness :
  parse_text "-50%" false = Parsed (-50)%float true ∧
  clean_and_convert (CStr "-50%") false = Ok (-50)%float.
Proof.
  split; [vm_compute; reflexivity|].
  apply (C10_percent_rule_is_signed_and_strict "-50%" (-50)%float).
  - vm_compute. reflexivity.
  - right. vm_compute. reflexivity.
Defined.

(** C4 at the input on which the code departs from it: "-50%" is taken as
    a percentage and its magnitude 50 exceeds 1, yet the code returns
    -50.0 and not -0.5; so does a number -30 read with the percentage
    hint.  On every number that is not negative the code does divide
    exactly when the magnitude exceeds 1. *)
Theorem C4_negative_percentage_is_not_divided :
  parse_text "-50%" false = Parsed (-50)%float true ∧
  (1 <? abs (-50))%float = true ∧
  clean_and_convert (CStr "-50%") false = Ok (-50)%float ∧
  (-50 / 100)%float = (-0.5)%float ∧
  clean_and_convert (CInt (-30)) true = Ok (-30)%float ∧
  (∀ p x, (0 <=? x)%float = true →
          percent_rule p x =
            if p && (1 <? abs x)%float then (x / 100)%float else x).
Proof.
  do 5 (split; [vm_compute; reflexivity|]).
  intros p x Hx. unfold percent_rule. by rewrite float_abs_above_one.
Qed.

Lemma parse_sheet_ok name wb s :
  parse_sheet name wb = Ok s → is_ok (find_sheet name wb) = true.
Proof. unfold parse_sheet. by destruct (find_sheet name wb). Qed.

Lemma get_base_value_ok df_base label p x :
  get_base_value df_base label p = Ok x →
  List.filter (has_label label) df_base ≠ [].
Proof.
  unfold get_base_value. by destruct (List.filter _ _).
Qed.

(** A load that succeeds found the three sheets and the ten labels. *)
Lemma load_body_ok wb r :
  load_body (Book wb) = Ok r →
  (∀ name, name ∈ required_sheets → is_ok (find_sheet name wb) = true) ∧
  (∃ df_base,
     parse_sheet sheet_Hipotesis_Base wb = Ok df_base ∧
     ∀ label, label ∈ required_labels →
              List.filter (has_label label) df_base ≠ []).
Proof.
  unfold load_body. intros H.
  bind_inv H. rename x into df_base, Hx into Hs1.
  do 10 bind_inv H.
  bind_inv H. rename Hx9 into Hs2. bind_inv H.
  bind_inv H. rename Hx10 into Hs3.
  split.
  - intros name Hn. unfold required_sheets in Hn.
    repeat (apply elem_of_cons in Hn as [->|Hn]); [..|by apply elem_of_nil in Hn].
    + by eapply parse_sheet_ok.
    + by eapply parse_sheet_ok.
    + by eapply parse_sheet_ok.
  - exists df_base. split; [done|]. intros label Hl. unfold required_labels in Hl.
    repeat (apply elem_of_cons in Hl as [->|Hl]); [..|by apply elem_of_nil in Hl];
      eapply get_base_value_ok; eassumption.
Qed.

(** C3, as the code has it: when a required sheet or a required labelled
    row is absent, [_load_data] raises nothing and returns [None]; the
    fault is only told by a printed line, and the value returned says
    neither which kind of failure it was nor which section or label. *)
Theorem C3_missing_schema_returns_none wb :
  missing_schema wb → ∃ msg, _load_data (Book wb) = (None, [msg]).
Proof.
  intros Hmiss. unfold _load_data.
  destruct (load_body (Book wb)) as [r|e] eqn:Hb.
  - exfalso. apply load_body_ok in Hb as (Hsheets & df_base & Hs & Hlabels).
    destruct Hmiss as [(name & Hn & Hr)|(df' & label & Hs' & Hl & Hf)].
    + specialize (Hsheets name Hn). by rewrite Hr in Hsheets.
    + assert (df' = df_base) as -> by congruence. by apply (Hlabels label).
  - destruct e; eauto.
Qed.

(** C3 fails on the code: a workbook without its third sheet and one
    without its WACC row are both answered [None]; the two returned values
    are the same, so they identify neither the section nor the label. *)
Lemma C3_counterexample :
  _load_data (Book Sample.without_sheet) = (None, [MsgLoadFailed ValueError]) ∧
  _load_data (Book Sample.without_label) = (None, [MsgMissingLabelOrSheet "wacc"]) ∧
  fst (_load_data (Book Sample.without_sheet))
    = fst (_load_data (Book Sample.without_label)).
Proof. vm_compute. repeat split; reflexivity. Qed.

Lemma C3_missing_schema_returns_none_witness :
  missing_schema Sample.without_label ∧
  ∃ msg, _load_data (Book Sample.without_label) = (None, [msg]).
Proof.
  assert (missing_schema Sample.without_label) as H.
  { right. exists (sheet_data (List.filter (fun r => negb (has_label "wacc" r))
                                 (Sample.hipotesis (CStr "20%") (CFloat 0.03)))),
                  "wacc"%string.
    split; [reflexivity|]. split; [|vm_compute; reflexivity].
    unfold required_labels. repeat first [by left | right]. }
  split; [exact H|].
  exact (C3_missing_schema_returns_none Sample.without_label H).
Defined.

(** * The claims about the projection *)

Section ProjectionClaims.
Variable libm_pow : float → float → float.

(** The row of a forecast year in a projection that succeeded. *)
Lemma projection_row self self' t :
  _calculate_projection libm_pow self = Ok (true, self') → 1 ≤ t ≤ 5 →
  ∃ d, data self = Some d ∧ row_of libm_pow d (proyeccion self') t.
Proof.
  intros H Ht.
  apply calculate_projection_inv in H as [(? & _)|(_ & d & Hd & Hp & _)]; [done|].
  exists d. split; [done|]. by apply project_rows.
Qed.

(** C6: in every computed projection and for every forecast year t = 1..5,
    the stored working-capital level is
    (receivables-days / 365 * total revenue) + (inventory-days / 365 *
    cost of sales) - (payables-days / 365 * cost of sales), where total
    revenue is the stored figure of that year and cost of sales the sum of
    the three streams' level times cost ratio; the stored delta equals the
    level itself for t = 1 and the level minus the level stored for the
    year before for t > 1. *)
Theorem C6_working_capital_recursion self self' t :
  _calculate_projection libm_pow self = Ok (true, self') → 1 ≤ t ≤ 5 →
  ∃ d v level delta,
    data self = Some d ∧
    inputs_of libm_pow d (proyeccion self') t v ∧
    loc_get (proyeccion self') (year_str t) "Ingresos Totales"
      = Ok (ingresos_totales v) ∧
    loc_get (proyeccion self') (year_str t) "Capital de Trabajo" = Ok level ∧
    loc_get (proyeccion self') (year_str t) "Delta CTN" = Ok delta ∧
    level = (Dias_CxC (base d) / 365 * ingresos_totales v
             + Dias_Inv (base d) / 365 * total_costo_venta v
             - Dias_CxP (base d) / 365 * total_costo_venta v)%float ∧
    (t = 1 → delta = level) ∧
    (1 < t → ∃ prev,
       loc_get (proyeccion self') (year_str (t - 1)) "Capital de Trabajo" = Ok prev ∧
       delta = (level - prev)%float).
Proof.
  intros H Ht.
  destruct (projection_row _ _ t H Ht) as (d & Hd & v & Hin & Hst).
  exists d, v, (ck_current (base d) v), (delta_ctn (base d) v).
  destruct Hst as (_ & _ & _ & Hit & _ & _ & _ & Hck & Hdl & _).
  split; [done|]. split; [done|]. split; [done|]. split; [done|].
  split; [done|]. split; [reflexivity|]. split.
  - intros ->. unfold inputs_of in Hin.
    destruct Hin as (_&_&_&_&_&_&_&_&_&_&_&_&_&_&_&Hp). simpl in Hp.
    injection Hp as Hp. unfold delta_ctn. rewrite <- Hp. apply float_sub_zero.
  - intros H1. unfold inputs_of in Hin.
    destruct Hin as (_&_&_&_&_&_&_&_&_&_&_&_&_&_&_&Hp).
    apply Z.ltb_lt in H1. rewrite H1 in Hp. exists (ck_prev v). split; [|done].
    replace (year_str (t - 1)) with (prev_year_str t); [done|].
    unfold year_str, prev_year_str. lia.
Qed.

(** C7: in every computed projection, for each of the three revenue
    streams and every forecast year t = 1..5, the stored level of the
    stream equals its prior level times (1 + that year's growth rate of the
    stream), the prior level being the level stored for year t-1 when t > 1
    and the base-year (2025) cell of the stream when t = 1; the cost of
    sales of the year is the sum over the three streams of level times that
    year's cost ratio, the levels, growth rates and cost ratios being the
    ones iteration t read ([inputs_of]), and it is that sum which the
    stored EBIT subtracts and which the stored working capital weighs by
    the inventory and payable days. *)
Theorem C7_revenue_stream_recursion self self' t :
  _calculate_projection libm_pow self = Ok (true, self') → 1 ≤ t ≤ 5 →
  ∃ d v,
    data self = Some d ∧
    inputs_of libm_pow d (proyeccion self') t v ∧
    stream_row d (proyeccion self') t 1 "Ingresos_B1"
      (ingreso_1_prev v) (g_ingreso_1 v) (cv_pct_1 v) ∧
    stream_row d (proyeccion self') t 5 "Ingresos_B2"
      (ingreso_2_prev v) (g_ingreso_2 v) (cv_pct_2 v) ∧
    stream_row d (proyeccion self') t 9 "Ingresos_G"
      (ingreso_G_prev v) (g_ingreso_G v) (cv_pct_G v) ∧
    total_costo_venta v =
      (0 + ingreso_1_prev v * (1 + g_ingreso_1 v) * cv_pct_1 v
       + ingreso_2_prev v * (1 + g_ingreso_2 v) * cv_pct_2 v
       + ingreso_G_prev v * (1 + g_ingreso_G v) * cv_pct_G v)%float ∧
    loc_get (proyeccion self') (year_str t) "EBIT" =
      Ok (ingresos_totales v - total_costo_venta v
          - gastos_fijos_actual (base d) v
          - gastos_variables_actual v + v_gastos_ahorros_operativos v)%float ∧
    loc_get (proyeccion self') (year_str t) "Capital de Trabajo" =
      Ok (Dias_CxC (base d) / 365 * ingresos_totales v
          + Dias_Inv (base d) / 365 * total_costo_venta v
          - Dias_CxP (base d) / 365 * total_costo_venta v)%float.
Proof.
  intros H Ht.
  destruct (projection_row _ _ t H Ht) as (d & Hd & v & Hin & Hst).
  exists d, v.
  split; [done|]. split; [exact Hin|].
  destruct Hin as (H1 & Hg1 & Hc1 & H2 & Hg2 & Hc2 & H3 & Hg3 & Hc3 & _).
  destruct Hst as (Hs1 & Hs2 & Hs3 & _ & Hebit & _ & _ & Hck & _).
  split; [apply stream_row_of; first [assumption | lia]|].
  split; [apply stream_row_of; first [assumption | lia]|].
  split; [apply stream_row_of; first [assumption | lia]|].
  split; [reflexivity|]. by split.
Qed.

(** C8: for every forecast year t = 1..5, the fixed operating expenses
    that enter EBIT are the base-year fixed-expense figure times 1.03^t
    (the platform's [pow] of the constant 1.03 and t); the rate is a
    constant of the program, whatever the workbook holds. *)
Theorem C8_fixed_expenses_compound_at_three_percent self self' t :
  _calculate_projection libm_pow self = Ok (true, self') → 1 ≤ t ≤ 5 →
  ∃ d v,
    data self = Some d ∧
    inputs_of libm_pow d (proyeccion self') t v ∧
    gastos_fijos_actual (base d) v =
      (Gastos_Fijos_Operativos_2025 (base d)
       * libm_pow 1.03 (Fl.of_Z_rounded t))%float ∧
    loc_get (proyeccion self') (year_str t) "EBIT" =
      Ok (ingresos_totales v - total_costo_venta v
          - gastos_fijos_actual (base d) v
          - gastos_variables_actual v + v_gastos_ahorros_operativos v)%float.
Proof.
  intros H Ht.
  destruct (projection_row _ _ t H Ht) as (d & Hd & v & Hin & Hst).
  exists d, v.
  destruct Hst as (_ & _ & _ & _ & Hebit & _).
  split; [done|]. split; [done|]. split; [|done].
  destruct Hin as (_&_&_&_&_&_&_&_&_&_&_&_&_&Hpow&_).
  unfold gastos_fijos_actual. f_equal. by eapply inflation_factor.
Qed.

End ProjectionClaims.

(** * The claims about the valuation *)

Section ValuationClaims.
Variable libm_pow : float → float → float.

(** C1, as the code has it: [_calculate_valuation] has no test of the
    discount rate against the growth rate.  After any projection that
    succeeded it returns [True] and stores as terminal value the IEEE
    quotient of last FCF * (1 + g) by (wacc - g), whatever the two rates
    are; when they are the same finite number that quotient is an infinity
    or NaN, never a finite value and never an error. *)
Theorem C1_terminal_value_division_is_unguarded self d df :
  data self = Some d → project libm_pow d = Ok df →
  ∃ fcf_n v,
    loc_get df last_year_label "FCF" = Ok fcf_n ∧
    _calculate_valuation (set_proyeccion self df)
      = Ok (true, set_valoracion (set_proyeccion self df) v) ∧
    Valor_Terminal v =
      (fcf_n * (1 + G_Perpetuidad (base d))
       / (WACC (base d) - G_Perpetuidad (base d)))%float ∧
    (WACC (base d) = G_Perpetuidad (base d) →
     is_finite (WACC (base d)) = true →
     is_finite (Valor_Terminal v) = false).
Proof.
  intros Hd Hp.
  destruct (project_discount libm_pow d df 5 Hp ltac:(lia))
    as (fcf_n & f & col & Hf & Hdf & Hvf & _ & Hcol & _ & _).
  destruct (project_rows libm_pow d df 5 Hp ltac:(lia)) as (v & _ & Hst).
  destruct Hst as (_&_&_&_&_&_&Hn&_).
  eexists fcf_n, _. split; [exact Hf|]. split.
  - by eapply (calculate_valuation_run (set_proyeccion self df) d).
  - split; [reflexivity|]. simpl. intros <- Hfin.
    by apply float_div_diag_not_finite.
Qed.

(** C2, as the code has it: for every run that returns [True], the
    terminal value is last FCF * (1 + g) divided by (wacc - g); its present
    value is the terminal value times the discount factor of the last
    forecast year; the enterprise value is the sum of the discounted FCF
    column as pandas' [Series.sum] computes it, NaN entries skipped, plus
    that present value, where each entry of the column is the year's FCF
    times 1 / (1 + wacc)^t.  The equalities are exact (so within any
    tolerance), and the sum is the plain sum over all five years when no
    discounted FCF is NaN. *)
Theorem C2_valuation_identities self self' :
  run_model libm_pow self = Ok (true, self') →
  ∃ d v fcf_n vp_n col,
    data self = Some d ∧ valoracion self' = Some v ∧
    loc_get (proyeccion self') last_year_label "FCF" = Ok fcf_n ∧
    loc_get (proyeccion self') last_year_label "VP Factor" = Ok vp_n ∧
    discount_factor libm_pow (WACC (base d)) 5 = Ok vp_n ∧
    get_col (proyeccion self') "Valor Presente FCF" = Ok col ∧
    Valor_Terminal v =
      (fcf_n * (1 + G_Perpetuidad (base d))
       / (WACC (base d) - G_Perpetuidad (base d)))%float ∧
    VP_Valor_Terminal v = (Valor_Terminal v * vp_n)%float ∧
    VE_FCF_Proyectados v = series_sum col ∧
    Valor_Empresa_VE v = (VE_FCF_Proyectados v + VP_Valor_Terminal v)%float ∧
    (has_nan col = false →
     Valor_Empresa_VE v = (plain_sum col + VP_Valor_Terminal v)%float) ∧
    length col = years ∧
    (∀ t, 1 ≤ t ≤ 5 →
       ∃ fcf_t f_t,
         loc_get (proyeccion self') (year_str t) "FCF" = Ok fcf_t ∧
         discount_factor libm_pow (WACC (base d)) t = Ok f_t ∧
         col !! Z.to_nat (t - 1) = Some (fcf_t * f_t)%float).
Proof.
  intros H.
  destruct (run_model_inv _ _ _ _ H) as [(? & _)|(_ & d & Hd & Hp)]; [done|].
  destruct (run_model_spec libm_pow self d _ Hd Hp)
    as (fcf_n & f & col & Hf & Hvf & Hdf & Hcol & Hr).
  simpl in Hr. rewrite Hr in H. injection H as H.
  eexists d, _, fcf_n, f, col.
  split; [done|]. split; [by rewrite <- H|].
  rewrite <- H at 1 2 3. simpl.
  split; [done|]. split; [done|]. split; [done|]. split; [done|].
  split; [done|]. split; [done|]. split; [done|]. split; [done|].
  split; [by intros ->%series_sum_no_nan|].
  destruct (project_discount libm_pow d _ 5 Hp ltac:(lia))
    as (_ & _ & col' & _ & _ & _ & _ & Hcol' & Hlen & _).
  assert (col' = col) as -> by congruence.
  split; [done|]. intros t Ht.
  destruct (project_discount libm_pow d _ t Hp Ht)
    as (x & ft & col' & Hx & Hft & _ & _ & Hcol'' & _ & Hi).
  assert (col' = col) as -> by congruence. eauto.
Qed.

(** The loop over the years reads neither of the two rates. *)
Lemma year_loop_set_rates d wacc g ts : ∀ df,
  year_loop libm_pow (set_rates d wacc g) df ts = year_loop libm_pow d df ts.
Proof.
  induction ts as [|t ts IH]; intros df; simpl; [done|].
  change (year_body libm_pow (set_rates d wacc g) df t)
    with (year_body libm_pow d df t).
  destruct (year_body libm_pow d df t); simpl; [apply IH|done].
Qed.

(** C9, as the code has it: re-running the model with another WACC leaves
    every figure of the projection other than the two discount columns as
    it was, the undiscounted FCF of every year among them; the valuation
    summary carries the new rate, the present value of the terminal value
    is computed again from it, from the same last FCF, and the enterprise
    value is computed again as the sum (NaN entries skipped) of the same
    FCF figures, each times the discount factor of its year at the new
    rate, plus that present value. *)
Theorem C9_fcf_does_not_depend_on_wacc dcf_model wacc1 wacc2 g_pct m1 m2 :
  recalculate_dcf_model_sync libm_pow dcf_model wacc1 g_pct = Ok m1 →
  recalculate_dcf_model_sync libm_pow dcf_model wacc2 g_pct = Ok m2 →
  (∀ y c, c ≠ "VP Factor"%string → c ≠ "Valor Presente FCF"%string →
          loc_get (proyeccion m1) y c = loc_get (proyeccion m2) y c) ∧
  (∀ t, 1 ≤ t ≤ 5 →
     ∃ fcf_t,
       loc_get (proyeccion m1) (year_str t) "FCF" = Ok fcf_t ∧
       loc_get (proyeccion m2) (year_str t) "FCF" = Ok fcf_t) ∧
  val_WACC <$> valoracion m1 = Some (wacc1 / 100)%float ∧
  val_WACC <$> valoracion m2 = Some (wacc2 / 100)%float ∧
  ∃ fcf_n f1 f2 col1 col2,
    loc_get (proyeccion m1) last_year_label "FCF" = Ok fcf_n ∧
    discount_factor libm_pow (wacc1 / 100)%float 5 = Ok f1 ∧
    discount_factor libm_pow (wacc2 / 100)%float 5 = Ok f2 ∧
    VP_Valor_Terminal <$> valoracion m1 =
      Some (fcf_n * (1 + g_pct / 100) / (wacc1 / 100 - g_pct / 100) * f1)%float ∧
    VP_Valor_Terminal <$> valoracion m2 =
      Some (fcf_n * (1 + g_pct / 100) / (wacc2 / 100 - g_pct / 100) * f2)%float ∧
    get_col (proyeccion m1) "Valor Presente FCF" = Ok col1 ∧
    get_col (proyeccion m2) "Valor Presente FCF" = Ok col2 ∧
    length col1 = years ∧ length col2 = years ∧
    (∀ t, 1 ≤ t ≤ 5 →
       ∃ fcf_t d1 d2,
         loc_get (proyeccion m1) (year_str t) "FCF" = Ok fcf_t ∧
         discount_factor libm_pow (wacc1 / 100)%float t = Ok d1 ∧
         discount_factor libm_pow (wacc2 / 100)%float t = Ok d2 ∧
         col1 !! Z.to_nat (t - 1) = Some (fcf_t * d1)%float ∧
         col2 !! Z.to_nat (t - 1) = Some (fcf_t * d2)%float) ∧
    Valor_Empresa_VE <$> valoracion m1 =
      Some (series_sum col1
            + fcf_n * (1 + g_pct / 100) / (wacc1 / 100 - g_pct / 100) * f1)%float ∧
    Valor_Empresa_VE <$> valoracion m2 =
      Some (series_sum col2
            + fcf_n * (1 + g_pct / 100) / (wacc2 / 100 - g_pct / 100) * f2)%float.
Proof.
  unfold recalculate_dcf_model_sync.
  destruct (data dcf_model) as [d|] eqn:Hd; [|discriminate].
  intros H1 H2.
  bind_inv H1. destruct x as [b1 m1']. injection H1 as ->.
  bind_inv H2. destruct x as [b2 m2']. injection H2 as ->.
  destruct (run_model_inv _ _ _ _ Hx) as [(_ & ? & _)|(-> & d1 & Hd1 & Hp1)];
    [done|].
  destruct (run_model_inv _ _ _ _ Hx0) as [(_ & ? & _)|(-> & d2 & Hd2 & Hp2)];
    [done|].
  simpl in Hd1, Hd2. injection Hd1 as <-. injection Hd2 as <-.
  destruct (project_keeps _ _ _ Hp1) as (l1 & Hl1 & Hk1).
  destruct (project_keeps _ _ _ Hp2) as (l2 & Hl2 & Hk2).
  rewrite year_loop_set_rates in Hl1, Hl2.
  assert (l1 = l2) as -> by congruence.
  assert (∀ y c, c ≠ "VP Factor"%string → c ≠ "Valor Presente FCF"%string →
            loc_get (proyeccion m1) y c = loc_get (proyeccion m2) y c) as Hsame.
  { intros y c ??. rewrite Hk1, Hk2; done. }
  split; [done|]. split.
  { intros t Ht.
    destruct (project_discount _ _ _ t Hp1 Ht) as (x & _ & _ & Hx1 & _).
    exists x. split; [done|]. rewrite <- Hsame; [done|congruence..]. }
  match type of Hx with run_model _ ?m = _ =>
    destruct (run_model_spec libm_pow m _ _ eq_refl Hp1)
      as (n1 & f1 & c1 & Hn1 & _ & Hf1 & Hc1 & Hr1)
  end.
  match type of Hx0 with run_model _ ?m = _ =>
    destruct (run_model_spec libm_pow m _ _ eq_refl Hp2)
      as (n2 & f2 & c2 & Hn2 & _ & Hf2 & Hc2 & Hr2)
  end.
  assert (n2 = n1) as ->.
  { rewrite (Hsame last_year_label "FCF"%string) in Hn1 by congruence.
    congruence. }
  assert (length c1 = years ∧ length c2 = years) as [Hlen1 Hlen2].
  { destruct (project_discount _ _ _ 5 Hp1 ltac:(lia))
      as (_ & _ & c & _ & _ & _ & _ & Hc & Hl & _).
    destruct (project_discount _ _ _ 5 Hp2 ltac:(lia))
      as (_ & _ & c' & _ & _ & _ & _ & Hc' & Hl' & _).
    split; congruence. }
  assert (∀ t, 1 ≤ t ≤ 5 →
            ∃ fcf_t d1 d2,
              loc_get (proyeccion m1) (year_str t) "FCF" = Ok fcf_t ∧
              discount_factor libm_pow (wacc1 / 100)%float t = Ok d1 ∧
              discount_factor libm_pow (wacc2 / 100)%float t = Ok d2 ∧
              c1 !! Z.to_nat (t - 1) = Some (fcf_t * d1)%float ∧
              c2 !! Z.to_nat (t - 1) = Some (fcf_t * d2)%float) as Hcols.
  { intros t Ht.
    destruct (project_discount _ _ _ t Hp1 Ht)
      as (x & d1 & c & Hx1 & Hd1 & _ & _ & Hc & _ & Hi1).
    destruct (project_discount _ _ _ t Hp2 Ht)
      as (x' & d2 & c' & Hx2 & Hd2 & _ & _ & Hc' & _ & Hi2).
    assert (c = c1) as -> by congruence.
    assert (c' = c2) as -> by congruence.
    assert (x' = x) as ->.
    { rewrite (Hsame (year_str t) "FCF"%string) in Hx1 by congruence.
      congruence. }
    exists x, d1, d2. done. }
  simpl in Hr1, Hr2, Hf1, Hf2.
  rewrite Hr1 in Hx. rewrite Hr2 in Hx0.
  injection Hx as <-. injection Hx0 as <-.
  split; [done|]. split; [done|].
  exists n1, f1, f2, c1, c2. done.
Qed.

End ValuationClaims.

(** * The claims on concrete workbooks *)

(** The sample workbook (WACC 20%, growth 3%), projected and valued with
    the reference [pow]. *)
Lemma sample_projection :
  _calculate_projection Fl.pow_rounded (Sample.model (CStr "20%") (CFloat 0.03))
  = Ok (true, Sample.projected (CStr "20%") (CFloat 0.03)).
Proof. vm_compute. reflexivity. Qed.

Lemma sample_run :
  run_model Fl.pow_rounded (Sample.model (CStr "20%") (CFloat 0.03))
  = Ok (true, Sample.valued (CStr "20%") (CFloat 0.03)).
Proof. vm_compute. reflexivity. Qed.

(** The same workbook with WACC 10% and growth 0.1: the two rates load as
    the same double. *)
Lemma equal_rates_data :
  data (Sample.model (CStr "10%") (CFloat 0.1))
  = Some (Sample.bundle (CStr "10%") (CFloat 0.1)).
Proof. vm_compute. reflexivity. Qed.

Lemma equal_rates_project :
  project Fl.pow_rounded (Sample.bundle (CStr "10%") (CFloat 0.1))
  = Ok (proyeccion (Sample.projected (CStr "10%") (CFloat 0.1))).
Proof. vm_compute. reflexivity. Qed.

Lemma C6_working_capital_recursion_witness :
  let self := Sample.model (CStr "20%") (CFloat 0.03) in
  let self' := Sample.projected (CStr "20%") (CFloat 0.03) in
  ∃ d v level delta,
    data self = Some d ∧
    inputs_of Fl.pow_rounded d (proyeccion self') 2 v ∧
    loc_get (proyeccion self') (year_str 2) "Ingresos Totales"
      = Ok (ingresos_totales v) ∧
    loc_get (proyeccion self') (year_str 2) "Capital de Trabajo" = Ok level ∧
    loc_get (proyeccion self') (year_str 2) "Delta CTN" = Ok delta ∧
    level = (Dias_CxC (base d) / 365 * ingresos_totales v
             + Dias_Inv (base d) / 365 * total_costo_venta v
             - Dias_CxP (base d) / 365 * total_costo_venta v)%float ∧
    (2 = 1 → delta = level) ∧
    (1 < 2 → ∃ prev,
       loc_get (proyeccion self') (year_str (2 - 1)) "Capital de Trabajo" = Ok prev ∧
       delta = (level - prev)%float).
Proof.
  intros self self'.
  apply (C6_working_capital_recursion Fl.pow_rounded self self' 2).
  - exact sample_projection.
  - lia.
Defined.

Lemma C7_revenue_stream_recursion_witness :
  let self := Sample.model (CStr "20%") (CFloat 0.03) in
  let self' := Sample.projected (CStr "20%") (CFloat 0.03) in
  ∃ d v,
    data self = Some d ∧
    inputs_of Fl.pow_rounded d (proyeccion self') 3 v ∧
    stream_row d (proyeccion self') 3 1 "Ingresos_B1"
      (ingreso_1_prev v) (g_ingreso_1 v) (cv_pct_1 v) ∧
    stream_row d (proyeccion self') 3 5 "Ingresos_B2"
      (ingreso_2_prev v) (g_ingreso_2 v) (cv_pct_2 v) ∧
    stream_row d (proyeccion self') 3 9 "Ingresos_G"
      (ingreso_G_prev v) (g_ingreso_G v) (cv_pct_G v) ∧
    total_costo_venta v =
      (0 + ingreso_1_prev v * (1 + g_ingreso_1 v) * cv_pct_1 v
       + ingreso_2_prev v * (1 + g_ingreso_2 v) * cv_pct_2 v
       + ingreso_G_prev v * (1 + g_ingreso_G v) * cv_pct_G v)%float ∧
    loc_get (proyeccion self') (year_str 3) "EBIT" =
      Ok (ingresos_totales v - total_costo_venta v
          - gastos_fijos_actual (base d) v
          - gastos_variables_actual v + v_gastos_ahorros_operativos v)%float ∧
    loc_get (proyeccion self') (year_str 3) "Capital de Trabajo" =
      Ok (Dias_CxC (base d) / 365 * ingresos_totales v
          + Dias_Inv (base d) / 365 * total_costo_venta v
          - Dias_CxP (base d) / 365 * total_costo_venta v)%float.
Proof.
  intros self self'.
  apply (C7_revenue_stream_recursion Fl.pow_rounded self self' 3).
  - exact sample_projection.
  - lia.
Defined.

Lemma C8_fixed_expenses_compound_at_three_percent_witness :
  let self := Sample.model (CStr "20%") (CFloat 0.03) in
  let self' := Sample.projected (CStr "20%") (CFloat 0.03) in
  ∃ d v,
    data self = Some d ∧
    inputs_of Fl.pow_rounded d (proyeccion self') 5 v ∧
    gastos_fijos_actual (base d) v =
      (Gastos_Fijos_Operativos_2025 (base d)
       * Fl.pow_rounded 1.03 (Fl.of_Z_rounded 5))%float ∧
    loc_get (proyeccion self') (year_str 5) "EBIT" =
      Ok (ingresos_totales v - total_costo_venta v
          - gastos_fijos_actual (base d) v
          - gastos_variables_actual v + v_gastos_ahorros_operativos v)%float.
Proof.
  intros self self'.
  apply (C8_fixed_expenses_compound_at_three_percent Fl.pow_rounded self self' 5).
  - exact sample_projection.
  - lia.
Defined.

(** The figures of the sample: fixed expenses of 400000 * 1.03^t enter
    EBIT, and the first year's working-capital delta is the whole level. *)
Example sample_figures :
  let df := proyeccion (Sample.projected (CStr "20%") (CFloat 0.03)) in
  loc_get df 2026 "EBIT" = Ok 770000%float ∧
  loc_get df 2026 "Capital de Trabajo" = loc_get df 2026 "Delta CTN" ∧
  loc_get df 2030 "FCF" = Ok 624283.73816699744%float ∧
  (400000 * Fl.pow_rounded 1.03 2)%float = 424360%float.
Proof. vm_compute. repeat split; reflexivity. Qed.

(** C1 fails on the code: with WACC = growth = 0.1 the valuation returns
    [True] and stores the result of the division, an infinity. *)
Lemma C1_counterexample :
  let self := Sample.projected (CStr "10%") (CFloat 0.1) in
  let self' := Sample.valued (CStr "10%") (CFloat 0.1) in
  WACC <$> (base <$> data self) = Some 0.1%float ∧
  G_Perpetuidad <$> (base <$> data self) = Some 0.1%float ∧
  _calculate_valuation self = Ok (true, self') ∧
  Valor_Terminal <$> valoracion self' = Some infinity.
Proof. vm_compute. repeat split; reflexivity. Qed.

(** With WACC 3% below a growth of 10% the division is evaluated as well:
    the run returns [True] with a negative terminal value. *)
Example sample_growth_above_wacc :
  let self' := Sample.valued (CStr "3%") (CFloat 0.1) in
  run_model Fl.pow_rounded (Sample.model (CStr "3%") (CFloat 0.1))
    = Ok (true, self') ∧
  Valor_Terminal <$> valoracion self' = Some (-9810173.028338531)%float.
Proof. vm_compute. split; reflexivity. Qed.

Lemma C1_terminal_value_division_is_unguarded_witness :
  let self := Sample.model (CStr "10%") (CFloat 0.1) in
  let d := Sample.bundle (CStr "10%") (CFloat 0.1) in
  let df := proyeccion (Sample.projected (CStr "10%") (CFloat 0.1)) in
  ∃ fcf_n v,
    loc_get df last_year_label "FCF" = Ok fcf_n ∧
    _calculate_valuation (set_proyeccion self df)
      = Ok (true, set_valoracion (set_proyeccion self df) v) ∧
    Valor_Terminal v =
      (fcf_n * (1 + G_Perpetuidad (base d))
       / (WACC (base d) - G_Perpetuidad (base d)))%float ∧
    (WACC (base d) = G_Perpetuidad (base d) →
     is_finite (WACC (base d)) = true →
     is_finite (Valor_Terminal v) = false).
Proof.
  intros self d df.
  apply (C1_terminal_value_division_is_unguarded Fl.pow_rounded self d df).
  - exact equal_rates_data.
  - exact equal_rates_project.
Defined.

Lemma C2_valuation_identities_witness :
  let self := Sample.model (CStr "20%") (CFloat 0.03) in
  let self' := Sample.valued (CStr "20%") (CFloat 0.03) in
  ∃ d v fcf_n vp_n col,
    data self = Some d ∧ valoracion self' = Some v ∧
    loc_get (proyeccion self') last_year_label "FCF" = Ok fcf_n ∧
    loc_get (proyeccion self') last_year_label "VP Factor" = Ok vp_n ∧
    discount_factor Fl.pow_rounded (WACC (base d)) 5 = Ok vp_n ∧
    get_col (proyeccion self') "Valor Presente FCF" = Ok col ∧
    Valor_Terminal v =
      (fcf_n * (1 + G_Perpetuidad (base d))
       / (WACC (base d) - G_Perpetuidad (base d)))%float ∧
    VP_Valor_Terminal v = (Valor_Terminal v * vp_n)%float ∧
    VE_FCF_Proyectados v = series_sum col ∧
    Valor_Empresa_VE v = (VE_FCF_Proyectados v + VP_Valor_Terminal v)%float ∧
    (has_nan col = false →
     Valor_Empresa_VE v = (plain_sum col + VP_Valor_Terminal v)%float) ∧
    length col = years ∧
    (∀ t, 1 ≤ t ≤ 5 →
       ∃ fcf_t f_t,
         loc_get (proyeccion self') (year_str t) "FCF" = Ok fcf_t ∧
         discount_factor Fl.pow_rounded (WACC (base d)) t = Ok f_t ∧
         col !! Z.to_nat (t - 1) = Some (fcf_t * f_t)%float).
Proof.
  intros self self'.
  apply (C2_valuation_identities Fl.pow_rounded self self').
  exact sample_run.
Defined.

(** The valuation of the sample: no discounted FCF is NaN, and the
    enterprise value is the plain sum of the discounted column plus the
    discounted terminal value. *)
Example sample_valuation :
  let self' := Sample.valued (CStr "20%") (CFloat 0.03) in
  match get_col (proyeccion self') "Valor Presente FCF", valoracion self' with
  | Ok col, Some v =>
      has_nan col = false ∧
      Valor_Empresa_VE v = (plain_sum col + VP_Valor_Terminal v)%float ∧
      Valor_Empresa_VE v = 2916266.4728662483%float
  | _, _ => False
  end.
Proof. vm_compute. repeat split; reflexivity. Qed.

(** C2 fails on the code as a statement about the sum over all forecast
    years: on the sample workbook with the text NAN as the project CapEx
    of 2027 the run returns [True], the WACC 0.2 is above the growth 0.03
    and the table is not empty; the discounted FCF of 2027 is NaN, so the
    sum over the five years plus the present value of the terminal value
    is NaN, while the stored enterprise value is the finite
    2571189.8318845127, the sum of the four other years plus that present
    value: the two are not within the tolerance. *)
Lemma C2_counterexample :
  let self := SampleNaN.model in
  let self' := SampleNaN.valued in
  run_model Fl.pow_rounded self = Ok (true, self') ∧
  df_empty (proyeccion self') = false ∧
  match data self, get_col (proyeccion self') "Valor Presente FCF",
        valoracion self' with
  | Some d, Ok col, Some v =>
      (G_Perpetuidad (base d) <? WACC (base d))%float = true ∧
      is_nan <$> col !! 1%nat = Some true ∧
      has_nan col = true ∧
      is_nan (plain_sum col + VP_Valor_Terminal v) = true ∧
      Valor_Empresa_VE v = 2571189.8318845127%float ∧
      Valor_Empresa_VE v = (series_sum col + VP_Valor_Terminal v)%float ∧
      (abs (Valor_Empresa_VE v - (plain_sum col + VP_Valor_Terminal v))
       <=? 1e-9 * abs (plain_sum col + VP_Valor_Terminal v))%float = false
  | _, _, _ => False
  end.
Proof. vm_compute. repeat split; reflexivity. Qed.

Lemma sample_recalculated_10 :
  recalculate_dcf_model_sync Fl.pow_rounded
    (Sample.valued (CStr "20%") (CFloat 0.03)) 10 3
  = Ok (Sample.recalculated (Sample.valued (CStr "20%") (CFloat 0.03)) 10 3).
Proof. vm_compute. reflexivity. Qed.

Lemma sample_recalculated_25 :
  recalculate_dcf_model_sync Fl.pow_rounded
    (Sample.valued (CStr "20%") (CFloat 0.03)) 25 3
  = Ok (Sample.recalculated (Sample.valued (CStr "20%") (CFloat 0.03)) 25 3).
Proof. vm_compute. reflexivity. Qed.

(** C9 fails on the code as a statement about every bundle: on the
    workbook whose numbers are all zero the WACC goes from
    10% to 20% and the present value of the terminal value and the
    enterprise value stay what they were. *)
Lemma C9_counterexample :
  let m1 := Sample.recalculated Sample.zero_model 10 3 in
  let m2 := Sample.recalculated Sample.zero_model 20 3 in
  recalculate_dcf_model_sync Fl.pow_rounded Sample.zero_model 10 3 = Ok m1 ∧
  recalculate_dcf_model_sync Fl.pow_rounded Sample.zero_model 20 3 = Ok m2 ∧
  val_WACC <$> valoracion m1 = Some 0.1%float ∧
  val_WACC <$> valoracion m2 = Some 0.2%float ∧
  VP_Valor_Terminal <$> valoracion m1 = VP_Valor_Terminal <$> valoracion m2 ∧
  Valor_Empresa_VE <$> valoracion m1 = Valor_Empresa_VE <$> valoracion m2.
Proof. vm_compute. repeat split; reflexivity. Qed.

Lemma C9_fcf_does_not_depend_on_wacc_witness :
  let m := Sample.valued (CStr "20%") (CFloat 0.03) in
  let m1 := Sample.recalculated m 10 3 in
  let m2 := Sample.recalculated m 25 3 in
  (∀ y c, c ≠ "VP Factor"%string → c ≠ "Valor Presente FCF"%string →
          loc_get (proyeccion m1) y c = loc_get (proyeccion m2) y c) ∧
  (∀ t, 1 ≤ t ≤ 5 →
     ∃ fcf_t,
       loc_get (proyeccion m1) (year_str t) "FCF" = Ok fcf_t ∧
       loc_get (proyeccion m2) (year_str t) "FCF" = Ok fcf_t) ∧
  val_WACC <$> valoracion m1 = Some (10 / 100)%float ∧
  val_WACC <$> valoracion m2 = Some (25 / 100)%float ∧
  ∃ fcf_n f1 f2 col1 col2,
    loc_get (proyeccion m1) last_year_label "FCF" = Ok fcf_n ∧
    discount_factor Fl.pow_rounded (10 / 100)%float 5 = Ok f1 ∧
    discount_factor Fl.pow_rounded (25 / 100)%float 5 = Ok f2 ∧
    VP_Valor_Terminal <$> valoracion m1 =
      Some (fcf_n * (1 + 3 / 100) / (10 / 100 - 3 / 100) * f1)%float ∧
    VP_Valor_Terminal <$> valoracion m2 =
      Some (fcf_n * (1 + 3 / 100) / (25 / 100 - 3 / 100) * f2)%float ∧
    get_col (proyeccion m1) "Valor Presente FCF" = Ok col1 ∧
    get_col (proyeccion m2) "Valor Presente FCF" = Ok col2 ∧
    length col1 = years ∧ length col2 = years ∧
    (∀ t, 1 ≤ t ≤ 5 →
       ∃ fcf_t d1 d2,
         loc_get (proyeccion m1) (year_str t) "FCF" = Ok fcf_t ∧
         discount_factor Fl.pow_rounded (10 / 100)%float t = Ok d1 ∧
         discount_factor Fl.pow_rounded (25 / 100)%float t = Ok d2 ∧
         col1 !! Z.to_nat (t - 1) = Some (fcf_t * d1)%float ∧
         col2 !! Z.to_nat (t - 1) = Some (fcf_t * d2)%float) ∧
    Valor_Empresa_VE <$> valoracion m1 =
      Some (series_sum col1
            + fcf_n * (1 + 3 / 100) / (10 / 100 - 3 / 100) * f1)%float ∧
    Valor_Empresa_VE <$> valoracion m2 =
      Some (series_sum col2
            + fcf_n * (1 + 3 / 100) / (25 / 100 - 3 / 100) * f2)%float.
Proof.
  intros m m1 m2.
  apply (C9_fcf_does_not_depend_on_wacc Fl.pow_rounded m 10 25 3 m1 m2).
  - exact sample_recalculated_10.
  - exact sample_recalculated_25.
Defined.

(** On the sample the two figures do move with the WACC. *)
Example sample_sensitivity :
  let m := Sample.valued (CStr "20%") (CFloat 0.03) in
  let m1 := Sample.recalculated m 10 3 in
  let m2 := Sample.recalculated m 25 3 in
  VP_Valor_Terminal <$> valoracion m1 = Some 5703714.5315282308%float ∧
  VP_Valor_Terminal <$> valoracion m2 = Some 957737.51901017537%float ∧
  loc_get (proyeccion m1) 2030 "FCF" = loc_get (proyeccion m2) 2030 "FCF".
Proof. vm_compute. repeat split; reflexivity. Qed.

(** * Further properties: the engine *)

(** The two equations of the error monad, used to step through a
    computation by rewriting. *)
Lemma bind_Ok_eq {A B} (a : A) (f : A → res B) : Ok a ≫= f = f a.
Proof. reflexivity. Qed.

Lemma bind_Raise_eq {A B} (e : exn) (f : A → res B) : Raise e ≫= f = Raise e.
Proof. reflexivity. Qed.

Ltac bind_step := repeat (rewrite !bind_Ok_eq; cbv beta iota zeta).
Ltac bind_case m pat :=
  destruct m as pat; [bind_step | by rewrite !bind_Raise_eq].

(** Assigning a cell changes no read of another row and another column. *)
Lemma loc_get_set_other df y c v y' c' :
  y' ≠ y → c' ≠ c → loc_get (loc_set df y c v) y' c' = loc_get df y' c'.
Proof.
  intros Hy Hc. unfold loc_get, loc_set; simpl.
  rewrite cells_get_put_ne by congruence.
  replace (bool_decide (y' ∈ add_once y (df_index df)))
    with (bool_decide (y' ∈ df_index df))
    by (apply bool_decide_ext; rewrite elem_of_add_once; intuition congruence).
  replace (bool_decide (c' ∈ add_once c (df_columns df)))
    with (bool_decide (c' ∈ df_columns df))
    by (apply bool_decide_ext; rewrite elem_of_add_once; intuition congruence).
  done.
Qed.

Section IterationReads.
Variable libm_pow : float → float → float.

Lemma get_prev_ingreso_other df t key base c v :
  key ≠ c →
  get_prev_ingreso (loc_set df (year_str t) c v) t key base
  = get_prev_ingreso df t key base.
Proof.
  intros Hk. unfold get_prev_ingreso. destruct (1 <? t); [|done].
  apply loc_get_set_other; [apply year_str_prev|done].
Qed.

Lemma stream_step_eq d df t r key :
  stream_step d df t r key =
    '(prev, g, cv) ← read_stream d df t r key;
    let actual := (prev * (1 + g))%float in
    Ok (loc_set df (year_str t) key actual, actual, (actual * cv)%float).
Proof.
  unfold stream_step, read_stream.
  bind_case (driver d r 0 false) ipattern:([b0|e]).
  bind_case (driver d (r + 1) t true) ipattern:([g|e]).
  bind_case (driver d (r + 2) t true) ipattern:([cv|e]).
  bind_case (get_prev_ingreso df t key b0) ipattern:([prev|e]).
  reflexivity.
Qed.

Lemma read_stream_other d df t r key c v :
  key ≠ c →
  read_stream d (loc_set df (year_str t) c v) t r key = read_stream d df t r key.
Proof.
  intros Hk. unfold read_stream.
  bind_case (driver d r 0 false) ipattern:([b0|e]).
  bind_case (driver d (r + 1) t true) ipattern:([g|e]).
  bind_case (driver d (r + 2) t true) ipattern:([cv|e]).
  by rewrite get_prev_ingreso_other.
Qed.

Ltac read_cell :=
  match goal with
  | |- context [loc_get ?df ?y ?c] =>
      let E := fresh "E" in
      eassert (loc_get df y c = Ok _) as E by get_ok;
      rewrite E; clear E; bind_step
  end.

(** One iteration is its reads, all of them from the table as the
    iteration found it, followed by its assignments. *)
Lemma year_body_eq d df t :
  year_body libm_pow d df t =
    v ← read_inputs libm_pow d df t;
    Ok (write_row (base d) v df (year_str t)).
Proof.
  unfold year_body, read_inputs.
  rewrite stream_step_eq.
  bind_case (read_stream d df t 1 "Ingresos_B1") ipattern:([[[p1 g1] c1]|e]).
  rewrite stream_step_eq, read_stream_other by congruence.
  bind_case (read_stream d df t 5 "Ingresos_B2") ipattern:([[[p2 g2] c2]|e]).
  rewrite stream_step_eq, !read_stream_other by congruence.
  bind_case (read_stream d df t 9 "Ingresos_G") ipattern:([[[p3 g3] c3]|e]).
  bind_case (list_index (ingresos_adicionales (proyectos d)) (t - 1)) ipattern:([ia|e]).
  bind_case (list_index (gastos_ahorros_operativos (proyectos d)) (t - 1)) ipattern:([ao|e]).
  bind_case (list_index (depreciacion_adicional (proyectos d)) (t - 1)) ipattern:([da|e]).
  bind_case (list_index (capex_inversion (proyectos d)) (t - 1)) ipattern:([cp|e]).
  bind_case (float_pow libm_pow (1 + g_fijos_inflacion) t) ipattern:([infl|e]).
  bind_case (driver d 13 t true) ipattern:([gvp|e]).
  read_cell. read_cell. read_cell.
  rewrite !(loc_get_set_other _ _ _ _ (prev_year_str t) "Capital de Trabajo")
    by first [apply year_str_prev | congruence].
  bind_case (if 1 <? t then loc_get df (prev_year_str t) "Capital de Trabajo"
             else Ok 0%float) ipattern:([ckp|e]).
  read_cell. read_cell. read_cell. read_cell.
  reflexivity.
Qed.
End IterationReads.

(** Which exception each read raises. *)
Lemma clean_and_convert_raise value p e :
  clean_and_convert value p = Raise e →
  e = OverflowError ∧ ∃ n, value = CInt n ∧ is_infinity (Fl.of_Z_rounded n) = true.
Proof.
  unfold clean_and_convert.
  destruct (pd_isna value || is_empty_text value); [discriminate|].
  destruct value as [|n|x|s]; try discriminate.
  - unfold Fl.of_int. destruct (is_infinity (Fl.of_Z_rounded n)) eqn:E.
    + rewrite bind_Raise_eq. intros [= <-]. eauto.
    + rewrite bind_Ok_eq. discriminate.
  - by destruct (parse_text s p).
Qed.

Lemma driver_raise d r c p e :
  driver d r c p = Raise e → e = IndexError ∨ e = OverflowError.
Proof.
  unfold driver, iloc, iloc_row.
  destruct (nth_error (g_rows (proyecciones d)) r) as [row|];
    [|rewrite !bind_Raise_eq; intros [= <-]; by left].
  rewrite bind_Ok_eq.
  destruct (nth_error _ (Z.to_nat c)) as [cell|];
    [|rewrite !bind_Raise_eq; intros [= <-]; by left].
  rewrite bind_Ok_eq. intros [-> _]%clean_and_convert_raise. by right.
Qed.

Lemma list_index_raise l i e : list_index l i = Raise e → e = IndexError.
Proof. unfold list_index. destruct (nth_error _ _); [discriminate|]. by intros [= <-]. Qed.

Lemma truediv_raise x y e : Fl.truediv x y = Raise e → e = ZeroDivisionError.
Proof. unfold Fl.truediv. destruct (y =? 0)%float; [|discriminate]. by intros [= <-]. Qed.

Section ReadErrors.
Variable libm_pow : float → float → float.

Lemma float_pow_raise iv n e :
  float_pow libm_pow iv n = Raise e → e = ZeroDivisionError ∨ e = OverflowError.
Proof.
  unfold float_pow.
  repeat (case_match; try discriminate); intros [= <-]; auto.
Qed.

Lemma discount_factor_raise wacc t e :
  discount_factor libm_pow wacc t = Raise e → input_error e.
Proof.
  unfold discount_factor, input_error.
  destruct (float_pow libm_pow (1 + wacc) t) as [p|e'] eqn:E.
  - rewrite bind_Ok_eq. intros ->%truediv_raise. auto.
  - rewrite bind_Raise_eq. intros [= <-].
    apply float_pow_raise in E as [->| ->]; auto.
Qed.

Lemma get_prev_ingreso_ok df t key base :
  prev_rows df t →
  key ∈ ["Ingresos_B1"; "Ingresos_B2"; "Ingresos_G"; "Capital de Trabajo"]%string →
  ∃ prev, get_prev_ingreso df t key base = Ok prev.
Proof.
  intros Hp Hk. unfold get_prev_ingreso. destruct (1 <? t) eqn:Ht; [|eauto].
  apply Z.ltb_lt in Ht. specialize (Hp Ht key Hk).
  destruct (loc_get df (prev_year_str t) key); [eauto|done].
Qed.

Lemma read_stream_run d df t r key :
  prev_rows df t →
  key ∈ ["Ingresos_B1"; "Ingresos_B2"; "Ingresos_G"; "Capital de Trabajo"]%string →
  match read_stream d df t r key with
  | Ok _ => stream_ready d t r = true
  | Raise e => input_error e ∧ stream_ready d t r = false
  end.
Proof.
  intros Hp Hk. unfold read_stream, input_error, stream_ready.
  destruct (driver d r 0 false) as [b0|e] eqn:E1;
    [rewrite bind_Ok_eq
    |rewrite bind_Raise_eq; apply driver_raise in E1; intuition].
  destruct (driver d (r + 1) t true) as [g|e] eqn:E2;
    [rewrite bind_Ok_eq
    |rewrite bind_Raise_eq; apply driver_raise in E2; intuition].
  destruct (driver d (r + 2) t true) as [cv|e] eqn:E3;
    [rewrite bind_Ok_eq
    |rewrite bind_Raise_eq; apply driver_raise in E3; intuition].
  destruct (get_prev_ingreso_ok df t key b0 Hp Hk) as (prev & ->).
  by rewrite bind_Ok_eq.
Qed.

(** The reads of an iteration fail exactly when the year is not ready,
    with the exception of the read that failed; the prior rows are always
    there. *)
Lemma read_inputs_run d df t :
  prev_rows df t →
  match read_inputs libm_pow d df t with
  | Ok _ => inputs_ready libm_pow d t = true
  | Raise e => input_error e ∧ inputs_ready libm_pow d t = false
  end.
Proof.
  intros Hp. unfold read_inputs, inputs_ready.
  pose proof (read_stream_run d df t 1 "Ingresos_B1" Hp
                ltac:(repeat first [by left | right])) as H1.
  destruct (read_stream d df t 1 "Ingresos_B1") as [[[p1 g1] c1]|e];
    [bind_step; rewrite H1; clear H1
    |rewrite bind_Raise_eq; destruct H1 as [He ->]; by split].
  pose proof (read_stream_run d df t 5 "Ingresos_B2" Hp
                ltac:(repeat first [by left | right])) as H1.
  destruct (read_stream d df t 5 "Ingresos_B2") as [[[p2 g2] c2]|e];
    [bind_step; rewrite H1; clear H1
    |rewrite bind_Raise_eq; destruct H1 as [He ->]; by split].
  pose proof (read_stream_run d df t 9 "Ingresos_G" Hp
                ltac:(repeat first [by left | right])) as H1.
  destruct (read_stream d df t 9 "Ingresos_G") as [[[p3 g3] c3]|e];
    [bind_step; rewrite H1; clear H1
    |rewrite bind_Raise_eq; destruct H1 as [He ->]; by split].
  destruct (list_index (ingresos_adicionales _) _) as [ia|e] eqn:E;
    [bind_step; clear E
    |rewrite bind_Raise_eq; apply list_index_raise in E as ->;
     split; [by left|done]].
  destruct (list_index (gastos_ahorros_operativos _) _) as [ao|e] eqn:E;
    [bind_step; clear E
    |rewrite bind_Raise_eq; apply list_index_raise in E as ->;
     split; [by left|done]].
  destruct (list_index (depreciacion_adicional _) _) as [da|e] eqn:E;
    [bind_step; clear E
    |rewrite bind_Raise_eq; apply list_index_raise in E as ->;
     split; [by left|done]].
  destruct (list_index (capex_inversion _) _) as [cp|e] eqn:E;
    [bind_step; clear E
    |rewrite bind_Raise_eq; apply list_index_raise in E as ->;
     split; [by left|done]].
  destruct (float_pow _ _ _) as [infl|e] eqn:E;
    [bind_step; clear E
    |rewrite bind_Raise_eq; apply float_pow_raise in E;
     split; [unfold input_error; tauto|done]].
  destruct (driver d 13 t true) as [gvp|e] eqn:E;
    [bind_step; clear E
    |rewrite bind_Raise_eq; apply driver_raise in E;
     split; [unfold input_error; tauto|done]].
  destruct (get_prev_ingreso_ok df t "Capital de Trabajo" 0%float Hp
              ltac:(repeat first [by left | right])) as (ckp & Hck).
  unfold get_prev_ingreso in Hck. rewrite Hck. done.
Qed.

End ReadErrors.

Lemma map_res_run {A B} (f : A → res B) l :
  match map_res f l with
  | Ok bs => forallb (fun a => is_ok (f a)) l = true ∧ length bs = length l
  | Raise e => (∃ a, a ∈ l ∧ f a = Raise e) ∧
               forallb (fun a => is_ok (f a)) l = false
  end.
Proof.
  induction l as [|a l IH]; [done|]. cbn [map_res forallb].
  destruct (f a) as [b|e] eqn:E.
  - rewrite bind_Ok_eq. destruct (map_res f l) as [bs|e].
    + rewrite bind_Ok_eq. destruct IH as [-> Hlen].
      split; [done|]. cbn [length]. by rewrite Hlen.
    + rewrite bind_Raise_eq. destruct IH as [(a' & Ha & Hf) ->].
      split; [|done]. exists a'. split; [by right|done].
  - rewrite bind_Raise_eq. split; [|done]. exists a. split; [by left|done].
Qed.

Lemma loc_get_ok_col df y c v : loc_get df y c = Ok v → c ∈ df_columns df.
Proof.
  unfold loc_get. destruct (bool_decide (y ∈ df_index df)); [|discriminate].
  case_bool_decide; [done|discriminate].
Qed.

Lemma set_col_ok df c vs :
  length vs = length (df_index df) →
  set_col df c vs = Ok (mkDF (df_index df) (add_once c (df_columns df))
                             (set_cells (df_cells df) c (df_index df) vs)).
Proof. intros H. unfold set_col. by rewrite H, Nat.eqb_refl. Qed.

Lemma get_col_ok df c :
  c ∈ df_columns df →
  get_col df c =
    Ok (List.map (fun l => default nan (cells_get (l, c) (df_cells df))) (df_index df)).
Proof. intros H. unfold get_col. by rewrite bool_decide_eq_true_2. Qed.

Lemma length_zip_mul xs ys :
  length xs = length ys → length (zip_mul xs ys) = length xs.
Proof.
  revert ys; induction xs as [|x xs IH]; intros [|y ys] H; simpl in *; try done.
  f_equal. apply IH. lia.
Qed.

Section LoopOutcome.
Variable libm_pow : float → float → float.

Lemma year_body_run d df t :
  prev_rows df t →
  match year_body libm_pow d df t with
  | Ok df' => inputs_ready libm_pow d t = true ∧
              ∃ v, df' = write_row (base d) v df (year_str t)
  | Raise e => input_error e ∧ inputs_ready libm_pow d t = false
  end.
Proof.
  intros Hp. rewrite year_body_eq.
  pose proof (read_inputs_run libm_pow d df t Hp) as H.
  destruct (read_inputs libm_pow d df t) as [v|e].
  - rewrite bind_Ok_eq. eauto.
  - by rewrite bind_Raise_eq.
Qed.

Lemma prev_rows_write_row b v df t :
  prev_rows (write_row b v df (year_str t)) (t + 1).
Proof.
  intros _ c Hc.
  replace (prev_year_str (t + 1)) with (year_str t)
    by (unfold prev_year_str, year_str; lia).
  destruct (write_row_stored b v df (year_str t))
    as (H1 & H2 & H3 & _ & _ & _ & _ & H4 & _).
  repeat (apply elem_of_cons in Hc as [->|Hc]); [..|by apply elem_of_nil in Hc].
  - by rewrite H1.
  - by rewrite H2.
  - by rewrite H3.
  - by rewrite H4.
Qed.

(** The loop fails exactly when one of its years is not ready. *)
Lemma year_loop_run d n : ∀ a df,
  prev_rows df a →
  match year_loop libm_pow d df (zrange a n) with
  | Ok _ => forallb (inputs_ready libm_pow d) (zrange a n) = true
  | Raise e => input_error e ∧
               forallb (inputs_ready libm_pow d) (zrange a n) = false
  end.
Proof.
  induction n as [|n IH]; intros a df Hp; [done|].
  cbn [zrange year_loop forallb].
  pose proof (year_body_run d df a Hp) as H.
  destruct (year_body libm_pow d df a) as [df1|e].
  - rewrite bind_Ok_eq. destruct H as [-> (v & ->)].
    apply IH, prev_rows_write_row.
  - rewrite bind_Raise_eq. by destruct H as [? ->].
Qed.

(** The projection fails exactly when a year is not ready or a discount
    factor cannot be computed: the assignments of the two discount columns
    and the reads of whole columns never fail. *)
Lemma project_run d :
  match project libm_pow d with
  | Ok _ => all_ready libm_pow d = true
  | Raise e => input_error e ∧ all_ready libm_pow d = false
  end.
Proof.
  unfold project, all_ready.
  pose proof (year_loop_run d years 1 (df_new (zrange start_year years))
                ltac:(intros ?; lia)) as Hl.
  destruct (year_loop libm_pow d _ _) as [dfl|e] eqn:El;
    [rewrite bind_Ok_eq, Hl
    |rewrite bind_Raise_eq; by destruct Hl as [? ->]].
  pose proof (map_res_run (discount_factor libm_pow (WACC (base d)))
                (zrange 1 years)) as Hm.
  destruct (map_res _ _) as [fs|e];
    [rewrite bind_Ok_eq; destruct Hm as [-> Hlen]
    |rewrite bind_Raise_eq; destruct Hm as [(t & _ & Ht) ->];
     split; [by eapply discount_factor_raise|done]].
  assert (df_index dfl = zrange start_year years) as Hidx.
  { apply year_loop_index in El; [done|].
    intros t Ht. apply elem_of_zrange in Ht.
    change (df_index (df_new ?l)) with l. apply elem_of_zrange.
    unfold year_str, start_year, years in *. lia. }
  rewrite length_zrange in Hlen.
  rewrite set_col_ok by (by rewrite Hidx, length_zrange).
  rewrite bind_Ok_eq.
  destruct (year_loop_rows libm_pow d years 1 _ _ El 5 ltac:(unfold years; lia))
    as (v & _ & Hst).
  destruct Hst as (_&_&_&_&_&_&_&_&_&_&Hf).
  apply loc_get_ok_col in Hf.
  rewrite (get_col_ok _ "FCF")
    by (cbn [df_columns]; apply (proj2 (elem_of_add_once _ _ _)); right; exact Hf).
  rewrite bind_Ok_eq.
  rewrite (get_col_ok _ "VP Factor")
    by (cbn [df_columns]; apply (proj2 (elem_of_add_once _ _ _)); by left).
  rewrite bind_Ok_eq.
  rewrite set_col_ok; [done|].
  rewrite length_zip_mul; by rewrite !length_map.
Qed.

End LoopOutcome.

Lemma write_row_columns b v df y :
  df_columns df = [] ∨ df_columns df = loop_columns →
  df_columns (write_row b v df y) = loop_columns.
Proof.
  intros H. unfold write_row. cbn [df_columns loc_set].
  destruct H as [-> | ->]; vm_compute; reflexivity.
Qed.

Lemma set_col_columns df c vs df' :
  set_col df c vs = Ok df' → df_columns df' = add_once c (df_columns df).
Proof. unfold set_col. case_match; [|discriminate]. by intros [= <-]. Qed.

Section TableColumns.
Variable libm_pow : float → float → float.

Lemma year_loop_columns d n : ∀ a df df',
  df_columns df = [] ∨ df_columns df = loop_columns →
  year_loop libm_pow d df (zrange a (S n)) = Ok df' →
  df_columns df' = loop_columns.
Proof.
  induction n as [|n IH]; intros a df df' Hc H;
    cbn [zrange year_loop] in H; bind_inv H;
    apply year_body_inv in Hx as (v & -> & _).
  - injection H as <-. by apply write_row_columns.
  - eapply (IH (a + 1)); [|exact H]. right. by apply write_row_columns.
Qed.

Lemma project_columns d df :
  project libm_pow d = Ok df → df_columns df = projection_columns.
Proof.
  intros H.
  apply project_inv in H as (dfl & fs & dfv & fcfs & vps & Hl & _ & Hv & _ & _ & Hp).
  apply set_col_columns in Hp, Hv. rewrite Hp, Hv.
  apply (year_loop_columns d 4 1) in Hl; [|by left]. rewrite Hl.
  vm_compute. reflexivity.
Qed.

(** A run on a loaded model: both tables are computed from the bundle
    alone. *)
Lemma run_model_fresh self d :
  data self = Some d →
  match project libm_pow d with
  | Ok df => ∃ v, run_model libm_pow self = Ok (true, mkModel (Some d) df (Some v)) ∧
                  ∀ df0 v0, run_model libm_pow (mkModel (Some d) df0 v0)
                            = Ok (true, mkModel (Some d) df (Some v))
  | Raise e => run_model libm_pow self = Raise e
  end.
Proof.
  intros Hd. destruct (project libm_pow d) as [df|e] eqn:Hp.
  - destruct (run_model_spec libm_pow self d df Hd Hp)
      as (fcf_n & f & col & Hf & Hvf & Hdf & Hcol & Hr).
    eexists. split.
    + rewrite Hr. unfold set_valoracion, set_proyeccion. cbn [data proyeccion].
      rewrite Hd. reflexivity.
    + intros df0 v0.
      destruct (run_model_spec libm_pow (mkModel (Some d) df0 v0) d df eq_refl Hp)
        as (fcf_n' & f' & col' & Hf' & Hvf' & Hdf' & Hcol' & Hr').
      rewrite Hr'. unfold set_valoracion, set_proyeccion. cbn [data proyeccion].
      assert (fcf_n' = fcf_n) as -> by congruence.
      assert (f' = f) as -> by congruence.
      assert (col' = col) as -> by congruence.
      reflexivity.
  - unfold run_model, _calculate_projection. rewrite Hd, Hp.
    by rewrite !bind_Raise_eq.
Qed.

End TableColumns.

Section RunProperties.
Variable libm_pow : float → float → float.

(** A run on a loaded model returns [True] or raises. *)
Lemma run_model_cases self d :
  data self = Some d →
  match run_model libm_pow self with
  | Ok (b, self') =>
      b = true ∧ all_ready libm_pow d = true ∧ data self' = Some d
  | Raise e => input_error e ∧ all_ready libm_pow d = false
  end.
Proof.
  intros Hd.
  pose proof (run_model_fresh libm_pow self d Hd) as Hr.
  pose proof (project_run libm_pow d) as Hp.
  destruct (project libm_pow d) as [df|e].
  - by destruct Hr as (v & -> & _).
  - by rewrite Hr.
Qed.

(** X1: on a model whose bundle is loaded, [run_model] never returns
    [False] and never raises a [KeyError], [ValueError] or [TypeError]:
    either every cell and list entry that the five iterations read can be
    read and the inflation powers and the five discount factors are
    computed, and it returns [True], keeps the bundle and leaves a
    valuation and a table that is not empty; or one of those reads or
    powers fails and it raises the [IndexError], [OverflowError] or
    [ZeroDivisionError] of it.  The table accesses of the loop and of the
    valuation never fail. *)
Theorem run_model_outcome self d :
  data self = Some d →
  match run_model libm_pow self with
  | Ok (b, self') =>
      b = true ∧ all_ready libm_pow d = true ∧ data self' = Some d ∧
      is_Some (valoracion self') ∧ df_empty (proyeccion self') = false
  | Raise e => input_error e ∧ all_ready libm_pow d = false
  end.
Proof.
  intros Hd.
  pose proof (run_model_fresh libm_pow self d Hd) as Hr.
  pose proof (project_run libm_pow d) as Hp.
  destruct (project libm_pow d) as [df|e] eqn:E.
  - destruct Hr as (v & -> & _). cbn [data valoracion proyeccion].
    split; [done|]. split; [done|]. split; [done|]. split; [by eexists|].
    destruct (project_discount libm_pow d df 5 E ltac:(lia)) as (x & _ & _ & Hx & _).
    by eapply df_empty_false.
  - by rewrite Hr.
Qed.

(** X2: the table of a projection that succeeded has exactly the rows
    2026..2030 and the thirteen columns in the order of their first
    assignment (the eleven of the loop, then the discount factor and the
    discounted FCF); every column of it can be read as a whole and has
    five entries. *)
Theorem projection_table_shape self self' :
  _calculate_projection libm_pow self = Ok (true, self') →
  df_index (proyeccion self') = [2026; 2027; 2028; 2029; 2030] ∧
  df_columns (proyeccion self') =
    [ "Ingresos_B1"; "Ingresos_B2"; "Ingresos_G"; "Ingresos Totales"; "EBIT";
      "Depreciacion"; "NOPAT"; "Capital de Trabajo"; "Delta CTN"; "CapEx Total";
      "FCF"; "VP Factor"; "Valor Presente FCF" ]%string ∧
  ∀ c, c ∈ df_columns (proyeccion self') →
       ∃ col, get_col (proyeccion self') c = Ok col ∧ length col = 5%nat.
Proof.
  intros H.
  apply calculate_projection_inv in H as [(? & _)|(_ & d & Hd & Hp & _)]; [done|].
  pose proof (project_index libm_pow d _ Hp) as Hi.
  pose proof (project_columns libm_pow d _ Hp) as Hc.
  split; [exact Hi|]. split; [exact Hc|].
  intros c Hin. rewrite get_col_ok by done. eexists. split; [done|].
  by rewrite length_map, Hi.
Qed.

(** X3: a run that returns [True] replaces the projection and the
    valuation by what the bundle gives: the result is the same whatever
    the two attributes held before, the bundle is kept, and running the
    model again gives the same model. *)
Theorem run_model_overwrites self self' :
  run_model libm_pow self = Ok (true, self') →
  data self' = data self ∧
  (∀ df0 v0, run_model libm_pow (mkModel (data self) df0 v0) = Ok (true, self')) ∧
  run_model libm_pow self' = Ok (true, self').
Proof.
  intros H.
  destruct (run_model_inv _ _ _ _ H) as [(? & _)|(_ & d & Hd & Hp)]; [done|].
  pose proof (run_model_fresh libm_pow self d Hd) as Hr.
  rewrite Hp in Hr. destruct Hr as (v & Hr & Hall).
  rewrite Hr in H. injection H as <-. cbn [data]. rewrite Hd.
  split; [done|]. split; [exact Hall|]. apply Hall.
Qed.

Lemma set_rates_set_rates d w1 g1 w2 g2 :
  set_rates (set_rates d w1 g1) w2 g2 = set_rates d w2 g2.
Proof. reflexivity. Qed.

(** X4: a recalculation that succeeds has written its two rates,
    divided by 100, into the bundle (the rates of the workbook are gone,
    every other entry is kept), and a recalculation after it overrides it:
    the outcome, result or exception, is that of the second one applied to
    the model before the first. *)
Theorem recalculation_last_wins dcf_model w1 g1 m1 w2 g2 :
  recalculate_dcf_model_sync libm_pow dcf_model w1 g1 = Ok m1 →
  (∃ d, data dcf_model = Some d ∧
        data m1 = Some (set_rates d (w1 / 100) (g1 / 100))) ∧
  recalculate_dcf_model_sync libm_pow m1 w2 g2
  = recalculate_dcf_model_sync libm_pow dcf_model w2 g2.
Proof.
  unfold recalculate_dcf_model_sync.
  destruct (data dcf_model) as [d|] eqn:Hd; [|discriminate].
  intros H. bind_inv H. destruct x as [b m1']. injection H as ->.
  destruct (run_model_inv _ _ _ _ Hx) as [(_ & ? & _)|(-> & d1 & Hd1 & Hp1)];
    [done|].
  cbn [data] in Hd1. injection Hd1 as <-.
  pose proof (run_model_cases
                (mkModel (Some (set_rates d (w1 / 100) (g1 / 100)))
                         (proyeccion dcf_model) (valoracion dcf_model))
                _ eq_refl) as Hdata.
  rewrite Hx in Hdata.
  destruct Hdata as (_ & _ & Hdata).
  split; [by exists d|].
  rewrite Hdata, set_rates_set_rates.
  set (d2 := set_rates d (w2 / 100) (g2 / 100)).
  pose proof (run_model_fresh libm_pow
                (mkModel (Some d2) (proyeccion m1) (valoracion m1)) d2 eq_refl) as H1.
  pose proof (run_model_fresh libm_pow
                (mkModel (Some d2) (proyeccion dcf_model) (valoracion dcf_model))
                d2 eq_refl) as H2.
  destruct (project libm_pow d2) as [df|e].
  - destruct H1 as (v1 & -> & H1). clear H2.
    by rewrite (H1 (proyeccion dcf_model) (valoracion dcf_model)).
  - by rewrite H1, H2.
Qed.

(** The projection does not read the growth rate. *)
Lemma project_set_growth d wacc g1 g2 :
  project libm_pow (set_rates d wacc g1) = project libm_pow (set_rates d wacc g2).
Proof.
  unfold project. rewrite !year_loop_set_rates. reflexivity.
Qed.

(** X18: the terminal growth rate does not enter the projection: a
    recalculation with another growth rate and the same WACC succeeds
    whenever the first did, gives the same table, discount columns
    included, and the same sum of discounted FCF; only the terminal value
    is computed again, from the same last FCF and the new rate. *)
Theorem growth_rate_only_moves_the_terminal_value dcf_model wacc_pct g1 g2 m1 :
  recalculate_dcf_model_sync libm_pow dcf_model wacc_pct g1 = Ok m1 →
  ∃ m2 fcf_n,
    recalculate_dcf_model_sync libm_pow dcf_model wacc_pct g2 = Ok m2 ∧
    proyeccion m2 = proyeccion m1 ∧
    VE_FCF_Proyectados <$> valoracion m2 = VE_FCF_Proyectados <$> valoracion m1 ∧
    loc_get (proyeccion m1) last_year_label "FCF" = Ok fcf_n ∧
    Valor_Terminal <$> valoracion m1 =
      Some (fcf_n * (1 + g1 / 100) / (wacc_pct / 100 - g1 / 100))%float ∧
    Valor_Terminal <$> valoracion m2 =
      Some (fcf_n * (1 + g2 / 100) / (wacc_pct / 100 - g2 / 100))%float ∧
    val_G_Perpetuidad <$> valoracion m2 = Some (g2 / 100)%float.
Proof.
  unfold recalculate_dcf_model_sync.
  destruct (data dcf_model) as [d|] eqn:Hd; [|discriminate].
  intros H. bind_inv H. destruct x as [b m1']. injection H as ->.
  destruct (run_model_inv _ _ _ _ Hx) as [(_ & ? & _)|(-> & d1 & Hd1 & Hp1)];
    [done|].
  cbn [data] in Hd1. injection Hd1 as <-.
  pose proof Hp1 as Hp2. rewrite (project_set_growth d _ (g1 / 100) (g2 / 100)) in Hp2.
  match type of Hx with run_model _ ?m = _ =>
    destruct (run_model_spec libm_pow m _ _ eq_refl Hp1)
      as (n1 & f1 & c1 & Hn1 & _ & Hf1 & Hc1 & Hr1)
  end.
  destruct (run_model_spec libm_pow
              (mkModel (Some (set_rates d (wacc_pct / 100) (g2 / 100)))
                       (proyeccion dcf_model) (valoracion dcf_model))
              _ _ eq_refl Hp2)
    as (n2 & f2 & c2 & Hn2 & _ & Hf2 & Hc2 & Hr2).
  cbv zeta in Hr1, Hr2. rewrite Hr1 in Hx. injection Hx as <-.
  cbn [proyeccion set_valoracion set_proyeccion] in *.
  assert (n2 = n1) as -> by congruence.
  assert (c2 = c1) as -> by congruence.
  eexists _, n1. rewrite Hr2, bind_Ok_eq. cbv beta iota.
  split; [reflexivity|]. by repeat split.
Qed.

Lemma year_loop_set_ingresos_totales d x ts : ∀ df,
  year_loop libm_pow (set_ingresos_totales d x) df ts = year_loop libm_pow d df ts.
Proof.
  induction ts as [|t ts IH]; intros df; [done|]. cbn [year_loop].
  change (year_body libm_pow (set_ingresos_totales d x) df t)
    with (year_body libm_pow d df t).
  destruct (year_body libm_pow d df t);
    [rewrite !bind_Ok_eq; apply IH | by rewrite !bind_Raise_eq].
Qed.

(** X5: the entry 'Ingresos_Totales_2025' of the loaded assumptions is
    never read: with any other number in its place a run has the same
    outcome, the same projection table and the same valuation, or raises
    the same exception. *)
Theorem base_year_total_revenue_is_never_read self d x :
  data self = Some d →
  match run_model libm_pow self,
        run_model libm_pow (mkModel (Some (set_ingresos_totales d x))
                                    (proyeccion self) (valoracion self)) with
  | Ok (b1, m1), Ok (b2, m2) =>
      b1 = b2 ∧ proyeccion m1 = proyeccion m2 ∧ valoracion m1 = valoracion m2
  | Raise e1, Raise e2 => e1 = e2
  | _, _ => False
  end.
Proof.
  intros Hd.
  assert (project libm_pow (set_ingresos_totales d x) = project libm_pow d) as Hp.
  { unfold project. rewrite year_loop_set_ingresos_totales. reflexivity. }
  pose proof (run_model_fresh libm_pow self d Hd) as H1.
  pose proof (run_model_fresh libm_pow
                (mkModel (Some (set_ingresos_totales d x)) (proyeccion self)
                         (valoracion self)) _ eq_refl) as H2.
  rewrite Hp in H2.
  destruct (project libm_pow d) as [df|e] eqn:E.
  - destruct H1 as (v1 & H1 & _). destruct H2 as (v2 & H2 & _).
    rewrite H2. rewrite H1. cbn [proyeccion valoracion].
    split; [done|]. split; [done|].
    destruct (run_model_spec libm_pow self d df Hd E)
      as (n1 & f1 & c1 & Hn1 & _ & Hf1 & Hc1 & Hr1).
    destruct (run_model_spec libm_pow
                (mkModel (Some (set_ingresos_totales d x)) (proyeccion self)
                         (valoracion self)) _ df eq_refl Hp)
      as (n2 & f2 & c2 & Hn2 & _ & Hf2 & Hc2 & Hr2).
    rewrite Hr1 in H1. rewrite Hr2 in H2.
    injection H1 as _ <-. injection H2 as <-.
    cbn [base set_ingresos_totales WACC G_Perpetuidad Tasa_ISR] in *.
    assert (n2 = n1) as -> by congruence.
    assert (f2 = f1) as -> by congruence.
    assert (c2 = c1) as -> by congruence.
    reflexivity.
  - by rewrite H1, H2.
Qed.

End RunProperties.

(** Tables that agree outside some columns: what reads and assignments
    keep of it. *)
Lemma same_except_loc_get cols df1 df2 y c :
  same_except cols df1 df2 → c ∉ cols → loc_get df1 y c = loc_get df2 y c.
Proof.
  intros (Hi & Hc & Hv) Hn. unfold loc_get. by rewrite Hi, Hc, Hv.
Qed.

Lemma same_except_loc_set cols df1 df2 y c v1 v2 :
  same_except cols df1 df2 → (c ∉ cols → v1 = v2) →
  same_except cols (loc_set df1 y c v1) (loc_set df2 y c v2).
Proof.
  intros (Hi & Hc & Hv) Hn. unfold same_except, loc_set; cbn [df_index df_columns df_cells].
  rewrite Hi, Hc. split; [done|]. split; [done|].
  intros y' c' Hc'. destruct (decide ((y, c) = (y', c'))) as [[= <- <-]|Hne].
  - rewrite !cells_get_put_eq. f_equal. by apply Hn.
  - rewrite !cells_get_put_ne by done. by apply Hv.
Qed.

Lemma same_except_set_cells (cols : list string) cells1 cells2 c labels vs1 vs2 :
  (∀ y c', c' ∉ cols → cells_get (y, c') cells1 = cells_get (y, c') cells2) →
  (c ∉ cols → vs1 = vs2) → length vs1 = length vs2 →
  ∀ y c', c' ∉ cols →
    cells_get (y, c') (set_cells cells1 c labels vs1)
    = cells_get (y, c') (set_cells cells2 c labels vs2).
Proof.
  intros Hv Hn Hlen y c' Hc'.
  destruct (decide (c = c')) as [<-|Hne].
  - rewrite (Hn Hc'). clear Hn Hlen.
    revert vs2. induction labels as [|l labels IH]; intros [|w vs]; cbn [set_cells];
      try by apply Hv.
    destruct (decide ((l, c) = (y, c))) as [[= <-]|Hne].
    + by rewrite !cells_get_put_eq.
    + rewrite !cells_get_put_ne by done. apply IH.
  - rewrite !set_cells_lookup_ne by done. by apply Hv.
Qed.

Lemma same_except_set_col cols df1 df2 c vs1 vs2 df1' :
  same_except cols df1 df2 → (c ∉ cols → vs1 = vs2) → length vs1 = length vs2 →
  set_col df1 c vs1 = Ok df1' →
  ∃ df2', set_col df2 c vs2 = Ok df2' ∧ same_except cols df1' df2'.
Proof.
  intros (Hi & Hc & Hv) Hn Hlen. unfold set_col.
  rewrite <- Hlen, <- Hi. case_match; [|discriminate]. intros [= <-].
  eexists. split; [done|]. unfold same_except. cbn [df_index df_columns df_cells].
  rewrite Hc. split; [done|]. split; [done|].
  by apply same_except_set_cells.
Qed.

Lemma same_except_get_col cols df1 df2 c col1 :
  same_except cols df1 df2 → get_col df1 c = Ok col1 →
  ∃ col2, get_col df2 c = Ok col2 ∧ length col1 = length col2 ∧
          (c ∉ cols → col1 = col2).
Proof.
  intros (Hi & Hc & Hv). unfold get_col. rewrite <- Hc, <- Hi.
  case_bool_decide; [|discriminate]. intros [= <-].
  eexists. split; [done|]. split; [by rewrite !length_map|].
  intros Hn. apply map_ext. intros y. by rewrite Hv.
Qed.

Lemma driver_ext d1 d2 r c p :
  proyecciones d1 = proyecciones d2 → driver d1 r c p = driver d2 r c p.
Proof. intros H. unfold driver. by rewrite H. Qed.

Section TaxColumns.
Variable libm_pow : float → float → float.

(** The reads depend on the two grids of the bundle and on the prior
    rows only. *)
Lemma read_stream_agree d1 d2 df1 df2 t r key :
  proyecciones d1 = proyecciones d2 →
  loc_get df1 (prev_year_str t) key = loc_get df2 (prev_year_str t) key →
  read_stream d1 df1 t r key = read_stream d2 df2 t r key.
Proof.
  intros Hp Hk. unfold read_stream.
  rewrite !(driver_ext d1 d2) by done.
  bind_case (driver d2 r 0 false) ipattern:([b0|e]).
  bind_case (driver d2 (r + 1) t true) ipattern:([g|e]).
  bind_case (driver d2 (r + 2) t true) ipattern:([cv|e]).
  unfold get_prev_ingreso. by rewrite Hk.
Qed.

Lemma read_inputs_agree d1 d2 df1 df2 t :
  proyecciones d1 = proyecciones d2 → proyectos d1 = proyectos d2 →
  (∀ c, c ∈ ["Ingresos_B1"; "Ingresos_B2"; "Ingresos_G"; "Capital de Trabajo"]%string →
        loc_get df1 (prev_year_str t) c = loc_get df2 (prev_year_str t) c) →
  read_inputs libm_pow d1 df1 t = read_inputs libm_pow d2 df2 t.
Proof.
  intros Hp Hq Hk. unfold read_inputs.
  rewrite (read_stream_agree d1 d2 df1 df2 t 1 "Ingresos_B1")
    by (try apply Hk; first [done | repeat first [by left | right]]).
  rewrite (read_stream_agree d1 d2 df1 df2 t 5 "Ingresos_B2")
    by (try apply Hk; first [done | repeat first [by left | right]]).
  rewrite (read_stream_agree d1 d2 df1 df2 t 9 "Ingresos_G")
    by (try apply Hk; first [done | repeat first [by left | right]]).
  rewrite Hq, (driver_ext d1 d2) by done.
  rewrite (Hk "Capital de Trabajo"%string) by (repeat first [by left | right]).
  reflexivity.
Qed.

Lemma write_row_taxed d isr v df1 df2 y :
  same_except taxed_columns df1 df2 →
  same_except taxed_columns (write_row (base (set_isr d isr)) v df1 y)
                            (write_row (base d) v df2 y).
Proof.
  intros H. unfold write_row.
  repeat (apply same_except_loc_set;
          [|first [ reflexivity
                  | intros Hn; exfalso; apply Hn; unfold taxed_columns;
                    repeat first [by left | right] ]]).
  exact H.
Qed.

Lemma year_loop_taxed d isr ts : ∀ df1 df2,
  same_except taxed_columns df1 df2 →
  match year_loop libm_pow (set_isr d isr) df1 ts, year_loop libm_pow d df2 ts with
  | Ok df1', Ok df2' => same_except taxed_columns df1' df2'
  | Raise e1, Raise e2 => e1 = e2
  | _, _ => False
  end.
Proof.
  induction ts as [|t ts IH]; intros df1 df2 H; [done|]. cbn [year_loop].
  rewrite !year_body_eq.
  rewrite (read_inputs_agree (set_isr d isr) d df1 df2 t eq_refl eq_refl).
  - destruct (read_inputs libm_pow d df2 t) as [v|e].
    + rewrite !bind_Ok_eq. by apply IH, write_row_taxed.
    + by rewrite !bind_Raise_eq.
  - intros c Hc. apply (same_except_loc_get taxed_columns); [done|].
    unfold taxed_columns. intros Hin.
    repeat (apply elem_of_cons in Hc as [->|Hc]); [..|by apply elem_of_nil in Hc];
      repeat (apply elem_of_cons in Hin as [Hin|Hin]; [discriminate|]);
      by apply elem_of_nil in Hin.
Qed.

(** The tax rate enters NOPAT, FCF and the discounted FCF only, and a
    projection succeeds for one tax rate exactly when it does for
    another. *)
Lemma project_taxed d isr df :
  project libm_pow d = Ok df →
  ∃ df', project libm_pow (set_isr d isr) = Ok df' ∧
         same_except taxed_columns df' df.
Proof.
  intros H.
  apply project_inv in H as (dfl & fs & dfv & fcfs & vps & Hl & Hfs & Hv & Hf & Hvp & Hp).
  unfold project.
  pose proof (year_loop_taxed d isr (zrange 1 years)
                (df_new (zrange start_year years)) (df_new (zrange start_year years))
                ltac:(by repeat split)) as Hloop.
  rewrite Hl in Hloop.
  destruct (year_loop libm_pow (set_isr d isr) _ _) as [dfl'|]; [|done].
  rewrite bind_Ok_eq.
  change (WACC (base (set_isr d isr))) with (WACC (base d)).
  rewrite Hfs, bind_Ok_eq.
  assert (same_except taxed_columns dfl dfl') as Hsym.
  { destruct Hloop as (Hi & Hc & Hx). repeat split; try done.
    intros y c Hn. symmetry. by apply Hx. }
  destruct (same_except_set_col taxed_columns dfl dfl' "VP Factor" fs fs dfv
              Hsym ltac:(done) eq_refl Hv) as (dfv' & -> & Hsv).
  rewrite bind_Ok_eq.
  destruct (same_except_get_col _ _ _ _ _ Hsv Hf) as (fcfs' & -> & Hlf & _).
  rewrite bind_Ok_eq.
  destruct (same_except_get_col _ _ _ _ _ Hsv Hvp) as (vps' & -> & Hlv & Heq).
  rewrite bind_Ok_eq.
  destruct (same_except_set_col taxed_columns dfv dfv' "Valor Presente FCF"
              (zip_mul fcfs vps) (zip_mul fcfs' vps') df Hsv) as (df' & -> & Hs');
    [| |exact Hp|].
  - intros Hn. exfalso. apply Hn. unfold taxed_columns. repeat first [by left | right].
  - assert (length fcfs = length vps) as Hfv.
    { unfold get_col in Hf, Hvp. repeat case_bool_decide; try discriminate.
      injection Hf as <-. injection Hvp as <-. by rewrite !length_map. }
    rewrite !length_zip_mul by congruence. done.
  - exists df'. split; [done|].
    destruct Hs' as (Hi & Hc & Hx). repeat split; try done.
    intros y c Hn. symmetry. by apply Hx.
Qed.

End TaxColumns.

Section CashFlow.
Variable libm_pow : float → float → float.

(** X6: in every computed projection and every forecast year, the stored
    figures satisfy, as exact equalities of doubles: total revenue is the
    sum of the three stored streams plus the year's additional project
    revenue; depreciation is the three streams' sum times the base
    depreciation ratio plus the projects' depreciation; NOPAT is the stored
    EBIT times (1 - tax rate); total CapEx is the streams' sum times the
    base CapEx ratio plus the projects' CapEx; and the free cash flow is
    NOPAT + depreciation - change of working capital - total CapEx. *)
Theorem free_cash_flow_identities self self' t :
  _calculate_projection libm_pow self = Ok (true, self') → 1 ≤ t ≤ 5 →
  let df := proyeccion self' in
  let y := year_str t in
  ∃ d b1 b2 bg total ebit_t dep nopat_t delta capex fcf_t ia da cp,
    data self = Some d ∧
    loc_get df y "Ingresos_B1" = Ok b1 ∧ loc_get df y "Ingresos_B2" = Ok b2 ∧
    loc_get df y "Ingresos_G" = Ok bg ∧
    loc_get df y "Ingresos Totales" = Ok total ∧
    loc_get df y "EBIT" = Ok ebit_t ∧ loc_get df y "Depreciacion" = Ok dep ∧
    loc_get df y "NOPAT" = Ok nopat_t ∧ loc_get df y "Delta CTN" = Ok delta ∧
    loc_get df y "CapEx Total" = Ok capex ∧ loc_get df y "FCF" = Ok fcf_t ∧
    list_index (ingresos_adicionales (proyectos d)) (t - 1) = Ok ia ∧
    list_index (depreciacion_adicional (proyectos d)) (t - 1) = Ok da ∧
    list_index (capex_inversion (proyectos d)) (t - 1) = Ok cp ∧
    total = (b1 + b2 + bg + ia)%float ∧
    dep = ((b1 + b2 + bg) * Dep_Pct_Base (base d) + da)%float ∧
    nopat_t = (ebit_t * (1 - Tasa_ISR (base d)))%float ∧
    capex = ((b1 + b2 + bg) * CapEx_Pct_Base (base d) + cp)%float ∧
    fcf_t = (nopat_t + dep - delta - capex)%float.
Proof.
  intros H Ht df y.
  destruct (projection_row libm_pow _ _ t H Ht) as (d & Hd & v & Hin & Hst).
  destruct Hin as (_&_&_&_&_&_&_&_&_& Hia & _ & Hda & Hcp & _).
  destruct Hst as (H1 & H2 & H3 & H4 & H5 & H6 & H7 & _ & H9 & H10 & H11).
  exists d. eexists _, _, _, _, _, _, _, _, _, _, _, _, _.
  split; [exact Hd|].
  do 10 (split; [eassumption|]).
  do 3 (split; [eassumption|]).
  repeat split.
Qed.

End CashFlow.

(** * Further properties: the normalizer, the labels, rendered figures *)

Lemma digit_char_elem k : 0 ≤ k < 10 → Fmt.digit_char k ∈ decimal_digits.
Proof.
  intros Hk.
  assert (k = 0 ∨ k = 1 ∨ k = 2 ∨ k = 3 ∨ k = 4 ∨ k = 5 ∨ k = 6 ∨ k = 7 ∨
          k = 8 ∨ k = 9) as H by lia.
  unfold decimal_digits.
  repeat (destruct H as [->|H]; [vm_compute; repeat first [by left | right]|]).
  subst. vm_compute. repeat first [by left | right].
Qed.

Lemma digit_val_char k : 0 ≤ k < 10 → Str.digit_val (Fmt.digit_char k) = k.
Proof.
  intros Hk.
  assert (k = 0 ∨ k = 1 ∨ k = 2 ∨ k = 3 ∨ k = 4 ∨ k = 5 ∨ k = 6 ∨ k = 7 ∨
          k = 8 ∨ k = 9) as H by lia.
  repeat (destruct H as [->|H]; [reflexivity|]). by subst.
Qed.

(** What the texts of the normalizer and of [float] do with a decimal
    digit. *)
Lemma decimal_digit_class c :
  c ∈ decimal_digits →
  Str.is_digit c = true ∧ Str.is_space c = false ∧
  Ascii.eqb c "$" = false ∧ Ascii.eqb c "," = false ∧ Ascii.eqb c "%" = false ∧
  PyFloat.is_underscore c = false ∧ PyFloat.parse_sign [c] = (false, [c]) ∧
  ∀ r, PyFloat.parse_sign (c :: r) = (false, c :: r).
Proof.
  intros H. unfold decimal_digits in H.
  repeat (apply elem_of_cons in H as [->|H]; [by repeat split|]).
  by apply elem_of_nil in H.
Qed.

(** The digits that are rendered are those of the number. *)
Lemma digits_onto_spec fuel : ∀ n acc,
  0 ≤ n < 10 ^ Z.of_nat (S fuel) →
  ∃ ds, Fmt.digits_onto (S fuel) n acc = ds ++ acc ∧ ds ≠ [] ∧
        Forall (fun c => c ∈ decimal_digits) ds ∧ PyFloat.digits_val ds = n.
Proof.
  induction fuel as [|fuel IH]; intros n acc Hn;
    assert (0 ≤ n mod 10 < 10) as Hd by (apply Z.mod_pos_bound; lia);
    cbn [Fmt.digits_onto]; destruct (n <? 10) eqn:E.
  1,3: apply Z.ltb_lt in E; exists [Fmt.digit_char (n mod 10)];
    split; [done|]; split; [done|]; split;
    [ constructor; [by apply digit_char_elem|constructor]
    | unfold PyFloat.digits_val; cbn [fold_left];
      rewrite digit_val_char by done; rewrite Z.mod_small; lia ].
  - apply Z.ltb_ge in E. change (10 ^ Z.of_nat 1) with 10 in Hn. lia.
  - apply Z.ltb_ge in E.
    destruct (IH (n / 10) (Fmt.digit_char (n mod 10) :: acc)) as (ds & Hds & _ & Hf & Hv).
    { split; [apply Z.div_pos; lia|].
      apply Z.div_lt_upper_bound; [lia|].
      rewrite (Nat2Z.inj_succ (S fuel)), Z.pow_succ_r in Hn; lia. }
    cbn [Fmt.digits_onto] in Hds. rewrite Hds.
    exists (ds ++ [Fmt.digit_char (n mod 10)]).
    split; [by rewrite <- app_assoc|]. split; [by destruct ds|]. split.
    + apply Forall_app. split; [done|].
      constructor; [by apply digit_char_elem|constructor].
    + unfold PyFloat.digits_val in *. rewrite fold_left_app. cbn [fold_left].
      rewrite Hv, digit_val_char by done.
      pose proof (Z.div_mod n 10). lia.
Qed.

Lemma digits_spec n :
  0 ≤ n →
  Fmt.digits n ≠ [] ∧ Forall (fun c => c ∈ decimal_digits) (Fmt.digits n) ∧
  PyFloat.digits_val (Fmt.digits n) = n.
Proof.
  intros Hn. unfold Fmt.digits.
  destruct (digits_onto_spec (Z.to_nat (Z.log2 n)) n []) as (ds & -> & ? & ? & ?).
  - split; [done|].
    destruct (decide (n = 0)) as [->|Hne]; [done|].
    pose proof (Z.log2_nonneg n).
    rewrite Nat2Z.inj_succ, Z2Nat.id by done.
    pose proof (proj2 (Z.log2_spec n ltac:(lia))) as Hlt.
    eapply Z.lt_le_trans; [exact Hlt|].
    apply Z.pow_le_mono_l. lia.
  - by rewrite app_nil_r.
Qed.

(** The text operations of the normalizer on a rendered integer. *)
Lemma remove_char_id c l :
  Forall (fun x => Ascii.eqb x c = false) l → Str.remove_char c l = l.
Proof.
  unfold Str.remove_char. induction 1 as [|x l Hx _ IH]; [done|].
  cbn [List.filter]. by rewrite Hx, IH.
Qed.

Lemma remove_char_app c l1 l2 :
  Str.remove_char c (l1 ++ l2) = Str.remove_char c l1 ++ Str.remove_char c l2.
Proof. apply List.filter_app. Qed.

Lemma remove_char_rev c l : Str.remove_char c (rev l) = rev (Str.remove_char c l).
Proof.
  unfold Str.remove_char. induction l as [|x l IH]; [done|].
  cbn [rev List.filter]. rewrite List.filter_app, IH. cbn [List.filter].
  by destruct (negb (Ascii.eqb x c)); cbn [rev app]; rewrite ?app_nil_r.
Qed.

Lemma group3_eq a b c d rest :
  Fmt.group3 (a :: b :: c :: d :: rest)
  = a :: b :: c :: ","%char :: Fmt.group3 (d :: rest).
Proof. reflexivity. Qed.

Lemma remove_char_cons c x l :
  Str.remove_char c (x :: l)
  = if Ascii.eqb x c then Str.remove_char c l else x :: Str.remove_char c l.
Proof. unfold Str.remove_char. cbn [List.filter]. by destruct (Ascii.eqb x c). Qed.

Lemma group3_remove n : ∀ l,
  (length l ≤ n)%nat →
  Str.remove_char "," (Fmt.group3 l) = Str.remove_char "," l.
Proof.
  induction n as [|n IH]; intros l Hl.
  - destruct l; [done|cbn [length] in Hl; lia].
  - destruct l as [|a [|b [|c [|d rest]]]]; try done.
    rewrite group3_eq.
    change (Str.remove_char "," ([a; b; c] ++ ","%char :: Fmt.group3 (d :: rest))
            = Str.remove_char "," ([a; b; c] ++ d :: rest)).
    rewrite !remove_char_app. f_equal.
    rewrite remove_char_cons. change (Ascii.eqb "," ",") with true. cbv iota.
    apply IH. cbn [length] in *. lia.
Qed.

Lemma group3_Forall (P : ascii → Prop) n : ∀ l,
  (length l ≤ n)%nat → P ","%char → Forall P l → Forall P (Fmt.group3 l).
Proof.
  induction n as [|n IH]; intros l Hl Hc Hf.
  - destruct l; [done|cbn [length] in Hl; lia].
  - destruct l as [|a [|b [|c [|d rest]]]]; try done.
    rewrite group3_eq.
    apply Forall_cons in Hf as [Ha Hf]. apply Forall_cons in Hf as [Hb Hf].
    apply Forall_cons in Hf as [Hc' Hf].
    repeat (constructor; [done|]).
    apply IH; [cbn [length] in *; lia|done|done].
Qed.

Lemma with_commas_remove ds :
  Forall (fun c => c ∈ decimal_digits) ds →
  Str.remove_char "," (Fmt.with_commas ds) = ds.
Proof.
  intros H. unfold Fmt.with_commas.
  rewrite remove_char_rev, (group3_remove (length (rev ds))) by done.
  rewrite remove_char_rev, rev_involutive. apply remove_char_id.
  eapply Forall_impl; [exact H|]. intros c Hc. by apply decimal_digit_class.
Qed.

Lemma with_commas_Forall (P : ascii → Prop) ds :
  P ","%char → Forall P ds → Forall P (Fmt.with_commas ds).
Proof.
  intros Hc H. unfold Fmt.with_commas. apply Forall_rev.
  by apply (group3_Forall P (length (rev ds))); [| |apply Forall_rev].
Qed.

Lemma strip_id l : Forall (fun c => Str.is_space c = false) l → Str.strip l = l.
Proof.
  intros H. unfold Str.strip.
  assert (∀ l', Forall (fun c => Str.is_space c = false) l' → Str.lstrip l' = l') as Hl.
  { intros l' [|c r Hc _]; [done|]. cbn [Str.lstrip]. by rewrite Hc. }
  rewrite (Hl l H), (Hl (rev l)) by (by apply Forall_rev).
  apply rev_involutive.
Qed.

Lemma endswith_false c l :
  Forall (fun x => Ascii.eqb x c = false) l → Str.endswith c l = false.
Proof.
  intros H. unfold Str.endswith. apply Forall_rev in H.
  destruct (rev l) as [|x r]; [done|]. by apply Forall_cons in H as [-> _].
Qed.

Lemma underscores_ok_plain l : ∀ prev,
  Forall (fun c => PyFloat.is_underscore c = false) l →
  match prev with Some p => PyFloat.is_underscore p = false | None => True end →
  PyFloat.underscores_ok prev l = true.
Proof.
  induction l as [|c l IH]; intros prev Hl Hp.
  - destruct prev as [p|]; [|done]. cbn [PyFloat.underscores_ok]. by rewrite Hp.
  - apply Forall_cons in Hl as [Hc Hl]. cbn [PyFloat.underscores_ok].
    rewrite Hc, (IH (Some c)) by done.
    destruct prev as [p|]; [|done]. by rewrite Hp.
Qed.

Lemma span_digits_all ds :
  Forall (fun c => Str.is_digit c = true) ds → PyFloat.span_digits ds = (ds, []).
Proof.
  induction 1 as [|c ds Hc _ IH]; [done|].
  cbn [PyFloat.span_digits]. by rewrite Hc, IH.
Qed.

Lemma plain_char_class c :
  plain_char c →
  Str.is_space c = false ∧ Ascii.eqb c "$" = false ∧ Ascii.eqb c "%" = false ∧
  PyFloat.is_underscore c = false.
Proof.
  intros [->|H]; [done|]. apply decimal_digit_class in H. tauto.
Qed.

(** [float] of an optional minus sign and decimal digits. *)
Lemma parse_decimal_integer s ds :
  ds ≠ [] → Forall (fun c => c ∈ decimal_digits) ds →
  PyFloat.parse_decimal (Fmt.sign_chars s ++ ds)
  = Some (Fl.of_decimal s (PyFloat.digits_val ds) 0).
Proof.
  intros Hne Hd. unfold PyFloat.parse_decimal.
  assert (PyFloat.parse_sign (Fmt.sign_chars s ++ ds) = (s, ds)) as ->.
  { destruct s; [done|]. destruct ds as [|c r]; [done|].
    apply Forall_cons in Hd as [Hc _]. by apply decimal_digit_class. }
  rewrite span_digits_all
    by (eapply Forall_impl; [exact Hd|]; intros c Hc; by apply decimal_digit_class).
  cbv beta iota zeta. rewrite app_nil_r.
  destruct ds as [|c r]; [done|]. reflexivity.
Qed.

Lemma of_str_integer s ds :
  ds ≠ [] → Forall (fun c => c ∈ decimal_digits) ds →
  PyFloat.of_str (Fmt.sign_chars s ++ ds)
  = Some (Fl.of_decimal s (PyFloat.digits_val ds) 0).
Proof.
  intros Hne Hd.
  assert (Forall plain_char (Fmt.sign_chars s ++ ds)) as Hp.
  { apply Forall_app. split.
    - destruct s; [|constructor]. constructor; [by left|constructor].
    - eapply Forall_impl; [exact Hd|]. intros c Hc. by right. }
  unfold PyFloat.of_str.
  rewrite strip_id
    by (eapply Forall_impl; [exact Hp|]; intros c Hc; by apply plain_char_class).
  rewrite underscores_ok_plain;
    [|eapply Forall_impl; [exact Hp|]; intros c Hc; by apply plain_char_class|done].
  rewrite remove_char_id
    by (eapply Forall_impl; [exact Hp|]; intros c Hc; by apply plain_char_class).
  by rewrite parse_decimal_integer.
Qed.

(** The text of a rendered integer is parsed to that integer. *)
Lemma parse_text_integer s n p :
  0 ≤ n →
  parse_text (Str.of_chars ("$"%char :: Fmt.sign_chars s
                              ++ Fmt.with_commas (Fmt.digits n))) p
  = Parsed (Fl.of_decimal s n 0) p.
Proof.
  intros Hn. destruct (digits_spec n Hn) as (Hne & Hd & Hv).
  assert (Forall plain_char (Fmt.sign_chars s ++ Fmt.digits n)) as Hp.
  { apply Forall_app. split.
    - destruct s; [|constructor]. constructor; [by left|constructor].
    - eapply Forall_impl; [exact Hd|]. intros c Hc. by right. }
  unfold parse_text, Str.chars, Str.of_chars.
  rewrite list_ascii_of_string_of_list_ascii.
  change (Str.remove_char "$" ("$"%char :: ?l)) with (Str.remove_char "$" l).
  rewrite (remove_char_id "$").
  2:{ apply Forall_app. split.
      - by destruct s; repeat constructor.
      - apply with_commas_Forall; [done|].
        eapply Forall_impl; [exact Hd|]. intros c Hc. by apply decimal_digit_class. }
  rewrite remove_char_app, with_commas_remove by done.
  rewrite (remove_char_id "," (Fmt.sign_chars s)) by (by destruct s; repeat constructor).
  rewrite strip_id
    by (eapply Forall_impl; [exact Hp|]; intros c Hc; by apply plain_char_class).
  rewrite endswith_false
    by (eapply Forall_impl; [exact Hp|]; intros c Hc; by apply plain_char_class).
  by rewrite of_str_integer, Hv.
Qed.

Lemma round_half_even_nonneg m e : 0 ≤ Fmt.round_half_even m e.
Proof.
  unfold Fmt.round_half_even. destruct (0 <=? e) eqn:E.
  - apply Z.leb_le in E. apply Z.mul_nonneg_nonneg; [lia|]. by apply Z.pow_nonneg.
  - apply Z.leb_gt in E.
    assert (0 < 2 ^ (- e)) by (apply Z.pow_pos_nonneg; lia).
    assert (0 ≤ Z.pos m / 2 ^ (- e)) by (apply Z.div_pos; lia).
    cbv zeta. repeat case_match; lia.
Qed.

(** A rendered figure is read back as the double of the integer shown. *)
Lemma format_currency_reads value :
  clean_and_convert (CStr (format_currency value)) false = Ok (shown_value value).
Proof.
  rewrite clean_and_convert_text. f_equal.
  unfold format_currency, Fmt.comma_0f, shown_value.
  destruct (Prim2SF value) as [s|s| |s m e].
  - destruct s; vm_compute; reflexivity.
  - destruct s; vm_compute; reflexivity.
  - vm_compute. reflexivity.
  - by rewrite parse_text_integer by apply round_half_even_nonneg.
Qed.

(** X11: a figure as the two front ends render it (a dollar sign, the
    integer nearest to the value, ties to even, with thousands separators)
    is read back by [clean_and_convert] as the double of the integer
    shown, for every double; [format_currency_st] shows NaN and [None] as
    '$0', which reads back as 0.0. *)
Theorem format_currency_reads_back :
  (∀ value,
     clean_and_convert (CStr (format_currency value)) false
     = Ok (shown_value value)) ∧
  (∀ value,
     clean_and_convert (CStr (format_currency_st value)) false
     = Ok match value with
          | Some x => if is_nan x then 0%float else shown_value x
          | None => 0%float
          end) ∧
  format_currency 1234567.5 = "$1,234,568"%string ∧
  format_currency 2.5 = "$2"%string ∧
  format_currency (-0.4) = "$-0"%string ∧
  shown_value 1234567.5 = 1234568%float.
Proof.
  split; [exact format_currency_reads|]. split.
  - intros [x|]; [|vm_compute; reflexivity]. cbn [format_currency_st].
    destruct (is_nan x); [vm_compute; reflexivity|apply format_currency_reads].
  - do 3 (split; [vm_compute; reflexivity|]). vm_compute. reflexivity.
Qed.

(** [strip] removes the white space around a text. *)
Lemma lstrip_spaces_app pre l : spaces pre → Str.lstrip (pre ++ l) = Str.lstrip l.
Proof.
  induction 1 as [|c pre Hc _ IH]; [done|]. cbn [app Str.lstrip]. by rewrite Hc.
Qed.

Lemma lstrip_app l post :
  Str.lstrip (l ++ post)
  = match Str.lstrip l with [] => Str.lstrip post | _ => Str.lstrip l ++ post end.
Proof.
  induction l as [|c l IH]; [done|]. cbn [app Str.lstrip].
  destruct (Str.is_space c); [exact IH|done].
Qed.

Lemma strip_spaces_app pre l post :
  spaces pre → spaces post → Str.strip (pre ++ l ++ post) = Str.strip l.
Proof.
  intros Hpre Hpost. unfold Str.strip.
  rewrite lstrip_spaces_app, lstrip_app by done.
  destruct (Str.lstrip l) as [|c r] eqn:E.
  - rewrite <- (app_nil_r post), lstrip_spaces_app by done. done.
  - rewrite rev_app_distr, lstrip_spaces_app; [done|]. by apply Forall_rev.
Qed.

Lemma space_not c x : Str.is_space x = false → Str.is_space c = true → Ascii.eqb c x = false.
Proof.
  intros Hx Hc. destruct (Ascii.eqb_spec c x) as [->|]; [congruence|done].
Qed.

Lemma remove_char_spaces x l :
  Str.is_space x = false → spaces l → Str.remove_char x l = l.
Proof.
  intros Hx Hl. apply remove_char_id. eapply Forall_impl; [exact Hl|].
  intros c Hc. by apply space_not.
Qed.

Lemma remove_char_comm c d l :
  Str.remove_char c (Str.remove_char d l) = Str.remove_char d (Str.remove_char c l).
Proof.
  unfold Str.remove_char. induction l as [|x l IH]; [done|]. cbn [List.filter].
  destruct (negb (Ascii.eqb x d)) eqn:E1, (negb (Ascii.eqb x c)) eqn:E2;
    cbn [List.filter]; rewrite ?E1, ?E2, IH; done.
Qed.

Lemma remove_char_drop c l1 l2 :
  Str.remove_char c (l1 ++ c :: l2) = Str.remove_char c (l1 ++ l2).
Proof.
  rewrite !remove_char_app. f_equal. rewrite remove_char_cons.
  by rewrite (proj2 (Ascii.eqb_eq c c) eq_refl).
Qed.

(** The number of a text depends on it through its cleaned form only. *)
Lemma parse_text_eq s s' p :
  Str.strip (Str.remove_char "," (Str.remove_char "$" (Str.chars s)))
  = Str.strip (Str.remove_char "," (Str.remove_char "$" (Str.chars s'))) →
  parse_text s p = parse_text s' p.
Proof. intros H. unfold parse_text. by rewrite H. Qed.

Lemma clean_and_convert_text_eq s s' p :
  Str.strip (Str.remove_char "," (Str.remove_char "$" (Str.chars s)))
  = Str.strip (Str.remove_char "," (Str.remove_char "$" (Str.chars s'))) →
  clean_and_convert (CStr s) p = clean_and_convert (CStr s') p.
Proof.
  intros H. rewrite !clean_and_convert_text. by rewrite (parse_text_eq s s' p H).
Qed.

(** X8: in a text, a dollar sign or a comma at any position, and white
    space around the text, do not change what [clean_and_convert] returns:
    the text without them gives the same number.  A comma is therefore
    never a decimal mark: '1,5' is 15.0. *)
Theorem clean_and_convert_ignores_decoration :
  (∀ l1 l2 p,
     clean_and_convert (CStr (Str.of_chars (l1 ++ "$"%char :: l2))) p
     = clean_and_convert (CStr (Str.of_chars (l1 ++ l2))) p) ∧
  (∀ l1 l2 p,
     clean_and_convert (CStr (Str.of_chars (l1 ++ ","%char :: l2))) p
     = clean_and_convert (CStr (Str.of_chars (l1 ++ l2))) p) ∧
  (∀ pre l post p,
     spaces pre → spaces post →
     clean_and_convert (CStr (Str.of_chars (pre ++ l ++ post))) p
     = clean_and_convert (CStr (Str.of_chars l)) p) ∧
  clean_and_convert (CStr "1,5") false = Ok 15%float ∧
  clean_and_convert (CStr " $ 2,000,000 ") false = Ok 2000000%float.
Proof.
  split; [|split; [|split]].
  - intros l1 l2 p. apply clean_and_convert_text_eq. unfold Str.chars, Str.of_chars.
    rewrite !list_ascii_of_string_of_list_ascii. by rewrite remove_char_drop.
  - intros l1 l2 p. apply clean_and_convert_text_eq. unfold Str.chars, Str.of_chars.
    rewrite !list_ascii_of_string_of_list_ascii.
    by rewrite !(remove_char_comm "," "$"), remove_char_drop.
  - intros pre l post p Hpre Hpost. apply clean_and_convert_text_eq. unfold Str.chars, Str.of_chars.
    rewrite !list_ascii_of_string_of_list_ascii.
    rewrite !remove_char_app.
    rewrite !(remove_char_spaces _ pre), !(remove_char_spaces _ post) by done.
    by apply strip_spaces_app.
  - split; vm_compute; reflexivity.
Qed.

(** X7: [clean_and_convert] returns a number for every blank cell, every
    float and every text; the only exception it can raise is the
    [OverflowError] of [float(value)] on a Python [int] too large for a
    double (2^1024 is one, 2^1023 is not). *)
Theorem clean_and_convert_raises_only_on_huge_int value p :
  is_ok (clean_and_convert value p)
  = match value with
    | CInt n => negb (is_infinity (Fl.of_Z_rounded n))
    | _ => true
    end ∧
  match clean_and_convert value p with
  | Ok _ => True
  | Raise e => e = OverflowError
  end ∧
  clean_and_convert (CInt (2 ^ 1024)) p = Raise OverflowError ∧
  is_ok (clean_and_convert (CInt (2 ^ 1023)) p) = true.
Proof.
  split; [|split; [|split]].
  - destruct (clean_and_convert value p) as [x|e] eqn:E.
    + destruct value as [|n|x'|s]; try done.
      unfold clean_and_convert, Fl.of_int in E. cbn [pd_isna is_empty_text orb] in E.
      by destruct (is_infinity (Fl.of_Z_rounded n)).
    + apply clean_and_convert_raise in E as (_ & n & -> & ->). done.
  - destruct (clean_and_convert value p) as [x|e] eqn:E; [done|].
    by apply clean_and_convert_raise in E as (-> & _).
  - unfold clean_and_convert, Fl.of_int. cbn [pd_isna is_empty_text orb].
    replace (is_infinity (Fl.of_Z_rounded (2 ^ 1024))) with true
      by (vm_compute; reflexivity).
    reflexivity.
  - unfold clean_and_convert, Fl.of_int. cbn [pd_isna is_empty_text orb].
    replace (is_infinity (Fl.of_Z_rounded (2 ^ 1023))) with false
      by (vm_compute; reflexivity).
    reflexivity.
Qed.

(** [lower] commutes with [strip] and is idempotent. *)
Lemma is_space_to_lower c : Str.is_space (Str.to_lower c) = Str.is_space c.
Proof. by destruct c as [[] [] [] [] [] [] [] []]. Qed.

Lemma to_lower_idem c : Str.to_lower (Str.to_lower c) = Str.to_lower c.
Proof. by destruct c as [[] [] [] [] [] [] [] []]. Qed.

Lemma lstrip_lower l : Str.lstrip (Str.lower l) = Str.lower (Str.lstrip l).
Proof.
  unfold Str.lower. induction l as [|c l IH]; [done|].
  cbn [List.map Str.lstrip]. rewrite is_space_to_lower.
  by destruct (Str.is_space c).
Qed.

Lemma strip_lower l : Str.strip (Str.lower l) = Str.lower (Str.strip l).
Proof.
  unfold Str.strip. rewrite lstrip_lower.
  unfold Str.lower at 1. rewrite <- map_rev. fold (Str.lower (rev (Str.lstrip l))).
  rewrite lstrip_lower. unfold Str.lower. by rewrite map_rev.
Qed.

Lemma lower_idem l : Str.lower (Str.lower l) = Str.lower l.
Proof.
  unfold Str.lower. rewrite List.map_map. apply map_ext. apply to_lower_idem.
Qed.

(** X9: the label under which a row of the assumptions sheet is looked
    up does not depend on white space around the cell's text nor on the
    case of its letters; inner spaces count as underscores: ' Tasa ISR '
    is found as 'tasa_isr'. *)
Theorem label_lookup_is_robust :
  (∀ pre l post,
     spaces pre → spaces post →
     normalize_label (CStr (Str.of_chars (pre ++ l ++ post)))
     = normalize_label (CStr (Str.of_chars l))) ∧
  (∀ l, normalize_label (CStr (Str.of_chars (Str.lower l)))
        = normalize_label (CStr (Str.of_chars l))) ∧
  normalize_label (CStr " Tasa ISR ") = Some "tasa_isr"%string ∧
  (∀ value, has_label "g-tasa_de_crecimiento_a_perpetuidad"
              [CStr "G-Tasa de crecimiento a perpetuidad  "; value] = true).
Proof.
  split; [|split; [|split]].
  - intros pre l post Hpre Hpost. unfold normalize_label, Str.chars, Str.of_chars.
    rewrite !list_ascii_of_string_of_list_ascii.
    by rewrite strip_spaces_app.
  - intros l. unfold normalize_label, Str.chars, Str.of_chars.
    rewrite !list_ascii_of_string_of_list_ascii.
    by rewrite strip_lower, lower_idem.
  - vm_compute. reflexivity.
  - intros value. vm_compute. reflexivity.
Qed.

(** * Further properties: the loader and the two front ends *)

(** The table of the page, when the three columns are there. *)
Lemma map_res_ok_map {A B} (f : A → res B) (g : A → B) l :
  (∀ a, a ∈ l → f a = Ok (g a)) → map_res f l = Ok (List.map g l).
Proof.
  induction l as [|a l IH]; intros H; [done|]. cbn [map_res List.map].
  rewrite (H a) by (by left). rewrite bind_Ok_eq.
  rewrite IH by (intros a' Ha'; apply H; by right). by rewrite bind_Ok_eq.
Qed.

Lemma loc_get_ok df y c :
  y ∈ df_index df → c ∈ df_columns df →
  loc_get df y c = Ok (default nan (cells_get (y, c) (df_cells df))).
Proof. intros Hy Hc. unfold loc_get. by rewrite !bool_decide_eq_true_2. Qed.

Lemma create_results_table_ok df :
  df_empty df = false → (∀ c, c ∈ table_columns → c ∈ df_columns df) →
  create_results_table df = Ok (Some (List.map (table_row df) (df_index df))).
Proof.
  intros He Hc. unfold create_results_table. rewrite He.
  rewrite (map_res_ok_map _ (table_row df)); [by rewrite bind_Ok_eq|].
  intros y Hy. unfold table_row.
  apply map_res_ok_map. intros c Hin.
  rewrite loc_get_ok by auto. by rewrite bind_Ok_eq.
Qed.

Section Pages.
Variable libm_pow : float → float → float.
Variable FontWeight_has_SEMIBOLD : bool.

(** The page after a projection that succeeded, or the exception of the
    attribute lookup. *)
Lemma update_results_ok d df v :
  project libm_pow d = Ok df →
  update_results FontWeight_has_SEMIBOLD (mkModel (Some d) df (Some v))
  = if FontWeight_has_SEMIBOLD
    then Ok (mkScreen (format_currency (Valor_Empresa_VE v))
                      (format_currency (VP_Valor_Terminal v))
                      (val_WACC v) (val_G_Perpetuidad v)
                      (Some (List.map (table_row df) (zrange start_year years))))
    else Raise AttributeError.
Proof.
  intros Hp.
  unfold update_results, FontWeight_SEMIBOLD, get_valuation_summary,
    get_detailed_proyection.
  cbn [valoracion proyeccion]. cbv zeta.
  destruct FontWeight_has_SEMIBOLD; [|by rewrite bind_Raise_eq].
  rewrite bind_Ok_eq.
  rewrite create_results_table_ok.
  - by rewrite bind_Ok_eq, (project_index libm_pow d df Hp).
  - destruct (project_discount libm_pow d df 5 Hp ltac:(lia)) as (x & _ & _ & Hx & _).
    by eapply df_empty_false.
  - intros c Hc. rewrite (project_columns libm_pow d df Hp).
    unfold table_columns in Hc.
    repeat (apply elem_of_cons in Hc as [->|Hc]); [..|by apply elem_of_nil in Hc];
      vm_compute; repeat first [by left | right].
Qed.

(** The summary after a run that returned [True]: it is there and
    carries the three rates of the bundle. *)
Lemma run_model_summary self d self' :
  data self = Some d → run_model libm_pow self = Ok (true, self') →
  ∃ v, valoracion self' = Some v ∧
       val_WACC v = WACC (base d) ∧
       val_G_Perpetuidad v = G_Perpetuidad (base d) ∧
       val_Tasa_ISR v = Tasa_ISR (base d).
Proof.
  intros Hd H.
  destruct (run_model_inv _ _ _ _ H) as [(? & _)|(_ & d' & Hd' & Hp)]; [done|].
  assert (d' = d) as -> by congruence.
  destruct (run_model_spec libm_pow self d _ Hd Hp)
    as (n & f & col & _ & _ & _ & _ & Hr).
  cbv zeta in Hr. rewrite Hr in H. injection H as <-.
  eexists. cbn [valoracion set_valoracion]. split; [reflexivity|]. by repeat split.
Qed.

Lemma update_results_run self self' :
  run_model libm_pow self = Ok (true, self') →
  ∃ s, update_results FontWeight_has_SEMIBOLD self'
       = if FontWeight_has_SEMIBOLD then Ok s else Raise AttributeError.
Proof.
  intros H.
  destruct (run_model_inv _ _ _ _ H) as [(? & _)|(_ & d & Hd & Hp)]; [done|].
  pose proof (run_model_fresh libm_pow self d Hd) as Hr.
  rewrite Hp in Hr. destruct Hr as (v & Hr & _).
  rewrite Hr in H. injection H as <-. cbn [proyeccion] in Hp.
  eexists. by apply update_results_ok.
Qed.

(** X12: after a run that returned [True], [update_results] finds in the
    summary the keys it reads.  When Flet's [FontWeight] has no member
    [SEMIBOLD] it then raises [AttributeError], before the table is built
    and before anything is put on the page; otherwise it draws the two
    figures, the two rates and a table with one row per forecast year, row
    t holding the rendered total revenue, FCF and discounted FCF of year
    t. *)
Theorem update_results_after_run self self' :
  run_model libm_pow self = Ok (true, self') →
  ∃ v rows,
    valoracion self' = Some v ∧
    update_results FontWeight_has_SEMIBOLD self'
    = (if FontWeight_has_SEMIBOLD
       then Ok (mkScreen (format_currency (Valor_Empresa_VE v))
                         (format_currency (VP_Valor_Terminal v))
                         (val_WACC v) (val_G_Perpetuidad v) (Some rows))
       else Raise AttributeError) ∧
    length rows = 5%nat ∧
    ∀ t, 1 ≤ t ≤ 5 →
      ∃ ingresos fcf vp,
        loc_get (proyeccion self') (year_str t) "Ingresos Totales" = Ok ingresos ∧
        loc_get (proyeccion self') (year_str t) "FCF" = Ok fcf ∧
        loc_get (proyeccion self') (year_str t) "Valor Presente FCF" = Ok vp ∧
        rows !! Z.to_nat (t - 1)
        = Some [format_currency ingresos; format_currency fcf; format_currency vp].
Proof.
  intros H.
  destruct (run_model_inv _ _ _ _ H) as [(? & _)|(_ & d & Hd & Hp)]; [done|].
  pose proof (run_model_fresh libm_pow self d Hd) as Hr.
  rewrite Hp in Hr. destruct Hr as (v & Hr & _).
  rewrite Hr in H. injection H as <-. cbn [proyeccion] in Hp.
  set (df := proyeccion self') in *. cbn [valoracion proyeccion].
  exists v, (List.map (table_row df) (zrange start_year years)).
  split; [done|]. split; [by apply update_results_ok|].
  split; [by rewrite length_map, length_zrange|].
  intros t Ht.
  assert (year_str t ∈ df_index df) as Hy.
  { rewrite (project_index libm_pow d df Hp). apply elem_of_zrange.
    unfold year_str, start_year, years. lia. }
  assert (∀ c, c ∈ table_columns → c ∈ df_columns df) as Hc.
  { intros c Hc. rewrite (project_columns libm_pow d df Hp).
    unfold table_columns in Hc.
    repeat (apply elem_of_cons in Hc as [->|Hc]); [..|by apply elem_of_nil in Hc];
      vm_compute; repeat first [by left | right]. }
  exists (cell_value df (year_str t) "Ingresos Totales"), (cell_value df (year_str t) "FCF"),
         (cell_value df (year_str t) "Valor Presente FCF").
  split; [apply loc_get_ok; [done|apply Hc; by left]|].
  split; [apply loc_get_ok; [done|apply Hc; right; by left]|].
  split; [apply loc_get_ok; [done|apply Hc; right; right; by left]|].
  rewrite list_lookup_fmap, zrange_lookup by (unfold years; lia).
  cbn [fmap option_fmap option_map]. unfold table_row, table_columns. cbn [List.map].
  replace (start_year + Z.of_nat (Z.to_nat (t - 1))) with (year_str t)
    by (unfold year_str; lia).
  reflexivity.
Qed.

(** X13: the outcome of an upload in the desktop front end, by what the
    load and the run do.  When the load returned [None] the status is
    'Error al leer el Excel', the model is the one just built and nothing
    is drawn.  When the bundle loaded and every input of the run is
    readable, the run returns [True] and keeps the bundle, and
    [update_results] is called on its model: the status is the success
    line and the page is the one [update_results] drew, or, when Flet's
    [FontWeight] has no member [SEMIBOLD], the handler raises
    [AttributeError].  When the bundle loaded and some input is not
    readable, the handler raises the [IndexError], [OverflowError] or
    [ZeroDivisionError] of the run.  The error status is therefore shown
    exactly when the load returned [None]. *)
Theorem upload_outcome file_path_absolute :
  match data (__init__ file_path_absolute) with
  | None =>
      execute_model_after_upload_sync libm_pow FontWeight_has_SEMIBOLD
        file_path_absolute
      = Ok (__init__ file_path_absolute, StatusReadError, None)
  | Some d =>
      if all_ready libm_pow d then
        ∃ dcf_model v,
          run_model libm_pow (__init__ file_path_absolute) = Ok (true, dcf_model) ∧
          data dcf_model = Some d ∧
          valoracion dcf_model = Some v ∧
          if FontWeight_has_SEMIBOLD then
            ∃ s, update_results FontWeight_has_SEMIBOLD dcf_model = Ok s ∧
                 execute_model_after_upload_sync libm_pow FontWeight_has_SEMIBOLD
                   file_path_absolute
                 = Ok (dcf_model, StatusLoaded, Some s)
          else
            execute_model_after_upload_sync libm_pow FontWeight_has_SEMIBOLD
              file_path_absolute
            = Raise AttributeError
      else
        ∃ e, input_error e ∧
             run_model libm_pow (__init__ file_path_absolute) = Raise e ∧
             execute_model_after_upload_sync libm_pow FontWeight_has_SEMIBOLD
               file_path_absolute
             = Raise e
  end.
Proof.
  unfold execute_model_after_upload_sync.
  destruct (data (__init__ file_path_absolute)) as [d|] eqn:Hd; [|reflexivity].
  pose proof (run_model_cases libm_pow _ d Hd) as Ho.
  destruct (run_model libm_pow (__init__ file_path_absolute)) as [[b m]|e] eqn:Hr.
  - destruct Ho as (-> & -> & Hdm). rewrite bind_Ok_eq. cbv beta iota.
    destruct (run_model_summary _ _ _ Hd Hr) as (v & Hv & _).
    destruct (update_results_run _ _ Hr) as (s & Hu).
    exists m, v. split; [done|]. split; [done|]. split; [done|].
    rewrite Hu. destruct FontWeight_has_SEMIBOLD.
    + exists s. by rewrite bind_Ok_eq.
    + by rewrite bind_Raise_eq.
  - destruct Ho as [He ->]. exists e. by rewrite bind_Raise_eq.
Qed.

End Pages.

(** What the steps of the loader found when they succeeded. *)
Lemma length_le_sheet_width (s : Sheet) r : r ∈ s → (length r ≤ sheet_width s)%nat.
Proof.
  unfold sheet_width. induction s as [|x s IH]; intros H.
  - by apply elem_of_nil in H.
  - cbn [List.map fold_right]. apply elem_of_cons in H as [->|H]; [lia|].
    specialize (IH H). lia.
Qed.

Lemma length_pad w r : length (pad w r) = Nat.max w (length r).
Proof. unfold pad. rewrite length_app, repeat_length. lia. Qed.

Lemma get_base_value_inv df_base label p x :
  get_base_value df_base label p = Ok x →
  ∃ r value, List.filter (has_label label) df_base = [r] ∧
             nth_error (pad (sheet_width df_base) r) 1 = Some value ∧
             clean_and_convert value p = Ok x ∧
             (2 ≤ sheet_width df_base)%nat.
Proof.
  unfold get_base_value.
  destruct (List.filter (has_label label) df_base) as [|r [|r' l]] eqn:Hf;
    try discriminate.
  destruct (nth_error _ 1) as [value|] eqn:Hn; [|discriminate].
  intros H. exists r, value. repeat split; try done.
  assert (r ∈ df_base) as Hr.
  { apply list_elem_of_In.
    apply (proj1 (List.filter_In (has_label label) r df_base)).
    rewrite Hf. by left. }
  apply length_le_sheet_width in Hr.
  assert (1 < length (pad (sheet_width df_base) r))%nat as Hl
    by (apply nth_error_Some; congruence).
  rewrite length_pad in Hl. lia.
Qed.

Lemma project_row_inv g r l :
  project_row g r = Ok l →
  ∃ row, nth_error (g_rows g) r = Some row ∧
         length l = Nat.min 5 (Nat.max (g_ncols g) (length row) - 3).
Proof.
  unfold project_row, iloc_row.
  destruct (nth_error (g_rows g) r) as [row|]; [|discriminate].
  rewrite bind_Ok_eq. intros H. exists row. split; [done|].
  pose proof (map_res_run (fun val => clean_and_convert val false)
                (firstn 5 (skipn 3 (pad (g_ncols g) row)))) as Hm.
  rewrite H in Hm. destruct Hm as [_ ->].
  rewrite length_firstn, length_skipn, length_pad. done.
Qed.

(** The lists of the project impact have at most five entries. *)
Lemma load_lists_at_most_five file_source d :
  fst (_load_data file_source) = Some d →
  (length (ingresos_adicionales (proyectos d)) ≤ 5)%nat ∧
  (length (capex_inversion (proyectos d)) ≤ 5)%nat.
Proof.
  unfold _load_data.
  destruct (load_body file_source) as [r|e] eqn:Hb; [|by destruct e].
  cbn [fst]. intros ->.
  destruct file_source as [| |wb]; try discriminate.
  unfold load_body in Hb. do 18 bind_inv Hb. injection Hb as <-.
  cbn [proyectos ingresos_adicionales capex_inversion].
  repeat match goal with
         | H : project_row _ _ = Ok _ |- _ => apply project_row_inv in H as (? & _ & ->)
         end.
  lia.
Qed.

(** X10: when [_load_data] returns a bundle, nothing was printed, the
    source is a workbook with the three sheets, each of the ten labels
    names exactly one row of the assumptions sheet, that sheet has a value
    column, the detail sheet has a header row and a column, the grid of the
    bundle is the detail sheet without its header row and its first column,
    the impact sheet has at least fifteen rows, and each of the four lists
    of the project impact has as many entries as the impact sheet has
    columns from the fourth on, at most five. *)
Theorem load_requirements file_source d :
  fst (_load_data file_source) = Some d →
  ∃ wb df_base detalladas impacto,
    file_source = Book wb ∧ snd (_load_data file_source) = [] ∧
    parse_sheet sheet_Hipotesis_Base wb = Ok df_base ∧
    parse_sheet sheet_Proyecciones_Detalladas wb = Ok detalladas ∧
    parse_sheet sheet_Impacto_Proyectos wb = Ok impacto ∧
    (∀ label, label ∈ required_labels →
       ∃ r, List.filter (has_label label) df_base = [r]) ∧
    (2 ≤ sheet_width df_base)%nat ∧
    (1 ≤ length detalladas)%nat ∧ (1 ≤ sheet_width detalladas)%nat ∧
    length (g_rows (proyecciones d)) = (length detalladas - 1)%nat ∧
    g_ncols (proyecciones d) = (sheet_width detalladas - 1)%nat ∧
    (15 ≤ length impacto)%nat ∧
    let n := Nat.min 5 (sheet_width impacto - 3) in
    length (capex_inversion (proyectos d)) = n ∧
    length (ingresos_adicionales (proyectos d)) = n ∧
    length (gastos_ahorros_operativos (proyectos d)) = n ∧
    length (depreciacion_adicional (proyectos d)) = n.
Proof.
  unfold _load_data.
  destruct (load_body file_source) as [r|e] eqn:Hb; [|by destruct e].
  cbn [fst snd]. intros ->.
  destruct file_source as [| |wb]; try discriminate.
  exists wb. unfold load_body in Hb.
  bind_inv Hb. rename x into df_base, Hx into Hs1.
  do 10 bind_inv Hb.
  bind_inv Hb. rename x9 into det, Hx9 into Hs2.
  bind_inv Hb. rename x9 into grid, Hx9 into Hgrid.
  bind_inv Hb. rename x9 into imp, Hx9 into Hs3.
  do 4 bind_inv Hb. injection Hb as <-. cbn [proyecciones proyectos
    capex_inversion ingresos_adicionales gastos_ahorros_operativos
    depreciacion_adicional].
  exists df_base, det, imp.
  split; [done|]. split; [done|]. split; [done|]. split; [done|]. split; [done|].
  split.
  { intros label Hl. unfold required_labels in Hl.
    repeat (apply elem_of_cons in Hl as [->|Hl]); [..|by apply elem_of_nil in Hl];
      match goal with
      | H : get_base_value df_base ?l _ = Ok _ |- ∃ _, List.filter (has_label ?l) _ = _ =>
          apply get_base_value_inv in H as (r & _ & Hr & _); by exists r
      end. }
  split.
  { by apply get_base_value_inv in Hx as (_ & _ & _ & _ & _ & ?). }
  assert (∀ row, row ∈ skipn 2 imp → (length row ≤ sheet_width imp)%nat) as Hw.
  { intros row Hr. apply length_le_sheet_width.
    rewrite <- (firstn_skipn 2 imp). apply elem_of_app. by right. }
  assert (∀ r l, project_row (mkGrid (sheet_width imp) (skipn 2 imp)) r = Ok l →
                 (r + 2 < length imp)%nat ∧
                 length l = Nat.min 5 (sheet_width imp - 3)) as Hrow.
  { intros r l Hl. apply project_row_inv in Hl as (row & Hn & ->).
    cbn [g_rows g_ncols] in *. split.
    - assert (r < length (skipn 2 imp))%nat as Hlt
        by (apply nth_error_Some; congruence).
      rewrite length_skipn in Hlt. lia.
    - assert (row ∈ skipn 2 imp) as Hin
        by (apply list_elem_of_In; by eapply nth_error_In).
      apply Hw in Hin. lia. }
  destruct det as [|hd rows]; [discriminate|].
  destruct (sheet_width (hd :: rows)) as [|w] eqn:Hwd; [discriminate|].
  injection Hgrid as <-. cbn [g_rows g_ncols length].
  split; [lia|]. split; [lia|]. split; [by rewrite length_map; lia|].
  split; [lia|].
  repeat match goal with
         | H : project_row _ _ = Ok _ |- _ => apply Hrow in H as [? ?]
         end.
  split; [lia|]. by repeat split.
Qed.

Lemma length_zip_sub xs ys :
  length xs = length ys → length (zip_sub xs ys) = length xs.
Proof.
  revert ys; induction xs as [|x xs IH]; intros [|y ys] H; simpl in *; try done.
  f_equal. apply IH. lia.
Qed.

Lemma list_index_length l i x : list_index l i = Ok x → (Z.to_nat i < length l)%nat.
Proof.
  unfold list_index. destruct (nth_error l (Z.to_nat i)) eqn:E; [|discriminate].
  intros _. apply nth_error_Some. congruence.
Qed.

Section StreamlitRun.
Variable libm_pow : float → float → float.

(** A projection that succeeds has read five entries of each list of
    the project impact. *)
Lemma project_lists d df :
  project libm_pow d = Ok df →
  (5 ≤ length (ingresos_adicionales (proyectos d)))%nat ∧
  (5 ≤ length (capex_inversion (proyectos d)))%nat.
Proof.
  intros H. destruct (project_rows libm_pow d df 5 H ltac:(lia)) as (v & Hin & _).
  destruct Hin as (_&_&_&_&_&_&_&_&_& Hia & _ & _ & Hcp & _).
  apply list_index_length in Hia, Hcp. change (Z.to_nat (5 - 1)) with 4%nat in *.
  lia.
Qed.

(** The [try] block of [run_dcf_model] on a workbook that loads: the
    table of the projects is always built once the run succeeded. *)
Lemma run_dcf_model_body_run wb d0 wacc_pct g_pct isr_pct :
  fst (_load_data (Book wb)) = Some d0 →
  let d := set_sensitivity d0 (wacc_pct / 100) (g_pct / 100) (isr_pct / 100) in
  match project libm_pow d with
  | Ok df =>
      ∃ v fcf,
        get_col df "FCF" = Ok fcf ∧ length fcf = 5%nat ∧
        run_model libm_pow (mkModel (Some d) df_blank None)
        = Ok (true, mkModel (Some d) df (Some v)) ∧
        run_dcf_model_body libm_pow (Some wb) wacc_pct g_pct isr_pct
        = Ok (Some (mkModel (Some d) df (Some v),
                    mkProyectosDF (zrange start_year years)
                      (zip_sub fcf (ingresos_adicionales (proyectos d0)))
                      (ingresos_adicionales (proyectos d0))
                      (capex_inversion (proyectos d0)) fcf))
  | Raise e =>
      run_dcf_model_body libm_pow (Some wb) wacc_pct g_pct isr_pct = Raise e
  end.
Proof.
  intros Hload d. unfold run_dcf_model_body.
  change (data (__init__ (Book wb))) with (fst (_load_data (Book wb))).
  rewrite Hload. cbv zeta. fold d.
  change (proyeccion (__init__ (Book wb))) with df_blank.
  change (valoracion (__init__ (Book wb))) with (@None Valoracion).
  pose proof (run_model_fresh libm_pow (mkModel (Some d) df_blank None) d eq_refl) as Hr.
  destruct (project libm_pow d) as [df|e] eqn:Hp; [|by rewrite Hr, bind_Raise_eq].
  destruct Hr as (v & Hr & _). rewrite Hr, bind_Ok_eq. cbv beta iota.
  unfold get_detailed_proyection. cbn [proyeccion].
  destruct (project_discount libm_pow d df 5 Hp ltac:(lia)) as (x & _ & _ & Hx & _).
  apply loc_get_ok_col in Hx.
  pose proof (project_index libm_pow d df Hp) as Hi.
  rewrite (get_col_ok df "FCF") by done. rewrite !bind_Ok_eq.
  set (fcf := List.map _ (df_index df)).
  assert (length fcf = 5%nat) as Hlen
    by (unfold fcf; by rewrite length_map, Hi, length_zrange).
  destruct (load_lists_at_most_five _ _ Hload) as (Hia & Hcp).
  destruct (project_lists d df Hp) as [Hia5 Hcp5].
  change (proyectos d) with (proyectos d0) in *.
  assert (length (ingresos_adicionales (proyectos d0)) = 5%nat) as Hia' by lia.
  assert (length (capex_inversion (proyectos d0)) = 5%nat) as Hcp' by lia.
  exists v, fcf. split; [done|]. split; [done|]. split; [done|].
  unfold series_sub, frame_values.
  rewrite Hlen, Hia', Hcp', Hi, length_zrange. cbn [Nat.eqb years].
  by rewrite !bind_Ok_eq.
Qed.

(** X16: what [run_dcf_model] of the streamlit front end returns, by what
    the load and the run do.  It returns [None] exactly when the load
    failed.  When the bundle loaded, the three rates of the side bar
    divided by 100 are written into it and the model is run: when every
    input of the run is readable the result is the model of that run, which
    has a valuation, so the page's test on it holds, the valuation carries
    the three rates, and the table of the projects (which never fails to
    build) has the five years, the two project lists as loaded, the FCF
    column, and the FCF minus the additional revenue; otherwise the result
    is the pair of [None]s, after the [IndexError], [OverflowError] or
    [ZeroDivisionError] of the run was caught. *)
Theorem run_dcf_model_result uploaded_file wacc_pct g_pct isr_pct :
  match data (__init__ (match uploaded_file with
                        | Some wb => Book wb | None => Unreadable end)) with
  | None => run_dcf_model libm_pow uploaded_file wacc_pct g_pct isr_pct = NoModel
  | Some d0 =>
      let d := set_sensitivity d0 (wacc_pct / 100) (g_pct / 100) (isr_pct / 100) in
      if all_ready libm_pow d then
        ∃ model proyectos_df wb v,
          run_dcf_model libm_pow uploaded_file wacc_pct g_pct isr_pct
          = Result model proyectos_df ∧
          dashboard_shown (Result model proyectos_df) = true ∧
          uploaded_file = Some wb ∧ fst (_load_data (Book wb)) = Some d0 ∧
          run_model libm_pow (mkModel (Some d) df_blank None) = Ok (true, model) ∧
          data model = Some d ∧
          valoracion model = Some v ∧
          val_WACC v = (wacc_pct / 100)%float ∧
          val_G_Perpetuidad v = (g_pct / 100)%float ∧
          val_Tasa_ISR v = (isr_pct / 100)%float ∧
          Anio proyectos_df = [2026; 2027; 2028; 2029; 2030] ∧
          get_col (proyeccion model) "FCF" = Ok (FCF_Total proyectos_df) ∧
          Ingresos_Adicionales proyectos_df = ingresos_adicionales (proyectos d0) ∧
          CapEx_Proyectos proyectos_df = capex_inversion (proyectos d0) ∧
          FCF_Base proyectos_df
          = zip_sub (FCF_Total proyectos_df) (Ingresos_Adicionales proyectos_df) ∧
          length (FCF_Base proyectos_df) = 5%nat
      else
        ∃ e, input_error e ∧
             run_model libm_pow (mkModel (Some d) df_blank None) = Raise e ∧
             run_dcf_model libm_pow uploaded_file wacc_pct g_pct isr_pct = Failed e
  end.
Proof.
  unfold run_dcf_model.
  destruct uploaded_file as [wb|]; [|reflexivity].
  change (data (__init__ (Book wb))) with (fst (_load_data (Book wb))).
  destruct (fst (_load_data (Book wb))) as [d0|] eqn:Hload.
  - pose proof (run_dcf_model_body_run wb d0 wacc_pct g_pct isr_pct Hload) as H.
    cbv zeta in H. cbv zeta.
    set (d := set_sensitivity d0 (wacc_pct / 100) (g_pct / 100) (isr_pct / 100)) in *.
    pose proof (project_run libm_pow d) as Hp.
    pose proof (run_model_fresh libm_pow (mkModel (Some d) df_blank None) d eq_refl)
      as Hfresh.
    destruct (project libm_pow d) as [df|e] eqn:E.
    + rewrite Hp. clear Hfresh.
      destruct H as (v & fcf & Hf & Hlen & Hr & ->).
      exists (mkModel (Some d) df (Some v)), (mkProyectosDF (zrange start_year years)
                      (zip_sub fcf (ingresos_adicionales (proyectos d0)))
                      (ingresos_adicionales (proyectos d0))
                      (capex_inversion (proyectos d0)) fcf), wb, v.
      split; [reflexivity|]. split; [reflexivity|].
      split; [done|]. split; [done|]. split; [done|]. split; [done|].
      split; [done|].
      destruct (run_model_summary libm_pow (mkModel (Some d) df_blank None) d _
                  eq_refl Hr) as (v' & Hv' & Hw & Hg & Hi).
      cbn [valoracion] in Hv'. injection Hv' as <-.
      split; [exact Hw|]. split; [exact Hg|]. split; [exact Hi|].
      cbn [Anio FCF_Total Ingresos_Adicionales CapEx_Proyectos FCF_Base proyeccion].
      split; [reflexivity|]. split; [done|]. split; [done|]. split; [done|].
      split; [done|].
      destruct (load_lists_at_most_five _ _ Hload) as (Hia & _).
      destruct (project_lists _ _ E) as [Hia5 _].
      change (proyectos d) with (proyectos d0) in Hia5.
      rewrite length_zip_sub; [done|]. lia.
    + destruct Hp as [He ->]. exists e. split; [done|]. split; [exact Hfresh|].
      by rewrite H.
  - unfold run_dcf_model_body.
    change (data (__init__ (Book wb))) with (fst (_load_data (Book wb))).
    by rewrite Hload.
Qed.

End StreamlitRun.

Section TaxRate.
Variable libm_pow : float → float → float.

(** X17: in the streamlit front end, changing only the tax rate of the
    side bar never turns a result into a failure, leaves every column of
    the projection other than NOPAT, FCF and the discounted FCF as it was
    (EBIT among them), and makes the NOPAT of every year the same EBIT
    times (1 - new rate / 100); the project lists of the table are the
    same. *)
Theorem tax_rate_sensitivity uploaded_file wacc_pct g_pct isr1 isr2 m1 p1 :
  run_dcf_model libm_pow uploaded_file wacc_pct g_pct isr1 = Result m1 p1 →
  ∃ m2 p2,
    run_dcf_model libm_pow uploaded_file wacc_pct g_pct isr2 = Result m2 p2 ∧
    (∀ y c, c ∉ taxed_columns →
            loc_get (proyeccion m2) y c = loc_get (proyeccion m1) y c) ∧
    (∀ t, 1 ≤ t ≤ 5 →
       ∃ ebit_t,
         loc_get (proyeccion m1) (year_str t) "EBIT" = Ok ebit_t ∧
         loc_get (proyeccion m2) (year_str t) "EBIT" = Ok ebit_t ∧
         loc_get (proyeccion m1) (year_str t) "NOPAT"
         = Ok (ebit_t * (1 - isr1 / 100))%float ∧
         loc_get (proyeccion m2) (year_str t) "NOPAT"
         = Ok (ebit_t * (1 - isr2 / 100))%float) ∧
    Ingresos_Adicionales p2 = Ingresos_Adicionales p1 ∧
    CapEx_Proyectos p2 = CapEx_Proyectos p1.
Proof.
  unfold run_dcf_model. intros H.
  destruct uploaded_file as [wb|]; [|discriminate].
  destruct (fst (_load_data (Book wb))) as [d0|] eqn:Hload.
  2:{ unfold run_dcf_model_body in H.
      change (data (__init__ (Book wb))) with (fst (_load_data (Book wb))) in H.
      by rewrite Hload in H. }
  pose proof (run_dcf_model_body_run libm_pow wb d0 wacc_pct g_pct isr1 Hload) as H1.
  pose proof (run_dcf_model_body_run libm_pow wb d0 wacc_pct g_pct isr2 Hload) as H2.
  cbv zeta in H1, H2.
  set (d1 := set_sensitivity d0 (wacc_pct / 100) (g_pct / 100) (isr1 / 100)) in *.
  set (d2 := set_sensitivity d0 (wacc_pct / 100) (g_pct / 100) (isr2 / 100)) in *.
  destruct (project libm_pow d1) as [df1|e] eqn:E1; [|by rewrite H1 in H].
  destruct H1 as (v1 & fcf1 & _ & _ & _ & H1). rewrite H1 in H.
  injection H as <- <-.
  destruct (project_taxed libm_pow d1 (isr2 / 100) df1 E1) as (df2 & E2 & Hsame).
  change (set_isr d1 (isr2 / 100)) with d2 in E2.
  rewrite E2 in H2. destruct H2 as (v2 & fcf2 & _ & _ & _ & ->).
  eexists _, _. split; [reflexivity|]. cbn [proyeccion Ingresos_Adicionales CapEx_Proyectos].
  split; [intros y c Hc; by apply (same_except_loc_get taxed_columns)|].
  split; [|done]. intros t Ht.
  destruct (project_rows libm_pow d1 df1 t E1 Ht) as (w1 & _ & Hst1).
  destruct (project_rows libm_pow d2 df2 t E2 Ht) as (w2 & _ & Hst2).
  destruct Hst1 as (_&_&_&_&Hebit1&_&Hnopat1&_).
  destruct Hst2 as (_&_&_&_&Hebit2&_&Hnopat2&_).
  rewrite (same_except_loc_get taxed_columns df2 df1) in Hebit2;
    [|done|unfold taxed_columns; intros Hin;
      repeat (apply elem_of_cons in Hin as [Hin|Hin]; [discriminate|]);
      by apply elem_of_nil in Hin].
  exists (ebit (base d1) w1).
  split; [done|]. split.
  { rewrite (same_except_loc_get taxed_columns df2 df1); [done|done|].
    unfold taxed_columns; intros Hin.
    repeat (apply elem_of_cons in Hin as [Hin|Hin]; [discriminate|]).
    by apply elem_of_nil in Hin. }
  split; [exact Hnopat1|].
  rewrite Hnopat2. unfold nopat. f_equal. f_equal. congruence.
Qed.

End TaxRate.

Section Handlers.
Variable libm_pow : float → float → float.
Variable FontWeight_has_SEMIBOLD : bool.

(** X15: a model whose load returned [None] is not ready, and says so
    without an exception: [run_model], [_calculate_projection] and
    [_calculate_valuation] return [False] and change nothing, the summary
    is empty and the table is empty, and the upload shows the error
    status.  Drawing the page would raise a [KeyError], and a
    recalculation raises a [TypeError]: the desktop handler, which only
    tests that a model object exists and only catches [ValueError], lets
    it through when a sensitivity field is edited after a failed upload. *)
Theorem failed_load_is_not_ready file_source :
  fst (_load_data file_source) = None →
  let m := __init__ file_source in
  run_model libm_pow m = Ok (false, m) ∧
  _calculate_projection libm_pow m = Ok (false, m) ∧
  _calculate_valuation m = Ok (false, m) ∧
  get_valuation_summary m = None ∧
  df_empty (get_detailed_proyection m) = true ∧
  execute_model_after_upload_sync libm_pow FontWeight_has_SEMIBOLD file_source
  = Ok (m, StatusReadError, None) ∧
  update_results FontWeight_has_SEMIBOLD m = Raise (KeyError "Valor_Empresa_VE") ∧
  (∀ new_wacc_pct new_g_pct,
     recalculate_dcf_model_sync libm_pow m new_wacc_pct new_g_pct
     = Raise TypeError) ∧
  (∀ wacc_input g_input,
     is_Some (PyFloat.of_str (Str.chars wacc_input)) →
     is_Some (PyFloat.of_str (Str.chars g_input)) →
     run_recalculation libm_pow FontWeight_has_SEMIBOLD (Some m) wacc_input g_input
     = Raise TypeError).
Proof.
  intros Hload m.
  assert (data m = None) as Hd by exact Hload.
  unfold run_model, _calculate_projection, execute_model_after_upload_sync,
    recalculate_dcf_model_sync, run_recalculation. fold m. rewrite Hd.
  do 6 (split; [reflexivity|]). split; [reflexivity|]. split; [done|].
  intros ws gs [w Hw] [g Hg]. rewrite Hw, Hg.
  unfold recalculate_dcf_model_sync. by rewrite Hd.
Qed.

(** X14: the handler of the two sensitivity fields on a loaded model, by
    what [float] makes of the two texts and what the run does.  When
    [float] rejects one of the two texts the status is 'WACC y g deben ser
    valores numericos' and the model is untouched; that status is shown in
    no other case (no [ValueError] comes from the run or from the page).
    When both texts are numbers, the two rates divided by 100 are written
    into the bundle and the model is run: when every input of the run is
    readable, the summary carries the two rates and [update_results] is
    called, after which the status is 'Modelo recalculado' and the page is
    the one it drew, or, when Flet's [FontWeight] has no member
    [SEMIBOLD], the handler raises [AttributeError]; otherwise the handler
    raises the [IndexError], [OverflowError] or [ZeroDivisionError] of the
    run, which it does not catch. *)
Theorem run_recalculation_outcome dcf_model d wacc_input g_input :
  data dcf_model = Some d →
  match PyFloat.of_str (Str.chars wacc_input),
        PyFloat.of_str (Str.chars g_input) with
  | Some w, Some g =>
      let d2 := set_rates d (w / 100) (g / 100) in
      if all_ready libm_pow d2 then
        ∃ m2 v,
          recalculate_dcf_model_sync libm_pow dcf_model w g = Ok m2 ∧
          data m2 = Some d2 ∧
          valoracion m2 = Some v ∧
          val_WACC v = (w / 100)%float ∧ val_G_Perpetuidad v = (g / 100)%float ∧
          if FontWeight_has_SEMIBOLD then
            ∃ s, update_results FontWeight_has_SEMIBOLD m2 = Ok s ∧
                 run_recalculation libm_pow FontWeight_has_SEMIBOLD
                   (Some dcf_model) wacc_input g_input
                 = Ok (Some m2, StatusRecalculated, Some s)
          else
            run_recalculation libm_pow FontWeight_has_SEMIBOLD
              (Some dcf_model) wacc_input g_input
            = Raise AttributeError
      else
        ∃ e, input_error e ∧
             recalculate_dcf_model_sync libm_pow dcf_model w g = Raise e ∧
             run_recalculation libm_pow FontWeight_has_SEMIBOLD
               (Some dcf_model) wacc_input g_input
             = Raise e
  | _, _ =>
      run_recalculation libm_pow FontWeight_has_SEMIBOLD
        (Some dcf_model) wacc_input g_input
      = Ok (Some dcf_model, StatusNotNumeric, None)
  end.
Proof.
  intros Hd. unfold run_recalculation.
  destruct (PyFloat.of_str (Str.chars wacc_input)) as [w|]; [|reflexivity].
  destruct (PyFloat.of_str (Str.chars g_input)) as [g|]; [|reflexivity].
  unfold recalculate_dcf_model_sync. rewrite Hd. cbv zeta.
  set (d2 := set_rates d (w / 100) (g / 100)).
  pose proof (run_model_cases libm_pow
                (mkModel (Some d2) (proyeccion dcf_model) (valoracion dcf_model))
                d2 eq_refl) as Ho.
  destruct (run_model libm_pow _) as [[b m2]|e] eqn:Hr.
  - destruct Ho as (-> & -> & Hd2). rewrite !bind_Ok_eq. cbv beta iota.
    destruct (run_model_summary libm_pow
                (mkModel (Some d2) (proyeccion dcf_model) (valoracion dcf_model))
                d2 _ eq_refl Hr) as (v & Hv & Hw & Hg & _).
    destruct (update_results_run libm_pow FontWeight_has_SEMIBOLD _ _ Hr) as (s & Hu).
    exists m2, v.
    split; [done|]. split; [done|]. split; [done|]. split; [exact Hw|].
    split; [exact Hg|].
    rewrite Hu. destruct FontWeight_has_SEMIBOLD; [|done].
    exists s. done.
  - destruct Ho as [He ->]. rewrite !bind_Raise_eq. exists e.
    split; [done|]. split; [done|].
    destruct He as [->|[->| ->]]; reflexivity.
Qed.

End Handlers.

(** * The further properties on the sample workbook *)

Lemma sample_data :
  data (Sample.model (CStr "20%") (CFloat 0.03))
  = Some (Sample.bundle (CStr "20%") (CFloat 0.03)).
Proof. vm_compute. reflexivity. Qed.

Lemma sample_load :
  fst (_load_data (Book (Sample.workbook (CStr "20%") (CFloat 0.03))))
  = Some (Sample.bundle (CStr "20%") (CFloat 0.03)).
Proof. vm_compute. reflexivity. Qed.

Lemma without_sheet_load : fst (_load_data (Book Sample.without_sheet)) = None.
Proof. vm_compute. reflexivity. Qed.

Lemma sample_streamlit :
  run_dcf_model Fl.pow_rounded
    (Some (Sample.workbook (CStr "20%") (CFloat 0.03))) 20 3 30
  = Result SampleApp.model SampleApp.table.
Proof. vm_compute. reflexivity. Qed.

Lemma run_model_outcome_witness :
  let libm_pow := Fl.pow_rounded in
  let self := Sample.model (CStr "20%") (CFloat 0.03) in
  let d := Sample.bundle (CStr "20%") (CFloat 0.03) in
  match run_model libm_pow self with
  | Ok (b, self') =>
      b = true ∧ all_ready libm_pow d = true ∧ data self' = Some d ∧
      is_Some (valoracion self') ∧ df_empty (proyeccion self') = false
  | Raise e => input_error e ∧ all_ready libm_pow d = false
  end.
Proof.
  intros libm_pow self d.
  apply (run_model_outcome libm_pow self d).
  exact sample_data.
Defined.

Lemma projection_table_shape_witness :
  let libm_pow := Fl.pow_rounded in
  let self := Sample.model (CStr "20%") (CFloat 0.03) in
  let self' := Sample.projected (CStr "20%") (CFloat 0.03) in
  df_index (proyeccion self') = [2026; 2027; 2028; 2029; 2030] ∧
  df_columns (proyeccion self') =
    [ "Ingresos_B1"; "Ingresos_B2"; "Ingresos_G"; "Ingresos Totales"; "EBIT";
      "Depreciacion"; "NOPAT"; "Capital de Trabajo"; "Delta CTN"; "CapEx Total";
      "FCF"; "VP Factor"; "Valor Presente FCF" ]%string ∧
  ∀ c, c ∈ df_columns (proyeccion self') →
       ∃ col, get_col (proyeccion self') c = Ok col ∧ length col = 5%nat.
Proof.
  intros libm_pow self self'.
  apply (projection_table_shape libm_pow self self').
  exact sample_projection.
Defined.

Lemma run_model_overwrites_witness :
  let libm_pow := Fl.pow_rounded in
  let self := Sample.model (CStr "20%") (CFloat 0.03) in
  let self' := Sample.valued (CStr "20%") (CFloat 0.03) in
  data self' = data self ∧
  (∀ df0 v0, run_model libm_pow (mkModel (data self) df0 v0) = Ok (true, self')) ∧
  run_model libm_pow self' = Ok (true, self').
Proof.
  intros libm_pow self self'.
  apply (run_model_overwrites libm_pow self self').
  exact sample_run.
Defined.

Lemma recalculation_last_wins_witness :
  let libm_pow := Fl.pow_rounded in
  let dcf_model := Sample.valued (CStr "20%") (CFloat 0.03) in
  let w1 := 10%float in
  let g1 := 3%float in
  let m1 := Sample.recalculated (Sample.valued (CStr "20%") (CFloat 0.03)) 10 3 in
  let w2 := 25%float in
  let g2 := 3%float in
  (∃ d, data dcf_model = Some d ∧
        data m1 = Some (set_rates d (w1 / 100) (g1 / 100))) ∧
  recalculate_dcf_model_sync libm_pow m1 w2 g2
  = recalculate_dcf_model_sync libm_pow dcf_model w2 g2.
Proof.
  intros libm_pow dcf_model w1 g1 m1 w2 g2.
  apply (recalculation_last_wins libm_pow dcf_model w1 g1 m1 w2 g2).
  exact sample_recalculated_10.
Defined.

Lemma growth_rate_only_moves_the_terminal_value_witness :
  let libm_pow := Fl.pow_rounded in
  let dcf_model := Sample.valued (CStr "20%") (CFloat 0.03) in
  let wacc_pct := 10%float in
  let g1 := 3%float in
  let g2 := 5%float in
  let m1 := Sample.recalculated (Sample.valued (CStr "20%") (CFloat 0.03)) 10 3 in
  ∃ m2 fcf_n,
    recalculate_dcf_model_sync libm_pow dcf_model wacc_pct g2 = Ok m2 ∧
    proyeccion m2 = proyeccion m1 ∧
    VE_FCF_Proyectados <$> valoracion m2 = VE_FCF_Proyectados <$> valoracion m1 ∧
    loc_get (proyeccion m1) last_year_label "FCF" = Ok fcf_n ∧
    Valor_Terminal <$> valoracion m1 =
      Some (fcf_n * (1 + g1 / 100) / (wacc_pct / 100 - g1 / 100))%float ∧
    Valor_Terminal <$> valoracion m2 =
      Some (fcf_n * (1 + g2 / 100) / (wacc_pct / 100 - g2 / 100))%float ∧
    val_G_Perpetuidad <$> valoracion m2 = Some (g2 / 100)%float.
Proof.
  intros libm_pow dcf_model wacc_pct g1 g2 m1.
  apply (growth_rate_only_moves_the_terminal_value libm_pow dcf_model wacc_pct g1 g2 m1).
  exact sample_recalculated_10.
Defined.

Lemma base_year_total_revenue_is_never_read_witness :
  let libm_pow := Fl.pow_rounded in
  let self := Sample.model (CStr "20%") (CFloat 0.03) in
  let d := Sample.bundle (CStr "20%") (CFloat 0.03) in
  let x := 0%float in
  match run_model libm_pow self,
        run_model libm_pow (mkModel (Some (set_ingresos_totales d x))
                                    (proyeccion self) (valoracion self)) with
  | Ok (b1, m1), Ok (b2, m2) =>
      b1 = b2 ∧ proyeccion m1 = proyeccion m2 ∧ valoracion m1 = valoracion m2
  | Raise e1, Raise e2 => e1 = e2
  | _, _ => False
  end.
Proof.
  intros libm_pow self d x.
  apply (base_year_total_revenue_is_never_read libm_pow self d x).
  exact sample_data.
Defined.

Lemma free_cash_flow_identities_witness :
  let libm_pow := Fl.pow_rounded in
  let self := Sample.model (CStr "20%") (CFloat 0.03) in
  let self' := Sample.projected (CStr "20%") (CFloat 0.03) in
  let t := 3 in
  let df := proyeccion self' in
  let y := year_str t in
  ∃ d b1 b2 bg total ebit_t dep nopat_t delta capex fcf_t ia da cp,
    data self = Some d ∧
    loc_get df y "Ingresos_B1" = Ok b1 ∧ loc_get df y "Ingresos_B2" = Ok b2 ∧
    loc_get df y "Ingresos_G" = Ok bg ∧
    loc_get df y "Ingresos Totales" = Ok total ∧
    loc_get df y "EBIT" = Ok ebit_t ∧ loc_get df y "Depreciacion" = Ok dep ∧
    loc_get df y "NOPAT" = Ok nopat_t ∧ loc_get df y "Delta CTN" = Ok delta ∧
    loc_get df y "CapEx Total" = Ok capex ∧ loc_get df y "FCF" = Ok fcf_t ∧
    list_index (ingresos_adicionales (proyectos d)) (t - 1) = Ok ia ∧
    list_index (depreciacion_adicional (proyectos d)) (t - 1) = Ok da ∧
    list_index (capex_inversion (proyectos d)) (t - 1) = Ok cp ∧
    total = (b1 + b2 + bg + ia)%float ∧
    dep = ((b1 + b2 + bg) * Dep_Pct_Base (base d) + da)%float ∧
    nopat_t = (ebit_t * (1 - Tasa_ISR (base d)))%float ∧
    capex = ((b1 + b2 + bg) * CapEx_Pct_Base (base d) + cp)%float ∧
    fcf_t = (nopat_t + dep - delta - capex)%float.
Proof.
  intros libm_pow self self' t.
  apply (free_cash_flow_identities libm_pow self self' t).
  - exact sample_projection.
  - unfold t. lia.
Defined.

Lemma load_requirements_witness :
  let file_source := Book (Sample.workbook (CStr "20%") (CFloat 0.03)) in
  let d := Sample.bundle (CStr "20%") (CFloat 0.03) in
  ∃ wb df_base detalladas impacto,
    file_source = Book wb ∧ snd (_load_data file_source) = [] ∧
    parse_sheet sheet_Hipotesis_Base wb = Ok df_base ∧
    parse_sheet sheet_Proyecciones_Detalladas wb = Ok detalladas ∧
    parse_sheet sheet_Impacto_Proyectos wb = Ok impacto ∧
    (∀ label, label ∈ required_labels →
       ∃ r, List.filter (has_label label) df_base = [r]) ∧
    (2 ≤ sheet_width df_base)%nat ∧
    (1 ≤ length detalladas)%nat ∧ (1 ≤ sheet_width detalladas)%nat ∧
    length (g_rows (proyecciones d)) = (length detalladas - 1)%nat ∧
    g_ncols (proyecciones d) = (sheet_width detalladas - 1)%nat ∧
    (15 ≤ length impacto)%nat ∧
    let n := Nat.min 5 (sheet_width impacto - 3) in
    length (capex_inversion (proyectos d)) = n ∧
    length (ingresos_adicionales (proyectos d)) = n ∧
    length (gastos_ahorros_operativos (proyectos d)) = n ∧
    length (depreciacion_adicional (proyectos d)) = n.
Proof.
  intros file_source d.
  apply (load_requirements file_source d).
  exact sample_load.
Defined.

Lemma update_results_after_run_witness :
  let libm_pow := Fl.pow_rounded in
  let FontWeight_has_SEMIBOLD := false in
  let self := Sample.model (CStr "20%") (CFloat 0.03) in
  let self' := Sample.valued (CStr "20%") (CFloat 0.03) in
  ∃ v rows,
    valoracion self' = Some v ∧
    update_results FontWeight_has_SEMIBOLD self'
    = (if FontWeight_has_SEMIBOLD
       then Ok (mkScreen (format_currency (Valor_Empresa_VE v))
                         (format_currency (VP_Valor_Terminal v))
                         (val_WACC v) (val_G_Perpetuidad v) (Some rows))
       else Raise AttributeError) ∧
    length rows = 5%nat ∧
    ∀ t, 1 ≤ t ≤ 5 →
      ∃ ingresos fcf vp,
        loc_get (proyeccion self') (year_str t) "Ingresos Totales" = Ok ingresos ∧
        loc_get (proyeccion self') (year_str t) "FCF" = Ok fcf ∧
        loc_get (proyeccion self') (year_str t) "Valor Presente FCF" = Ok vp ∧
        rows !! Z.to_nat (t - 1)
        = Some [format_currency ingresos; format_currency fcf; format_currency vp].
Proof.
  intros libm_pow FontWeight_has_SEMIBOLD self self'.
  apply (update_results_after_run libm_pow FontWeight_has_SEMIBOLD self self').
  exact sample_run.
Defined.

Lemma run_recalculation_outcome_witness :
  let libm_pow := Fl.pow_rounded in
  let FontWeight_has_SEMIBOLD := false in
  let dcf_model := Sample.model (CStr "20%") (CFloat 0.03) in
  let d := Sample.bundle (CStr "20%") (CFloat 0.03) in
  let wacc_input := "18.5"%string in
  let g_input := "2"%string in
  match PyFloat.of_str (Str.chars wacc_input),
        PyFloat.of_str (Str.chars g_input) with
  | Some w, Some g =>
      let d2 := set_rates d (w / 100) (g / 100) in
      if all_ready libm_pow d2 then
        ∃ m2 v,
          recalculate_dcf_model_sync libm_pow dcf_model w g = Ok m2 ∧
          data m2 = Some d2 ∧
          valoracion m2 = Some v ∧
          val_WACC v = (w / 100)%float ∧ val_G_Perpetuidad v = (g / 100)%float ∧
          if FontWeight_has_SEMIBOLD then
            ∃ s, update_results FontWeight_has_SEMIBOLD m2 = Ok s ∧
                 run_recalculation libm_pow FontWeight_has_SEMIBOLD
                   (Some dcf_model) wacc_input g_input
                 = Ok (Some m2, StatusRecalculated, Some s)
          else
            run_recalculation libm_pow FontWeight_has_SEMIBOLD
              (Some dcf_model) wacc_input g_input
            = Raise AttributeError
      else
        ∃ e, input_error e ∧
             recalculate_dcf_model_sync libm_pow dcf_model w g = Raise e ∧
             run_recalculation libm_pow FontWeight_has_SEMIBOLD
               (Some dcf_model) wacc_input g_input
             = Raise e
  | _, _ =>
      run_recalculation libm_pow FontWeight_has_SEMIBOLD
        (Some dcf_model) wacc_input g_input
      = Ok (Some dcf_model, StatusNotNumeric, None)
  end.
Proof.
  intros libm_pow FontWeight_has_SEMIBOLD dcf_model d wacc_input g_input.
  apply (run_recalculation_outcome libm_pow FontWeight_has_SEMIBOLD
           dcf_model d wacc_input g_input).
  exact sample_data.
Defined.

Lemma failed_load_is_not_ready_witness :
  let libm_pow := Fl.pow_rounded in
  let FontWeight_has_SEMIBOLD := false in
  let file_source := Book Sample.without_sheet in
  let m := __init__ file_source in
  run_model libm_pow m = Ok (false, m) ∧
  _calculate_projection libm_pow m = Ok (false, m) ∧
  _calculate_valuation m = Ok (false, m) ∧
  get_valuation_summary m = None ∧
  df_empty (get_detailed_proyection m) = true ∧
  execute_model_after_upload_sync libm_pow FontWeight_has_SEMIBOLD file_source
  = Ok (m, StatusReadError, None) ∧
  update_results FontWeight_has_SEMIBOLD m = Raise (KeyError "Valor_Empresa_VE") ∧
  (∀ new_wacc_pct new_g_pct,
     recalculate_dcf_model_sync libm_pow m new_wacc_pct new_g_pct
     = Raise TypeError) ∧
  (∀ wacc_input g_input,
     is_Some (PyFloat.of_str (Str.chars wacc_input)) →
     is_Some (PyFloat.of_str (Str.chars g_input)) →
     run_recalculation libm_pow FontWeight_has_SEMIBOLD (Some m) wacc_input g_input
     = Raise TypeError).
Proof.
  intros libm_pow FontWeight_has_SEMIBOLD file_source.
  apply (failed_load_is_not_ready libm_pow FontWeight_has_SEMIBOLD file_source).
  exact without_sheet_load.
Defined.

Lemma tax_rate_sensitivity_witness :
  let libm_pow := Fl.pow_rounded in
  let uploaded_file := Some (Sample.workbook (CStr "20%") (CFloat 0.03)) in
  let wacc_pct := 20%float in
  let g_pct := 3%float in
  let isr1 := 30%float in
  let isr2 := 25%float in
  let m1 := SampleApp.model in
  let p1 := SampleApp.table in
  ∃ m2 p2,
    run_dcf_model libm_pow uploaded_file wacc_pct g_pct isr2 = Result m2 p2 ∧
    (∀ y c, c ∉ taxed_columns →
            loc_get (proyeccion m2) y c = loc_get (proyeccion m1) y c) ∧
    (∀ t, 1 ≤ t ≤ 5 →
       ∃ ebit_t,
         loc_get (proyeccion m1) (year_str t) "EBIT" = Ok ebit_t ∧
         loc_get (proyeccion m2) (year_str t) "EBIT" = Ok ebit_t ∧
         loc_get (proyeccion m1) (year_str t) "NOPAT"
         = Ok (ebit_t * (1 - isr1 / 100))%float ∧
         loc_get (proyeccion m2) (year_str t) "NOPAT"
         = Ok (ebit_t * (1 - isr2 / 100))%float) ∧
    Ingresos_Adicionales p2 = Ingresos_Adicionales p1 ∧
    CapEx_Proyectos p2 = CapEx_Proyectos p1.
Proof.
  intros libm_pow uploaded_file wacc_pct g_pct isr1 isr2 m1 p1.
  apply (tax_rate_sensitivity libm_pow uploaded_file wacc_pct g_pct isr1 isr2 m1 p1).
  exact sample_streamlit.
Defined.

Lemma clean_and_convert_ignores_decoration_witness :
  clean_and_convert
    (CStr (Str.of_chars ([" "%char] ++ Str.chars "2000" ++ [" "%char]))) true
  = clean_and_convert (CStr (Str.of_chars (Str.chars "2000"))) true.
Proof.
  apply (proj1 (proj2 (proj2 clean_and_convert_ignores_decoration)));
    repeat constructor.
Defined.

Lemma label_lookup_is_robust_witness :
  normalize_label
    (CStr (Str.of_chars ([" "%char] ++ Str.chars "WACC" ++ [" "%char; " "%char])))
  = normalize_label (CStr (Str.of_chars (Str.chars "WACC"))).
Proof.
  apply (proj1 label_lookup_is_robust); repeat constructor.
Defined.

(** The figures of the sample in the two front ends: the page of the
    desktop front end when Flet's [FontWeight] has a member [SEMIBOLD],
    its exception when it has none, and the table of the streamlit front
    end. *)
Example sample_front_ends :
  let m := Sample.valued (CStr "20%") (CFloat 0.03) in
  update_results false m = Raise AttributeError ∧
  execute_model_after_upload_sync Fl.pow_rounded false
    (Book (Sample.workbook (CStr "20%") (CFloat 0.03)))
  = Raise AttributeError ∧
  kpi_valor_empresa <$> (match update_results true m with
                         | Ok s => Some s
                         | Raise _ => None
                         end)
  = Some "$2,916,266"%string ∧
  (match update_results true m with
   | Ok s => results_table s
   | Raise _ => None
   end) ≫= (fun rows => rows !! 0%nat)
  = Some ["$2,240,000"; "$253,512"; "$211,260"]%string ∧
  val_Tasa_ISR <$> valoracion SampleApp.model = Some 0.3%float ∧
  Anio SampleApp.table = [2026; 2027; 2028; 2029; 2030].
Proof. vm_compute. repeat split; reflexivity. Qed.
